(** * MySchool backend: identity verification and session issuance

    A shallow embedding of [app/models/user.py], [app/utils/validators.py]
    and [app/views/auth.py], together with the properties of the one-time-code
    life cycle, the role resolver, registration, login and federated login.

    Conventions of the embedding.
    - A Python [str] is a [string]; a character is a code point below 256.
      [lower], [strip] and the character classes of the regular expression
      follow Python on that range.
    - A [datetime] is a number of microseconds ([Z]); [timedelta(minutes=10)]
      is [ten_minutes].
    - A JSON request body is a [gmap string string]: the fields the views read
      are string valued, a missing key is [None].
    - The [users] table is a [list User] in insertion order; a view is a
      function from the store and its inputs to the new store and the
      response.  An exception caught by a view's handler rolls the session
      back, so the store is returned unchanged. *)

From Stdlib Require Import ZArith String Ascii List Bool Lia.
From stdpp Require Import base decidable option list strings pretty gmap.

Local Open Scope string_scope.
Local Open Scope Z_scope.

(** ** Python strings *)

Module PyStr.

Definition ord (c : ascii) : Z := Z.of_N (N_of_ascii c).

Definition between (lo hi : Z) (c : ascii) : bool :=
  (lo <=? ord c) && (ord c <=? hi).

(** [str.lower] on one code point: [A-Z], and the upper-case letters of the
    Latin-1 block (U+00C0..U+00DE without the multiplication sign). *)
Definition is_upper (c : ascii) : bool :=
  between 65 90 c || between 192 214 c || between 216 222 c.

Definition lower_char (c : ascii) : ascii :=
  if is_upper c then ascii_of_N (N_of_ascii c + 32) else c.

Fixpoint lower (s : string) : string :=
  match s with
  | EmptyString => EmptyString
  | String c s' => String (lower_char c) (lower s')
  end.

(** [str.isspace] on one code point. *)
Definition is_space (c : ascii) : bool :=
  between 9 13 c || between 28 32 c || (ord c =? 133) || (ord c =? 160).

Fixpoint lstrip (s : string) : string :=
  match s with
  | EmptyString => EmptyString
  | String c s' => if is_space c then lstrip s' else s
  end.

Fixpoint rstrip (s : string) : string :=
  match s with
  | EmptyString => EmptyString
  | String c s' =>
      match rstrip s' with
      | EmptyString => if is_space c then EmptyString else String c EmptyString
      | r => String c r
      end
  end.

(** [s.strip()] *)
Definition strip (s : string) : string := rstrip (lstrip s).

(** [s.endswith(suf)]: some tail of [s] is [suf]. *)
Fixpoint endswith (s suf : string) : bool :=
  String.eqb s suf ||
  match s with
  | EmptyString => false
  | String _ s' => endswith s' suf
  end.

(** [s.split(sep)[0]] for a one-character separator: the text before the
    first occurrence of [sep], the whole of [s] when there is none. *)
Fixpoint split_head (sep : ascii) (s : string) : string :=
  match s with
  | EmptyString => EmptyString
  | String c s' => if Ascii.eqb c sep then EmptyString else String c (split_head sep s')
  end.

(** Truth value of a string: [not s] holds of the empty string only. *)
Definition truthy (s : string) : bool := negb (String.eqb s "").

(** Truth value of [d.get(k)] for a string-valued field. *)
Definition truthy_opt (o : option string) : bool :=
  match o with
  | None => false
  | Some s => truthy s
  end.

(** [str(n)] for an integer. *)
Definition str (n : Z) : string := pretty n.

(** [len(s)] *)
Definition len (s : string) : Z := Z.of_nat (String.length s).

Definition is_digit (c : ascii) : bool := between 48 57 c.

Fixpoint all_digits (s : string) : bool :=
  match s with
  | EmptyString => true
  | String c s' => is_digit c && all_digits s'
  end.

(** [int(s)] on a string of decimal digits, most significant first. *)
Fixpoint int_acc (acc : Z) (s : string) : Z :=
  match s with
  | EmptyString => acc
  | String c s' => int_acc (10 * acc + (ord c - 48)) s'
  end.

Definition int (s : string) : Z := int_acc 0 s.

End PyStr.

(** ** Regular expressions, as far as [validate_email] needs them *)

Module Re.

Inductive regex : Type :=
| Void : regex
| Eps : regex
| Class : (ascii -> bool) -> regex
| Cat : regex -> regex -> regex
| Alt : regex -> regex -> regex
| Star : regex -> regex.

Fixpoint nullable (r : regex) : bool :=
  match r with
  | Void => false
  | Eps => true
  | Class _ => false
  | Cat a b => nullable a && nullable b
  | Alt a b => nullable a || nullable b
  | Star _ => true
  end.

(** Concatenation and alternation that drop the empty language, so that
    derivatives stay small. *)
Definition cat (a b : regex) : regex :=
  match a, b with
  | Void, _ => Void
  | _, Void => Void
  | Eps, _ => b
  | _, _ => Cat a b
  end.

Definition alt (a b : regex) : regex :=
  match a, b with
  | Void, _ => b
  | _, Void => a
  | _, _ => Alt a b
  end.

Fixpoint deriv (c : ascii) (r : regex) : regex :=
  match r with
  | Void => Void
  | Eps => Void
  | Class p => if p c then Eps else Void
  | Cat a b =>
      alt (cat (deriv c a) b) (if nullable a then deriv c b else Void)
  | Alt a b => alt (deriv c a) (deriv c b)
  | Star a => cat (deriv c a) (Star a)
  end.

(** The whole of [s] is in the language of [r]. *)
Fixpoint fullmatch (r : regex) (s : string) : bool :=
  match s with
  | EmptyString => nullable r
  | String c s' => fullmatch (deriv c r) s'
  end.

(** The language of a regular expression, as a relation: what [fullmatch]
    decides ([RegexFacts.fullmatch_matches] below). *)
Inductive matches : regex -> string -> Prop :=
| matches_eps : matches Eps ""
| matches_class (p : ascii -> bool) (c : ascii) :
    p c = true -> matches (Class p) (String c "")
| matches_cat (a b : regex) (s t : string) :
    matches a s -> matches b t -> matches (Cat a b) (s ++ t)
| matches_alt_l (a b : regex) (s : string) : matches a s -> matches (Alt a b) s
| matches_alt_r (a b : regex) (s : string) : matches b s -> matches (Alt a b) s
| matches_star_nil (a : regex) : matches (Star a) ""
| matches_star_cons (a : regex) (s t : string) :
    matches a s -> matches (Star a) t -> matches (Star a) (s ++ t).

(** Every character class of [r] is closed under the map [f]. *)
Fixpoint closed_under (f : ascii -> ascii) (r : regex) : Prop :=
  match r with
  | Void | Eps => True
  | Class p => forall c : ascii, p c = true -> p (f c) = true
  | Cat a b | Alt a b => closed_under f a /\ closed_under f b
  | Star a => closed_under f a
  end.

Definition chr (c : ascii) : regex := Class (Ascii.eqb c).
Definition plus (r : regex) : regex := Cat r (Star r).
Definition at_least_two (r : regex) : regex := Cat r (Cat r (Star r)).

(** A final [$] of a Python pattern (no MULTILINE flag) matches at the end
    of the string and just before a newline that ends the string. *)
Definition dollar : regex := Alt Eps (chr "010").

End Re.

(** ** [app/utils/validators.py] *)

Module Validators.
Import PyStr Re.

Definition is_alpha (c : ascii) : bool := between 97 122 c || between 65 90 c.
Definition is_alnum (c : ascii) : bool := is_alpha c || between 48 57 c.

Definition one_of (cs : string) (c : ascii) : bool :=
  existsb (Ascii.eqb c) (list_ascii_of_string cs).

(** [[a-zA-Z0-9._%+-]] *)
Definition local_class (c : ascii) : bool := is_alnum c || one_of "._%+-" c.
(** [[a-zA-Z0-9.-]] *)
Definition domain_class (c : ascii) : bool := is_alnum c || one_of ".-" c.

(** [^[a-zA-Z0-9._%+-]+@[a-zA-Z0-9.-]+\.[a-zA-Z]{2,}$] *)
Definition email_pattern : regex :=
  Cat (plus (Class local_class))
    (Cat (chr "@")
       (Cat (plus (Class domain_class))
          (Cat (chr ".")
             (Cat (at_least_two (Class is_alpha)) dollar)))).

(** [re.match(pattern, email) is not None]: the pattern is anchored at
    both ends, so a match is a match of the whole string. *)
Definition validate_email (email : string) : bool :=
  fullmatch email_pattern email.

Definition validate_password (password : string) : bool :=
  if len password <? 8 then false else true.

Definition allowed_student_domains : list string :=
  ["@students.kcau.ac.ke"; "@student.kcau.ac.ke"].

Definition allowed_lecturer_domains : list string :=
  ["@kcau.ac.ke"; "@staff.kcau.ac.ke"; "@faculty.kcau.ac.ke"].

(** The [for domain in allowed: if email.lower().endswith(domain.lower())]
    loop of both validators. *)
Definition ends_with_any (email : string) (domains : list string) : bool :=
  existsb (fun domain => endswith (lower email) (lower domain)) domains.

Definition validate_student_email (email : string) : bool * string :=
  if negb (validate_email email) then (false, "Invalid email format")
  else if ends_with_any email allowed_student_domains
       then (true, "Valid student email")
       else (false, "Email must be from an institutional domain (e.g., @students.kcau.ac.ke)").

Definition validate_lecturer_email (email : string) : bool * string :=
  if negb (validate_email email) then (false, "Invalid email format")
  else if ends_with_any email allowed_lecturer_domains
       then (true, "Valid lecturer email")
       else (false, "Email must be from an institutional domain (e.g., @kcau.ac.ke)").

Definition validate_institutional_email (email user_role : string) : bool * string :=
  if String.eqb (lower user_role) "student" then validate_student_email email
  else if String.eqb (lower user_role) "lecturer" then validate_lecturer_email email
  else (false, "Invalid user role specified").

End Validators.

(** ** [app/models/user.py] *)

Module UserModel.
Import PyStr.

(** A [datetime], in microseconds. *)
Definition datetime : Type := Z.

(** [timedelta(minutes=10)] *)
Definition ten_minutes : Z := 10 * 60 * 1000000.

(** A row of the [users] table.  The columns [updated_at] and [school_id]
    are left out: no method or view below reads them.  A nullable column
    is an [option]; [otp_attempts], [role], [is_active], [is_verified] and
    [created_at] carry a column default, which the insert fills in, so a
    stored row always has them. *)
Record User : Type := mkUser {
  uid : Z;
  email : string;
  username : string;
  password_hash : option string;
  first_name : string;
  last_name : string;
  profile_picture : option string;
  phone_number : option string;
  role : string;
  is_active : bool;
  is_verified : bool;
  otp_code : option string;
  otp_expires_at : option Z;
  otp_attempts : Z;
  google_id : option string;
  created_at : Z;
  last_login : option Z
}.

(** Attribute assignments, [self.f = v]. *)
Definition set_password_hash (self : User) (v : option string) : User :=
  {| uid := uid self; email := email self; username := username self;
     password_hash := v; first_name := first_name self;
     last_name := last_name self; profile_picture := profile_picture self;
     phone_number := phone_number self; role := role self;
     is_active := is_active self; is_verified := is_verified self;
     otp_code := otp_code self; otp_expires_at := otp_expires_at self;
     otp_attempts := otp_attempts self; google_id := google_id self;
     created_at := created_at self; last_login := last_login self |}.
Definition set_profile_picture (self : User) (v : option string) : User :=
  {| uid := uid self; email := email self; username := username self;
     password_hash := password_hash self; first_name := first_name self;
     last_name := last_name self; profile_picture := v;
     phone_number := phone_number self; role := role self;
     is_active := is_active self; is_verified := is_verified self;
     otp_code := otp_code self; otp_expires_at := otp_expires_at self;
     otp_attempts := otp_attempts self; google_id := google_id self;
     created_at := created_at self; last_login := last_login self |}.
Definition set_is_verified (self : User) (v : bool) : User :=
  {| uid := uid self; email := email self; username := username self;
     password_hash := password_hash self; first_name := first_name self;
     last_name := last_name self; profile_picture := profile_picture self;
     phone_number := phone_number self; role := role self;
     is_active := is_active self; is_verified := v; otp_code := otp_code self;
     otp_expires_at := otp_expires_at self; otp_attempts := otp_attempts self;
     google_id := google_id self; created_at := created_at self;
     last_login := last_login self |}.
Definition set_otp_code (self : User) (v : option string) : User :=
  {| uid := uid self; email := email self; username := username self;
     password_hash := password_hash self; first_name := first_name self;
     last_name := last_name self; profile_picture := profile_picture self;
     phone_number := phone_number self; role := role self;
     is_active := is_active self; is_verified := is_verified self;
     otp_code := v; otp_expires_at := otp_expires_at self;
     otp_attempts := otp_attempts self; google_id := google_id self;
     created_at := created_at self; last_login := last_login self |}.
Definition set_otp_expires_at (self : User) (v : option datetime) : User :=
  {| uid := uid self; email := email self; username := username self;
     password_hash := password_hash self; first_name := first_name self;
     last_name := last_name self; profile_picture := profile_picture self;
     phone_number := phone_number self; role := role self;
     is_active := is_active self; is_verified := is_verified self;
     otp_code := otp_code self; otp_expires_at := v;
     otp_attempts := otp_attempts self; google_id := google_id self;
     created_at := created_at self; last_login := last_login self |}.
Definition set_otp_attempts (self : User) (v : Z) : User :=
  {| uid := uid self; email := email self; username := username self;
     password_hash := password_hash self; first_name := first_name self;
     last_name := last_name self; profile_picture := profile_picture self;
     phone_number := phone_number self; role := role self;
     is_active := is_active self; is_verified := is_verified self;
     otp_code := otp_code self; otp_expires_at := otp_expires_at self;
     otp_attempts := v; google_id := google_id self;
     created_at := created_at self; last_login := last_login self |}.
Definition set_google_id (self : User) (v : option string) : User :=
  {| uid := uid self; email := email self; username := username self;
     password_hash := password_hash self; first_name := first_name self;
     last_name := last_name self; profile_picture := profile_picture self;
     phone_number := phone_number self; role := role self;
     is_active := is_active self; is_verified := is_verified self;
     otp_code := otp_code self; otp_expires_at := otp_expires_at self;
     otp_attempts := otp_attempts self; google_id := v;
     created_at := created_at self; last_login := last_login self |}.
Definition set_last_login (self : User) (v : option datetime) : User :=
  {| uid := uid self; email := email self; username := username self;
     password_hash := password_hash self; first_name := first_name self;
     last_name := last_name self; profile_picture := profile_picture self;
     phone_number := phone_number self; role := role self;
     is_active := is_active self; is_verified := is_verified self;
     otp_code := otp_code self; otp_expires_at := otp_expires_at self;
     otp_attempts := otp_attempts self; google_id := google_id self;
     created_at := created_at self; last_login := v |}.
Definition set_uid (self : User) (v : Z) : User :=
  {| uid := v; email := email self; username := username self;
     password_hash := password_hash self; first_name := first_name self;
     last_name := last_name self; profile_picture := profile_picture self;
     phone_number := phone_number self; role := role self;
     is_active := is_active self; is_verified := is_verified self;
     otp_code := otp_code self; otp_expires_at := otp_expires_at self;
     otp_attempts := otp_attempts self; google_id := google_id self;
     created_at := created_at self; last_login := last_login self |}.

(** [generate_otp]: [r] is the value drawn by [random.randint(100000,
    999999)], [now] the value of [datetime.utcnow()].  Returns the mutated
    object and the code. *)
Definition generate_otp (self : User) (r : Z) (now : datetime) : User * string :=
  let self := set_otp_code self (Some (str r)) in
  let self := set_otp_expires_at self (Some (now + ten_minutes)) in
  let self := set_otp_attempts self 0 in
  (self, str r).

(** [f"Invalid OTP. {remaining_attempts} attempts remaining."] *)
Definition invalid_otp_message (remaining_attempts : Z) : string :=
  ("Invalid OTP. " ++ str remaining_attempts ++ " attempts remaining.")%string.

(** [verify_otp]: returns the mutated object and the pair the method
    returns.  [not self.otp_code or not self.otp_expires_at] holds when
    either is [None] or the code is the empty string; a [datetime] is
    always true. *)
Definition verify_otp (self : User) (provided_otp : string) (now : datetime)
  : User * (bool * string) :=
  match otp_code self, otp_expires_at self with
  | Some code, Some expires =>
      if negb (truthy code) then
        (self, (false, "No OTP found. Please request a new one."))
      else if expires <? now then
        (self, (false, "OTP has expired. Please request a new one."))
      else if 5 <=? otp_attempts self then
        (self, (false, "Too many failed attempts. Please request a new OTP."))
      else if String.eqb code provided_otp then
        let self := set_is_verified self true in
        let self := set_otp_code self None in
        let self := set_otp_expires_at self None in
        let self := set_otp_attempts self 0 in
        (self, (true, "Email verified successfully!"))
      else
        let self := set_otp_attempts self (otp_attempts self + 1) in
        let remaining_attempts := 5 - otp_attempts self in
        (self, (false, invalid_otp_message remaining_attempts))
  | _, _ => (self, (false, "No OTP found. Please request a new one."))
  end.

Definition clear_otp (self : User) : User :=
  let self := set_otp_code self None in
  let self := set_otp_expires_at self None in
  set_otp_attempts self 0.

Definition detect_role_from_email (email : string) : string :=
  if endswith email "@students.kcau.ac.ke" || endswith email "@student.kcau.ac.ke"
  then "student"
  else if endswith email "@kcau.ac.ke" || endswith email "@staff.kcau.ac.ke"
  then "lecturer"
  else "student".

(** [to_dict]: the wire representation. *)
Record UserDict : Type := mkUserDict {
  d_id : Z;
  d_email : string;
  d_username : string;
  d_first_name : string;
  d_last_name : string;
  d_profile_picture : option string;
  d_phone_number : option string;
  d_role : string;
  d_is_active : bool;
  d_is_verified : bool;
  d_created_at : Z;
  d_last_login : option Z
}.

Definition to_dict (self : User) : UserDict :=
  {| d_id := uid self; d_email := email self; d_username := username self;
     d_first_name := first_name self; d_last_name := last_name self;
     d_profile_picture := profile_picture self;
     d_phone_number := phone_number self; d_role := role self;
     d_is_active := is_active self; d_is_verified := is_verified self;
     d_created_at := created_at self; d_last_login := last_login self |}.

End UserModel.

(** ** The [users] table and the session *)

Module Store.
Import PyStr UserModel.

(** The exceptions that reach a view's [except Exception] handler. *)
Inductive Exn : Type :=
| IntegrityError : Exn
| AttributeError : Exn
| KeyError : string -> Exn.

Inductive Result (A : Type) : Type :=
| Ok : A -> Result A
| Raise : Exn -> Result A.
Arguments Ok {A} _.
Arguments Raise {A} _.

Definition opt_eqb (o : option string) (v : string) : bool :=
  match o with
  | Some x => String.eqb x v
  | None => false
  end.

(** [User.query.filter_by(col=v).first()]: the first row whose column
    equals [v]; a NULL column equals nothing.  Text is compared exactly
    (the binary comparison of SQLite and PostgreSQL): the application folds
    case itself where it wants to. *)
Definition find_by_email (db : list User) (v : string) : option User :=
  find (fun u => String.eqb (email u) v) db.

Definition find_by_username (db : list User) (v : string) : option User :=
  find (fun u => String.eqb (username u) v) db.

Definition find_by_google_id (db : list User) (v : string) : option User :=
  find (fun u => opt_eqb (google_id u) v) db.

(** Truth value of a query result: [None] is false, a [User] is true. *)
Definition found (o : option User) : bool :=
  match o with
  | Some _ => true
  | None => false
  end.

(** [User.query.get(i)] *)
Definition query_get (db : list User) (i : Z) : option User :=
  find (fun u => uid u =? i) db.

(** The primary key given to a new row. *)
Definition next_id (db : list User) : Z :=
  1 + fold_right Z.max 0 (map uid db).

(** The unique constraints on [email], [username] and [google_id] (NULLs
    do not collide). *)
Definition collides (u r : User) : bool :=
  String.eqb (email r) (email u) ||
  String.eqb (username r) (username u) ||
  match google_id u with
  | Some g => opt_eqb (google_id r) g
  | None => false
  end.

(** [db.session.add(u); db.session.commit()] for a new object: the INSERT
    fails with [IntegrityError] on a unique constraint, otherwise the row
    is appended with a fresh primary key. *)
Definition insert (db : list User) (u : User) : Result (list User * User) :=
  if existsb (collides u) db then Raise IntegrityError
  else let u := set_uid u (next_id db) in Ok ((db ++ [u])%list, u).

(** [db.session.commit()] after attribute assignments on a loaded object:
    the row with that primary key is rewritten.  The views assign a unique
    column ([google_id]) only after a lookup has shown the value is not in
    the table. *)
Definition update (db : list User) (u : User) : list User :=
  map (fun r => if uid r =? uid u then u else r) db.

End Store.

(** ** [werkzeug.security] *)

(** The two functions of the password-hashing library the model calls.
    [generate_password_hash] draws a random salt, passed here as the first
    argument; [check_password_hash] takes the stored hash and the candidate
    password. *)
Class Werkzeug : Type := {
  generate_password_hash : string -> string -> string;
  check_password_hash : string -> string -> bool
}.

(** ** [app/views/auth.py] *)

Module Auth.
Import PyStr UserModel Store Validators.

Inductive Token : Type :=
| AccessToken (identity : Z)
| RefreshToken (identity : Z).

Definition create_access_token (identity : Z) : Token := AccessToken identity.
Definition create_refresh_token (identity : Z) : Token := RefreshToken identity.

(** The JSON bodies the views return. *)
Inductive Body : Type :=
| Error (error : string)
| ErrorDetails (error : string) (details : Exn)
| RegisteredUnsent (message : string)
| Registered (message : string) (user_role : string) (user_id : Z)
| VerificationRequired (error : string) (user_id : Z)
| Authenticated (message : string) (user : UserDict) (access_token refresh_token : Token)
| OtpResent (message : string).

(** Body and HTTP status. *)
Definition Response : Type := Body * Z.

Section Views.
Context `{W : Werkzeug}.

(** [User.set_password] with the salt the library draws. *)
Definition set_password (self : User) (salt password : string) : User :=
  set_password_hash self (Some (generate_password_hash salt password)).

(** [User.check_password]: the library reads the hash with a string
    method, so a NULL [password_hash] raises [AttributeError]. *)
Definition check_password (self : User) (password : string) : Result bool :=
  match password_hash self with
  | Some h => Ok (check_password_hash h password)
  | None => Raise AttributeError
  end.

(** [EmailService.send_otp_email] and [send_welcome_email]
    ([app/utils/email.py]): both log the mail and return [True]. *)
Definition send_otp_email (user_email otp_code user_name user_role : string) : bool := true.
Definition send_welcome_email (user_email user_name user_role : string) : bool := true.

Definition required_fields : list string :=
  ["email"; "username"; "password"; "first_name"; "last_name"].

(** [data[k]] once the required-field check has passed. *)
Definition item (data : gmap string string) (k : string) : string :=
  default "" (data !! k).

(** [f"{user.first_name} {user.last_name}"] *)
Definition full_name (u : User) : string :=
  (first_name u ++ " " ++ last_name u)%string.

(** [register]: [salt] is the salt of the password hash, [r] the OTP draw,
    [now] the clock. *)
Definition register (db : list User) (data : gmap string string)
    (salt : string) (r : Z) (now : datetime) : list User * Response :=
  match find (fun field => negb (truthy_opt (data !! field))) required_fields with
  | Some field => (db, (Error (field ++ " is required")%string, 400))
  | None =>
      let user_role := detect_role_from_email (item data "email") in
      let '(is_valid, message) := validate_institutional_email (item data "email") user_role in
      if negb is_valid then (db, (Error message, 400))
      else if negb (validate_password (item data "password")) then
        (db, (Error "Password must be at least 8 characters long", 400))
      else if found (find_by_email db (item data "email")) then
        (db, (Error "Email already registered", 409))
      else if found (find_by_username db (item data "username")) then
        (db, (Error "Username already taken", 409))
      else
        let user :=
          {| uid := 0;
             email := strip (lower (item data "email"));
             username := strip (item data "username");
             password_hash := None;
             first_name := strip (item data "first_name");
             last_name := strip (item data "last_name");
             profile_picture := None;
             phone_number := Some (strip (default "" (data !! "phone_number")));
             role := user_role;
             is_active := true;
             is_verified := false;
             otp_code := None; otp_expires_at := None; otp_attempts := 0;
             google_id := None;
             created_at := now;
             last_login := None |} in
        let user := set_password user salt (item data "password") in
        let '(user, otp_code) := generate_otp user r now in
        match insert db user with
        | Raise e => (db, (ErrorDetails "Registration failed" e, 500))
        | Ok (db, user) =>
            let email_sent :=
              send_otp_email (email user) otp_code (full_name user) user_role in
            if negb email_sent then
              (db, (RegisteredUnsent "Registration successful, but verification email failed to send. Please contact support.", 201))
            else
              (db, (Registered "Registration successful! Please check your email for a 6-digit verification code." user_role (uid user), 201))
        end
  end.

(** [verify_otp] (the view): [user_id] and [otp_code] are the two fields
    of the body. *)
Definition verify_otp (db : list User) (user_id : option Z)
    (otp_code : option string) (now : datetime) : list User * Response :=
  match user_id, otp_code with
  | Some i, Some code =>
      if (i =? 0) || negb (truthy code) then
        (db, (Error "User ID and OTP code are required", 400))
      else
        match query_get db i with
        | None => (db, (Error "User not found", 404))
        | Some user =>
            if is_verified user then (db, (Error "Email already verified", 400))
            else
              let '(user, (is_valid, message)) := UserModel.verify_otp user code now in
              if negb is_valid then (update db user, (Error message, 400))
              else
                let db := update db user in
                let _ := send_welcome_email (email user) (full_name user) (role user) in
                let access_token := create_access_token (uid user) in
                let refresh_token := create_refresh_token (uid user) in
                let user := set_last_login user (Some now) in
                (update db user,
                 (Authenticated "Email verified successfully! Welcome to MySchool!"
                    (to_dict user) access_token refresh_token, 200))
        end
  | _, _ => (db, (Error "User ID and OTP code are required", 400))
  end.

Definition resend_otp (db : list User) (user_id : option Z) (r : Z)
    (now : datetime) : list User * Response :=
  match user_id with
  | None => (db, (Error "User ID is required", 400))
  | Some i =>
      if i =? 0 then (db, (Error "User ID is required", 400))
      else
        match query_get db i with
        | None => (db, (Error "User not found", 404))
        | Some user =>
            if is_verified user then (db, (Error "Email already verified", 400))
            else
              let '(user, otp_code) := generate_otp user r now in
              let db := update db user in
              let email_sent :=
                send_otp_email (email user) otp_code (full_name user) (role user) in
              if negb email_sent then (db, (Error "Failed to send OTP email", 500))
              else (db, (OtpResent "New OTP code sent to your email", 200))
        end
  end.

(** [login]: the handler of this view does not roll back; nothing has
    been assigned when [check_password] raises. *)
Definition login (db : list User) (data : gmap string string)
    (now : datetime) : list User * Response :=
  if negb (truthy_opt (data !! "email")) || negb (truthy_opt (data !! "password")) then
    (db, (Error "Email and password are required", 400))
  else
    let email := strip (lower (item data "email")) in
    if negb (validate_email email) then (db, (Error "Invalid email format", 400))
    else
      match find_by_email db email with
      | None => (db, (Error "Invalid email or password", 401))
      | Some user =>
          match check_password user (item data "password") with
          | Raise e => (db, (ErrorDetails "Login failed" e, 500))
          | Ok false => (db, (Error "Invalid email or password", 401))
          | Ok true =>
              if negb (is_active user) then (db, (Error "Account is deactivated", 401))
              else if negb (is_verified user) then
                (db, (VerificationRequired
                        "Email not verified. Please verify your email before logging in."
                        (uid user), 401))
              else
                let user := set_last_login user (Some now) in
                let db := update db user in
                let access_token := create_access_token (uid user) in
                let refresh_token := create_refresh_token (uid user) in
                (db, (Authenticated "Login successful" (to_dict user)
                        access_token refresh_token, 200))
          end
      end.

(** The [while User.find_by_username(username)] loop of [google_auth],
    with the number of iterations bounded by [fuel]; [None] when the
    bound is reached. *)
Fixpoint username_loop (fuel : nat) (db : list User) (original_username : string)
    (counter : Z) (username : string) : option string :=
  match fuel with
  | O => None
  | S fuel =>
      if found (find_by_username db username) then
        username_loop fuel db original_username (counter + 1)
          (original_username ++ str counter)%string
      else Some username
  end.

(** The username the loop ends with, started as the view starts it.  One
    more iteration than there are rows is always enough
    ([username_loop_terminates] below), so the default is never used. *)
Definition unique_username (db : list User) (username : string) : string :=
  default username (username_loop (S (length db)) db username 1 username).

(** [google_auth]: [token] is the field of the body, [verified] the
    outcome of [id_token.verify_oauth2_token] ([None] when it raises
    [ValueError]). *)
Definition google_auth (db : list User) (token : option string)
    (verified : option (gmap string string)) (now : datetime)
  : list User * Response :=
  if negb (truthy_opt token) then (db, (Error "Google token is required", 400))
  else
    match verified with
    | None => (db, (Error "Invalid Google token", 401))
    | Some idinfo =>
        match idinfo !! "iss", idinfo !! "sub", idinfo !! "email" with
        | None, _, _ => (db, (ErrorDetails "Google authentication failed" (KeyError "iss"), 500))
        | Some iss, osub, oemail =>
            if negb (String.eqb iss "accounts.google.com" ||
                     String.eqb iss "https://accounts.google.com") then
              (db, (Error "Invalid Google token", 401))
            else
              match osub, oemail with
              | None, _ => (db, (ErrorDetails "Google authentication failed" (KeyError "sub"), 500))
              | Some _, None => (db, (ErrorDetails "Google authentication failed" (KeyError "email"), 500))
              | Some google_id, Some email =>
                  let first_name := default "" (idinfo !! "given_name") in
                  let last_name := default "" (idinfo !! "family_name") in
                  let profile_picture := default "" (idinfo !! "picture") in
                  let saved :=
                    match find_by_google_id db google_id with
                    | Some user =>
                        let user := set_last_login user (Some now) in
                        Ok (update db user, user)
                    | None =>
                        match find_by_email db email with
                        | Some user =>
                            let user := set_google_id user (Some google_id) in
                            let user :=
                              if negb (truthy_opt (UserModel.profile_picture user))
                              then set_profile_picture user (Some profile_picture)
                              else user in
                            let user := set_last_login user (Some now) in
                            Ok (update db user, user)
                        | None =>
                            let username := unique_username db (split_head "@" email) in
                            let user :=
                              {| uid := 0;
                                 UserModel.email := email;
                                 UserModel.username := username;
                                 password_hash := None;
                                 UserModel.first_name := first_name;
                                 UserModel.last_name := last_name;
                                 UserModel.profile_picture := Some profile_picture;
                                 phone_number := None;
                                 role := "student";
                                 is_active := true;
                                 is_verified := true;
                                 otp_code := None; otp_expires_at := None;
                                 otp_attempts := 0;
                                 UserModel.google_id := Some google_id;
                                 created_at := now;
                                 last_login := None |} in
                            let user := set_last_login user (Some now) in
                            insert db user
                        end
                    end in
                  match saved with
                  | Raise e => (db, (ErrorDetails "Google authentication failed" e, 500))
                  | Ok (db, user) =>
                      let access_token := create_access_token (uid user) in
                      let refresh_token := create_refresh_token (uid user) in
                      (db, (Authenticated "Google authentication successful"
                              (to_dict user) access_token refresh_token, 200))
                  end
              end
        end
    end.

End Views.
End Auth.

(** ** Membership of the allow-lists *)

Module Membership.
Import PyStr Validators.

(** The address is syntactically valid and its folded form ends with one
    of the listed domains. *)
Definition in_student_list (email : string) : Prop :=
  validate_email email = true /\ ends_with_any email allowed_student_domains = true.

Definition in_lecturer_list (email : string) : Prop :=
  validate_email email = true /\ ends_with_any email allowed_lecturer_domains = true.

Definition accepts (email user_role : string) : bool :=
  fst (validate_institutional_email email user_role).

End Membership.

(** ** Operations on the store, invariants, and the sequences the properties
    speak of *)

Module Lifecycle.
Import PyStr UserModel Store Auth.

(** Successive [verify_otp] calls on one object; each entry of the result
    is the attempt counter after the call and what the call returned. *)
Fixpoint verify_all (u : User) (subs : list (string * datetime))
  : list (Z * (bool * string)) :=
  match subs with
  | [] => []
  | (provided_otp, now) :: rest =>
      let '(u, res) := UserModel.verify_otp u provided_otp now in
      (otp_attempts u, res) :: verify_all u rest
  end.

(** The OTP fields as one unit: no pending code (code and expiry NULL,
    counter at its cleared value 0), or a pending code with the counter in
    [[0, limit)]. *)
Definition otp_unit (limit : Z) (u : User) : Prop :=
  (otp_code u = None /\ otp_expires_at u = None /\ otp_attempts u = 0) \/
  (is_Some (otp_code u) /\ is_Some (otp_expires_at u) /\
   0 <= otp_attempts u < limit).

(** The candidates of the username loop: [name], [name1], [name2], ... *)
Definition candidate (name : string) (k : nat) : string :=
  match k with
  | O => name
  | S _ => (name ++ str (Z.of_nat k))%string
  end.

Definition username_taken (db : list User) (name : string) : bool :=
  found (find_by_username db name).

(** What can happen to the store: the five views, and the three OTP
    methods of the model called on a stored row and committed. *)
Inductive Op : Type :=
| OpRegister (data : gmap string string) (salt : string) (r : Z) (now : datetime)
| OpVerifyOtp (user_id : option Z) (otp_code : option string) (now : datetime)
| OpResendOtp (user_id : option Z) (r : Z) (now : datetime)
| OpLogin (data : gmap string string) (now : datetime)
| OpGoogleAuth (token : option string) (verified : option (gmap string string))
    (now : datetime)
| OpGenerateOtp (i : Z) (r : Z) (now : datetime)
| OpCheckOtp (i : Z) (provided_otp : string) (now : datetime)
| OpClearOtp (i : Z).

(** A method of the model called on row [i] and committed. *)
Definition on_row (db : list User) (i : Z) (f : User -> User) : list User :=
  match query_get db i with
  | Some u => update db (f u)
  | None => db
  end.

Section Step.
Context `{W : Werkzeug}.

Definition step (db : list User) (op : Op) : list User :=
  match op with
  | OpRegister data salt r now => fst (register db data salt r now)
  | OpVerifyOtp user_id otp_code now => fst (Auth.verify_otp db user_id otp_code now)
  | OpResendOtp user_id r now => fst (resend_otp db user_id r now)
  | OpLogin data now => fst (login db data now)
  | OpGoogleAuth token verified now => fst (google_auth db token verified now)
  | OpGenerateOtp i r now => on_row db i (fun u => fst (generate_otp u r now))
  | OpCheckOtp i provided_otp now =>
      on_row db i (fun u => fst (UserModel.verify_otp u provided_otp now))
  | OpClearOtp i => on_row db i clear_otp
  end.

Definition run (db : list User) (ops : list Op) : list User :=
  fold_left step ops db.

(** The row [register] builds before the insert. *)
Definition new_user (data : gmap string string) (salt : string) (r : Z)
    (now : datetime) : User :=
  {| uid := 0;
     email := strip (lower (item data "email"));
     username := strip (item data "username");
     password_hash := Some (generate_password_hash salt (item data "password"));
     first_name := strip (item data "first_name");
     last_name := strip (item data "last_name");
     profile_picture := None;
     phone_number := Some (strip (default "" (data !! "phone_number")));
     role := detect_role_from_email (item data "email");
     is_active := true; is_verified := false;
     otp_code := Some (str r); otp_expires_at := Some (now + ten_minutes);
     otp_attempts := 0; google_id := None; created_at := now;
     last_login := None |}.

End Step.

(** A registration body that gets past the field, domain and password
    checks of [register]. *)
Definition passes_checks (data : gmap string string) : Prop :=
  Forall (fun field => truthy_opt (data !! field) = true) required_fields /\
  fst (Validators.validate_institutional_email (item data "email")
         (detect_role_from_email (item data "email"))) = true /\
  Validators.validate_password (item data "password") = true.

(** An assertion the view accepts for the external id [g]: a non-empty
    token, verified, issued by Google, with subject [g] and an email. *)
Definition valid_assertion (token : string) (idinfo : gmap string string)
    (g : string) : Prop :=
  token <> "" /\
  (idinfo !! "iss" = Some "accounts.google.com" \/
   idinfo !! "iss" = Some "https://accounts.google.com") /\
  idinfo !! "sub" = Some g /\
  is_Some (idinfo !! "email").

(** The primary key: no two rows share an id. *)
Definition keyed (db : list User) : Prop := NoDup (map uid db).

(** What an operation may do to a loaded row: it keeps a verified row
    verified, and keeps the OTP fields a unit for every counter limit above
    5. *)
Definition row_step (v0 v : User) : Prop :=
  (is_verified v0 = true -> is_verified v = true) /\
  (forall limit : Z, 5 < limit -> otp_unit limit v0 -> otp_unit limit v).

(** What a new row looks like: no pending code, or a fresh one. *)
Definition new_row (v : User) : Prop :=
  forall limit : Z, 0 < limit -> otp_unit limit v.

(** The three ways a committed operation changes the table: not at all, by
    rewriting a loaded row, or by inserting a new one. *)
Inductive evolves (db : list User) : list User -> Prop :=
| evolves_same : evolves db db
| evolves_update (v0 v : User) :
    In v0 db -> uid v = uid v0 -> row_step v0 v -> evolves db (update db v)
| evolves_insert (v : User) :
    new_row v -> evolves db (db ++ [set_uid v (next_id db)])%list.

End Lifecycle.

(** ** Concrete requests and stores *)

Module Scenario.
Import PyStr UserModel Store Auth Lifecycle.

(** A stand-in for the hashing library: the hash is the password. *)
Definition plain_hasher : Werkzeug :=
  {| generate_password_hash := fun _ password => password;
     check_password_hash := String.eqb |}.

Definition body (email username password : string) : gmap string string :=
  {[ "email" := email; "username" := username; "password" := password;
     "first_name" := "Jane"; "last_name" := "Doe" ]}.

Definition credentials (email password : string) : gmap string string :=
  {[ "email" := email; "password" := password ]}.

Definition assertion (sub email : string) : gmap string string :=
  {[ "iss" := "accounts.google.com"; "sub" := sub; "email" := email;
     "picture" := "https://example.org/p.png" ]}.

(** A row with a pending code, as [generate_otp] leaves it. *)
Definition pending_user : User :=
  {| uid := 1; email := "jane@students.kcau.ac.ke"; username := "jane";
     password_hash := Some "hash"; first_name := "Jane"; last_name := "Doe";
     profile_picture := None; phone_number := None; role := "student";
     is_active := true; is_verified := false;
     otp_code := Some "123456"; otp_expires_at := Some 600000000;
     otp_attempts := 0; google_id := None; created_at := 0;
     last_login := None |}.

(** A verified account with a password. *)
Definition verified_user : User :=
  {| uid := 1; email := "a@b.com"; username := "a";
     password_hash := Some "Secret1"; first_name := "A"; last_name := "B";
     profile_picture := None; phone_number := None; role := "student";
     is_active := true; is_verified := true;
     otp_code := None; otp_expires_at := None;
     otp_attempts := 0; google_id := None; created_at := 0;
     last_login := None |}.

(** A federated account: no password hash. *)
Definition federated_user : User :=
  {| uid := 1; email := "bob@example.com"; username := "bob";
     password_hash := None; first_name := "Bob"; last_name := "";
     profile_picture := Some "https://example.org/bob.png";
     phone_number := None; role := "student";
     is_active := true; is_verified := true;
     otp_code := None; otp_expires_at := None;
     otp_attempts := 0; google_id := Some "g-1"; created_at := 0;
     last_login := None |}.

(** The store after Jane has registered and sent four wrong codes. *)
Definition after_four_wrong : list User :=
  run (W := plain_hasher) []
    [ OpRegister (body "jane@students.kcau.ac.ke" "jane" "password123") "salt" 123456 0;
      OpVerifyOtp (Some 1) (Some "000000") 1;
      OpVerifyOtp (Some 1) (Some "000000") 2;
      OpVerifyOtp (Some 1) (Some "000000") 3;
      OpVerifyOtp (Some 1) (Some "000000") 4 ].

(** The store after a first federated login from a mixed-case address. *)
Definition after_google_signup : list User :=
  fst (google_auth [] (Some "token")
         (Some (assertion "g-7" "Bob@Example.com")) 0).

End Scenario.

(** ** [validate_phone] and the shape of an accepted email *)

Module Shapes.
Import PyStr Re Validators.

(** Every character of [s] is in the class [p]. *)
Fixpoint all_in (p : ascii -> bool) (s : string) : bool :=
  match s with
  | EmptyString => true
  | String c s' => p c && all_in p s'
  end.

(** [r{n,}] *)
Fixpoint at_least (n : nat) (r : regex) : regex :=
  match n with
  | O => Star r
  | S n => Cat r (at_least n r)
  end.

(** [r?] *)
Definition optional (r : regex) : regex := Alt Eps r.

(** [[\d\s\-\(\)]]: on a [str] pattern [\d] is a decimal digit and [\s] a
    white-space character in the sense of [str.isspace]. *)
Definition phone_class (c : ascii) : bool :=
  is_digit c || is_space c || one_of "-()" c.

(** [^\+?[\d\s\-\(\)]{10,}$] *)
Definition phone_pattern : regex :=
  Cat (optional (chr "+")) (Cat (at_least 10 (Class phone_class)) dollar).

Definition validate_phone (phone : string) : bool :=
  fullmatch phone_pattern phone.

(** [local@domain.tld]: a non-empty local part and a non-empty domain from
    their classes, and at least two letters after the last dot. *)
Definition email_shape (local domain tld : string) : Prop :=
  local <> "" /\ all_in local_class local = true /\
  domain <> "" /\ all_in domain_class domain = true /\
  all_in is_alpha tld = true /\ (2 <= String.length tld)%nat.

Definition address (local domain tld : string) : string :=
  (local ++ "@" ++ domain ++ "." ++ tld)%string.

Definition newline : string := String "010" "".

End Shapes.

(** ** [refresh] and [get_current_user] ([app/views/auth.py]) *)

Module Session.
Import PyStr UserModel Store Auth.

(** The bodies of the two views. *)
Inductive SessionBody : Type :=
| SessionError (error : string)
| AccessOnly (access_token : Token)
| CurrentUser (user : UserDict).

(** [refresh]: [current_user_id] is the identity of the refresh token the
    [jwt_required(refresh=True)] decorator has accepted. *)
Definition refresh (db : list User) (current_user_id : Z) : SessionBody * Z :=
  match query_get db current_user_id with
  | None => (SessionError "User not found or inactive", 404)
  | Some user =>
      if negb (is_active user) then (SessionError "User not found or inactive", 404)
      else (AccessOnly (create_access_token (uid user)), 200)
  end.

(** [get_current_user]: [current_user_id] is the identity of the access
    token the [jwt_required()] decorator has accepted. *)
Definition get_current_user (db : list User) (current_user_id : Z) : SessionBody * Z :=
  match query_get db current_user_id with
  | None => (SessionError "User not found", 404)
  | Some user => (CurrentUser (to_dict user), 200)
  end.

End Session.

(** ** [scripts/create_test_users.py] *)

Module Seeding.
Import PyStr UserModel Store Auth.

Section WithHasher.
Context `{W : Werkzeug}.

(** [create_test_user]: an email already in the table is skipped; otherwise
    a verified, active row is inserted.  The script has no handler, so an
    [IntegrityError] of the commit ends it. *)
Definition create_test_user (db : list User)
    (email password first_name last_name role : string)
    (salt : string) (now : datetime) : Result (list User) :=
  if found (find_by_email db email) then Ok db
  else
    let user :=
      {| uid := 0;
         UserModel.email := email;
         username := split_head "@" email;
         password_hash := None;
         UserModel.first_name := first_name;
         UserModel.last_name := last_name;
         profile_picture := None;
         phone_number := None;
         UserModel.role := role;
         is_active := true;
         is_verified := true;
         otp_code := None; otp_expires_at := None; otp_attempts := 0;
         google_id := None;
         created_at := now;
         last_login := None |} in
    let user := set_password user salt password in
    match insert db user with
    | Raise e => Raise e
    | Ok (db, _) => Ok db
    end.

(** The records of [main]: email, password, first name, last name, role. *)
Definition test_users : list (string * string * string * string * string) :=
  [ ("1902909test1@students.kcau.ac.ke", "password123", "Test", "User 1", "student");
    ("lecturer1@kcau.ac.ke", "password123", "Test", "Lecturer", "lecturer") ].

(** The loop of [main]; [salts] are the salts the library draws, one per
    record. *)
Fixpoint create_all (db : list User)
    (records : list (string * string * string * string * string))
    (salts : list string) (now : datetime) : Result (list User) :=
  match records with
  | [] => Ok db
  | (email, password, first_name, last_name, role) :: rest =>
      match create_test_user db email password first_name last_name role
              (hd "" salts) now with
      | Raise e => Raise e
      | Ok db => create_all db rest (tl salts) now
      end
  end.

Definition main (db : list User) (salts : list string) (now : datetime)
  : Result (list User) :=
  create_all db test_users salts now.

End WithHasher.
End Seeding.

(** ** The unique columns of the table *)

Module Uniqueness.
Import PyStr UserModel Store Auth Lifecycle.

(** No two rows at different places share a non-NULL value of [key]. *)
Definition unique_on {K : Type} (key : User -> option K) (db : list User) : Prop :=
  forall (i j : nat) (a b : User) (k : K),
    db !! i = Some a -> db !! j = Some b ->
    key a = Some k -> key b = Some k -> i = j.

(** What the schema declares: the primary key, and the unique constraints
    on [email], [username] and [google_id]. *)
Definition unique_store (db : list User) : Prop :=
  keyed db /\
  unique_on (fun u => Some (email u)) db /\
  unique_on (fun u => Some (username u)) db /\
  unique_on google_id db.

(** How a committed operation changes the unique columns: not at all, by
    rewriting a loaded row that keeps its email and username and either
    keeps its [google_id] or takes one no row has, or by inserting a row
    that collides with none. *)
Inductive changes (db : list User) : list User -> Prop :=
| changes_same : changes db db
| changes_update (v0 v : User) :
    In v0 db -> uid v = uid v0 ->
    email v = email v0 -> username v = username v0 ->
    (google_id v = google_id v0 \/
     exists g, google_id v = Some g /\ find_by_google_id db g = None) ->
    changes db (update db v)
| changes_insert (v : User) :
    existsb (collides v) db = false ->
    changes db (db ++ [set_uid v (next_id db)])%list.

End Uniqueness.

(** ** Rows the views leave behind *)

Module Rows.
Import PyStr UserModel Store Auth.

(** The row a successful [verify_otp] leaves, stamped by the view. *)
Definition verified_row (u : User) (now : datetime) : User :=
  set_last_login
    (set_otp_attempts
       (set_otp_expires_at (set_otp_code (set_is_verified u true) None) None) 0)
    (Some now).

(** The row the second branch of [google_auth] leaves: the external id is
    attached, the picture filled in when the row had none, the login
    stamped. *)
Definition linked_row (u : User) (g picture : string) (now : datetime) : User :=
  let u := set_google_id u (Some g) in
  let u := if negb (truthy_opt (profile_picture u))
           then set_profile_picture u (Some picture) else u in
  set_last_login u (Some now).

End Rows.

(** * Properties *)

(** ** Strings and decimal numerals *)

Module PyStrFacts.
Import PyStr.

Lemma append_cons (x : ascii) (a b : string) :
  (String x a ++ b = String x (a ++ b))%string.
Proof. reflexivity. Qed.

Lemma append_assoc (a b c : string) : ((a ++ b) ++ c = a ++ (b ++ c))%string.
Proof.
  induction a as [|x a IH]; [reflexivity|].
  rewrite !append_cons. f_equal. exact IH.
Qed.

Lemma length_append (a b : string) :
  String.length (a ++ b) = (String.length a + String.length b)%nat.
Proof.
  induction a as [|x a IH]; [reflexivity|].
  rewrite append_cons. simpl. f_equal. exact IH.
Qed.

Lemma lower_empty (s : string) : lower s = "" <-> s = "".
Proof. destruct s; simpl; split; intros H; try reflexivity; discriminate H. Qed.

Lemma truthy_lower (s : string) : truthy (lower s) = truthy s.
Proof. destruct s; reflexivity. Qed.

Lemma truthy_true (s : string) : truthy s = true <-> s <> "".
Proof.
  unfold truthy. rewrite negb_true_iff. apply String.eqb_neq.
Qed.

(** *** [endswith] *)

Lemma endswith_nil (suf : string) : endswith "" suf = String.eqb "" suf.
Proof. apply orb_false_r. Qed.

Lemma endswith_step (c : ascii) (s suf : string) :
  endswith (String c s) suf = String.eqb (String c s) suf || endswith s suf.
Proof. reflexivity. Qed.

Lemma endswith_refl (s : string) : endswith s s = true.
Proof.
  destruct s; [reflexivity|]. rewrite endswith_step, String.eqb_refl. reflexivity.
Qed.

Lemma endswith_cons (c : ascii) (s suf : string) :
  endswith s suf = true -> endswith (String c s) suf = true.
Proof. intros H. rewrite endswith_step, H. apply orb_true_r. Qed.

Lemma endswith_inv (s suf : string) :
  endswith s suf = true ->
  s = suf \/ exists c s', s = String c s' /\ endswith s' suf = true.
Proof.
  destruct s as [|c s']; intros H.
  - left. rewrite endswith_nil in H. now apply String.eqb_eq in H.
  - rewrite endswith_step in H. apply orb_true_iff in H as [H|H].
    + left. now apply String.eqb_eq in H.
    + right. eauto.
Qed.

(** Case folding keeps suffixes. *)
Lemma endswith_lower (s suf : string) :
  endswith s suf = true -> endswith (lower s) (lower suf) = true.
Proof.
  induction s as [|c s IH]; intros H.
  - apply endswith_inv in H as [<-|(c & s' & Hs & _)]; [reflexivity | discriminate Hs].
  - apply endswith_inv in H as [<-|(c' & s' & Hs & H)].
    + apply endswith_refl.
    + injection Hs as <- <-. simpl lower. apply endswith_cons. now apply IH.
Qed.

(** Two suffixes of one string: one is a suffix of the other. *)
Lemma endswith_comparable (s a b : string) :
  endswith s a = true -> endswith s b = true ->
  endswith a b = true \/ endswith b a = true.
Proof.
  induction s as [|c s IH]; intros Ha Hb.
  - apply endswith_inv in Ha as [<-|(? & ? & Hs & _)]; [|discriminate Hs].
    apply endswith_inv in Hb as [<-|(? & ? & Hs & _)]; [|discriminate Hs].
    now left.
  - apply endswith_inv in Ha as [<-|(c1 & s1 & Hs1 & Ha)].
    + now left.
    + injection Hs1 as <- <-.
      apply endswith_inv in Hb as [<-|(c2 & s2 & Hs2 & Hb)].
      * right. now apply endswith_cons.
      * injection Hs2 as <- <-. now apply IH.
Qed.

(** *** Decimal numerals: [str] and [int] *)

Lemma int_acc_append (a b : string) (acc : Z) :
  int_acc acc (a ++ b) = int_acc (int_acc acc a) b.
Proof.
  revert acc. induction a as [|c a IH]; intros acc; [reflexivity|].
  rewrite append_cons. simpl. apply IH.
Qed.

Lemma all_digits_append (a b : string) :
  all_digits (a ++ b) = all_digits a && all_digits b.
Proof.
  induction a as [|c a IH]; [reflexivity|].
  rewrite append_cons. simpl. now rewrite IH, andb_assoc.
Qed.

Lemma pretty_N_char_digit (x : N) : is_digit (pretty_N_char x) = true.
Proof. unfold pretty_N_char. repeat case_match; reflexivity. Qed.

Lemma pretty_N_char_ord (x : N) : (x < 10)%N -> ord (pretty_N_char x) - 48 = Z.of_N x.
Proof.
  intros H.
  assert (x = 0 \/ x = 1 \/ x = 2 \/ x = 3 \/ x = 4 \/ x = 5 \/ x = 6 \/
          x = 7 \/ x = 8 \/ x = 9)%N as Hx by lia.
  repeat destruct Hx as [->|Hx]; try subst x; reflexivity.
Qed.

(** The accumulator of stdpp's digit loop is a suffix of its result. *)
Lemma pretty_N_go_append (x : N) (s : string) :
  pretty_N_go x s = (pretty_N_go x "" ++ s)%string.
Proof.
  revert s. induction (N.lt_wf_0 x) as [x _ IH]; intros s.
  destruct (N.eq_dec x 0%N) as [->|Hx]; [reflexivity|].
  assert (x `div` 10 < x)%N as Hlt by (apply N.div_lt; lia).
  rewrite !(pretty_N_go_step x) by lia.
  rewrite (IH _ Hlt (String _ s)), (IH _ Hlt (String _ "")).
  now rewrite append_assoc.
Qed.

Lemma pretty_N_go_snoc (x : N) :
  (0 < x)%N ->
  pretty_N_go x "" =
  (pretty_N_go (x `div` 10) "" ++ String (pretty_N_char (x `mod` 10)) "")%string.
Proof. intros H. rewrite pretty_N_go_step by exact H. apply pretty_N_go_append. Qed.

Lemma pretty_N_go_digits (x : N) : all_digits (pretty_N_go x "") = true.
Proof.
  induction (N.lt_wf_0 x) as [x _ IH].
  destruct (N.eq_dec x 0%N) as [->|Hx]; [reflexivity|].
  rewrite pretty_N_go_snoc, all_digits_append by lia.
  rewrite IH by (apply N.div_lt; lia). simpl.
  now rewrite pretty_N_char_digit.
Qed.

Lemma pretty_N_go_int (x : N) : int (pretty_N_go x "") = Z.of_N x.
Proof.
  unfold int. induction (N.lt_wf_0 x) as [x _ IH].
  destruct (N.eq_dec x 0%N) as [->|Hx]; [reflexivity|].
  rewrite pretty_N_go_snoc, int_acc_append by lia.
  rewrite IH by (apply N.div_lt; lia). simpl.
  rewrite pretty_N_char_ord by (apply N.mod_lt; lia).
  rewrite (N.div_mod x 10) at 3 by lia. lia.
Qed.

Lemma pretty_N_go_length (x : N) :
  (0 < x)%N ->
  String.length (pretty_N_go x "") = S (String.length (pretty_N_go (x `div` 10) "")).
Proof.
  intros H. rewrite pretty_N_go_snoc, length_append by exact H. simpl. lia.
Qed.

Lemma str_pos (n : Z) : 0 < n -> str n = pretty_N_go (Z.to_N n) "".
Proof. destruct n as [|p|p]; intros H; try lia. reflexivity. Qed.

(** [int(str(n)) == n] for a natural number. *)
Lemma int_str (n : Z) : 0 <= n -> int (str n) = n.
Proof.
  intros H. destruct (Z.eq_dec n 0) as [->|Hn]; [reflexivity|].
  rewrite str_pos, pretty_N_go_int by lia. lia.
Qed.

Lemma str_all_digits (n : Z) : 0 <= n -> all_digits (str n) = true.
Proof.
  intros H. destruct (Z.eq_dec n 0) as [->|Hn]; [reflexivity|].
  rewrite str_pos by lia. apply pretty_N_go_digits.
Qed.

Lemma str_inj (m n : Z) : str m = str n -> m = n.
Proof. apply pretty_Z_inj. Qed.

Lemma str_nonempty (n : Z) : 0 <= n -> str n <> "".
Proof.
  intros H E. destruct (Z.eq_dec n 0) as [->|Hn]; [discriminate E|].
  pose proof (int_str n H) as Hi. rewrite E in Hi. cbn in Hi. lia.
Qed.

(** A number between [10^k] and [10^(k+1)] prints as [k+1] characters. *)
Lemma pretty_N_go_length_pow (k : nat) (x : N) :
  (10 ^ N.of_nat k <= x < 10 ^ N.of_nat (S k))%N ->
  String.length (pretty_N_go x "") = S k.
Proof.
  revert x. induction k as [|k IH]; intros x [Hlo Hhi].
  - change (10 ^ N.of_nat 0)%N with 1%N in Hlo.
    change (10 ^ N.of_nat 1)%N with 10%N in Hhi.
    rewrite pretty_N_go_length by lia.
    rewrite N.div_small by lia. reflexivity.
  - rewrite Nat2N.inj_succ, N.pow_succ_r' in Hlo, Hhi.
    assert (0 < 10 ^ N.of_nat k)%N as Hpos by (apply N.neq_0_lt_0, N.pow_nonzero; lia).
    rewrite pretty_N_go_length by lia.
    f_equal. apply IH. split.
    + apply N.div_le_lower_bound; lia.
    + apply N.Div0.div_lt_upper_bound. exact Hhi.
Qed.

(** A number of six digits prints as six characters. *)
Lemma str_six_digits (r : Z) :
  100000 <= r <= 999999 -> String.length (str r) = 6%nat.
Proof.
  intros H. rewrite str_pos by lia.
  apply (pretty_N_go_length_pow 5).
  change (10 ^ N.of_nat 5)%N with 100000%N.
  change (10 ^ N.of_nat 6)%N with 1000000%N. lia.
Qed.

End PyStrFacts.

(** ** The matcher decides the language *)

Module RegexFacts.
Import PyStr PyStrFacts Re.

Lemma append_nil_inv (s t : string) : (s ++ t)%string = "" -> s = "" /\ t = "".
Proof.
  destruct s as [|x s'].
  - change ("" ++ t)%string with t. now intros ->.
  - rewrite append_cons. discriminate.
Qed.

Lemma append_cons_inv (s t : string) (c : ascii) (u : string) :
  (s ++ t)%string = String c u ->
  (s = "" /\ t = String c u) \/ (exists s', s = String c s' /\ u = (s' ++ t)%string).
Proof.
  destruct s as [|x s']; [now left|].
  rewrite append_cons. intros [= -> <-]. right. eauto.
Qed.

Lemma matches_void (s : string) : ~ matches Void s.
Proof. intros H. inversion H. Qed.

Lemma matches_eps_inv (s : string) : matches Eps s -> s = "".
Proof. intros H. now inversion H. Qed.

Lemma nullable_matches (r : regex) : nullable r = true <-> matches r "".
Proof.
  split.
  - induction r as [| |p|a IHa b IHb|a IHa b IHb|a IHa]; cbn [nullable]; intros H;
      try discriminate H.
    + constructor.
    + apply andb_true_iff in H as [Ha Hb].
      change "" with ("" ++ "")%string. constructor; auto.
    + apply orb_true_iff in H as [H|H]; [apply matches_alt_l | apply matches_alt_r]; auto.
    + constructor.
  - intros H. remember "" as s eqn:Hs.
    induction H as [|p c Hp|a b s t Ha IHa Hb IHb|a b s Ha IHa|a b s Hb IHb| |a s t Ha IHa Hb IHb];
      cbn [nullable]; try reflexivity; try discriminate Hs.
    + apply append_nil_inv in Hs as [-> ->]. now rewrite IHa, IHb.
    + now rewrite IHa.
    + rewrite IHb by assumption. apply orb_true_r.
Qed.

Lemma cat_matches (a b : regex) (s : string) : matches (cat a b) s <-> matches (Cat a b) s.
Proof.
  split.
  - destruct a, b; cbn [cat]; intros H; try exact H;
      try (now apply matches_void in H);
      change s with ("" ++ s)%string; constructor; auto; constructor.
  - intros H. inversion H as [| |a' b' s1 s2 Ha Hb| | | |]; subst.
    destruct a, b; cbn [cat];
      try (now apply matches_void in Ha); try (now apply matches_void in Hb);
      try (now constructor);
      apply matches_eps_inv in Ha; subst s1; exact Hb.
Qed.

Lemma alt_matches (a b : regex) (s : string) : matches (alt a b) s <-> matches (Alt a b) s.
Proof.
  split.
  - destruct a, b; cbn [alt]; intros H; try exact H;
      try (now apply matches_void in H);
      try (now apply matches_alt_r); try (now apply matches_alt_l).
  - intros H. inversion H as [| | |a' b' s' Ha|a' b' s' Hb| |]; subst;
      destruct a, b; cbn [alt];
      try (now apply matches_void in Ha); try (now apply matches_void in Hb);
      try assumption; try (now apply matches_alt_l); try (now apply matches_alt_r).
Qed.

(** The derivative by [c] matches what is left after a leading [c]. *)
Lemma deriv_sound (c : ascii) (r : regex) (s : string) :
  matches (deriv c r) s -> matches r (String c s).
Proof.
  revert s. induction r as [| |p|a IHa b IHb|a IHa b IHb|a IHa]; intros s; cbn [deriv]; intros H.
  - now apply matches_void in H.
  - now apply matches_void in H.
  - destruct (p c) eqn:Hp; [|now apply matches_void in H].
    apply matches_eps_inv in H. subst s. now constructor.
  - apply alt_matches in H.
    inversion H as [| | |a' b' s' Hl|a' b' s' Hr| |]; subst.
    + apply cat_matches in Hl.
      inversion Hl as [| |a' b' s1 s2 H1 H2| | | |]; subst.
      rewrite <- append_cons. constructor; auto.
    + destruct (nullable a) eqn:Hn; [|now apply matches_void in Hr].
      change (String c s) with ("" ++ String c s)%string.
      constructor; [now apply nullable_matches | auto].
  - apply alt_matches in H.
    inversion H; subst; [apply matches_alt_l | apply matches_alt_r]; auto.
  - apply cat_matches in H.
    inversion H as [| |a' b' s1 s2 H1 H2| | | |]; subst.
    rewrite <- append_cons. constructor; auto.
Qed.

Lemma deriv_complete (c : ascii) (r : regex) (t : string) :
  matches r t -> forall s : string, t = String c s -> matches (deriv c r) s.
Proof.
  induction 1 as [|p x Hp|a b s1 s2 Ha IHa Hb IHb|a b s1 Ha IHa|a b s1 Hb IHb| |a s1 s2 Ha IHa Hb IHb];
    intros s Hs; cbn [deriv].
  - discriminate Hs.
  - injection Hs as -> <-. rewrite Hp. constructor.
  - apply alt_matches. apply append_cons_inv in Hs as [[-> ->]|(s1' & -> & ->)].
    + apply matches_alt_r. apply nullable_matches in Ha. rewrite Ha. now apply IHb.
    + apply matches_alt_l, cat_matches. constructor; auto.
  - apply alt_matches, matches_alt_l. auto.
  - apply alt_matches, matches_alt_r. auto.
  - discriminate Hs.
  - apply append_cons_inv in Hs as [[-> ->]|(s1' & -> & ->)].
    + now apply IHb.
    + apply cat_matches. constructor; auto.
Qed.

Theorem fullmatch_matches (r : regex) (s : string) : fullmatch r s = true <-> matches r s.
Proof.
  revert r. induction s as [|c s IH]; intros r; cbn [fullmatch].
  - apply nullable_matches.
  - rewrite IH. split; [apply deriv_sound|].
    intros H. now apply (deriv_complete c r (String c s)).
Qed.

Lemma lower_append (s t : string) : lower (s ++ t) = (lower s ++ lower t)%string.
Proof.
  induction s as [|c s IH]; [reflexivity|].
  rewrite append_cons. cbn [lower]. now rewrite append_cons, IH.
Qed.

(** Folding the case keeps a string in the language when every class is
    closed under it. *)
Lemma matches_lower (r : regex) (s : string) :
  closed_under lower_char r -> matches r s -> matches r (lower s).
Proof.
  intros Hc H. induction H as [|p c Hp|a b s t Ha IHa Hb IHb|a b s Ha IHa|a b s Hb IHb| |a s t Ha IHa Hb IHb];
    cbn [closed_under] in Hc.
  - constructor.
  - constructor. now apply Hc.
  - rewrite lower_append. destruct Hc. constructor; auto.
  - destruct Hc. apply matches_alt_l; auto.
  - destruct Hc. apply matches_alt_r; auto.
  - constructor.
  - rewrite lower_append. constructor; auto.
Qed.

End RegexFacts.

(** ** The one-time code *)

Module OtpFacts.
Import PyStr PyStrFacts UserModel Lifecycle.

(** The four outcomes of [verify_otp] on a row with a code and an expiry. *)
Section Pending.
Variables (u : User) (code : string) (expires now : datetime).
Hypothesis Hcode : otp_code u = Some code.
Hypothesis Hexp : otp_expires_at u = Some expires.
Hypothesis Hne : code <> "".

Lemma verify_otp_expired (p : string) :
  expires < now ->
  verify_otp u p now = (u, (false, "OTP has expired. Please request a new one.")).
Proof.
  intros Ht. unfold verify_otp. rewrite Hcode, Hexp.
  apply truthy_true in Hne. rewrite Hne. cbn [negb].
  apply Z.ltb_lt in Ht. now rewrite Ht.
Qed.

Lemma verify_otp_locked (p : string) :
  now <= expires -> 5 <= otp_attempts u ->
  verify_otp u p now = (u, (false, "Too many failed attempts. Please request a new OTP.")).
Proof.
  intros Ht Ha. unfold verify_otp. rewrite Hcode, Hexp.
  apply truthy_true in Hne. rewrite Hne. cbn [negb].
  apply Z.ltb_ge in Ht. rewrite Ht.
  apply Z.leb_le in Ha. now rewrite Ha.
Qed.

Lemma verify_otp_match :
  now <= expires -> otp_attempts u < 5 ->
  verify_otp u code now =
  (set_otp_attempts (set_otp_expires_at (set_otp_code (set_is_verified u true) None) None) 0,
   (true, "Email verified successfully!")).
Proof.
  intros Ht Ha. unfold verify_otp. rewrite Hcode, Hexp.
  apply truthy_true in Hne. rewrite Hne. cbn [negb].
  apply Z.ltb_ge in Ht. rewrite Ht.
  apply Z.leb_gt in Ha. rewrite Ha.
  now rewrite String.eqb_refl.
Qed.

Lemma verify_otp_mismatch (p : string) :
  now <= expires -> otp_attempts u < 5 -> p <> code ->
  verify_otp u p now =
  (set_otp_attempts u (otp_attempts u + 1),
   (false, invalid_otp_message (5 - (otp_attempts u + 1)))).
Proof.
  intros Ht Ha Hp. unfold verify_otp. rewrite Hcode, Hexp.
  apply truthy_true in Hne. rewrite Hne. cbn [negb].
  apply Z.ltb_ge in Ht. rewrite Ht.
  apply Z.leb_gt in Ha. rewrite Ha.
  assert (String.eqb code p = false) as -> by (apply String.eqb_neq; congruence).
  reflexivity.
Qed.
End Pending.

Lemma verify_otp_no_code (u : User) (p : string) (now : datetime) :
  otp_code u = None ->
  verify_otp u p now = (u, (false, "No OTP found. Please request a new one.")).
Proof. intros H. unfold verify_otp. now rewrite H. Qed.

(** C1. [generate_otp] followed by [verify_otp] with the returned code
    before the expiry succeeds: the row is verified and its three OTP
    fields are cleared (code and expiry NULL, counter 0); verifying the
    same code again fails with the no-OTP message and changes nothing.
    The code is the six-digit decimal numeral of the draw, a number in
    [100000, 999999]. *)
Theorem generate_then_verify_once (u : User) (r : Z) (now t1 t2 : datetime) :
  100000 <= r <= 999999 ->
  t1 <= now + ten_minutes ->
  let '(u0, code) := generate_otp u r now in
  let '(u1, first) := verify_otp u0 code t1 in
  let '(u2, second) := verify_otp u1 code t2 in
  (String.length code = 6%nat /\ all_digits code = true /\
   100000 <= int code <= 999999) /\
  (first = (true, "Email verified successfully!") /\
   is_verified u1 = true /\
   otp_code u1 = None /\ otp_expires_at u1 = None /\ otp_attempts u1 = 0) /\
  (second = (false, "No OTP found. Please request a new one.") /\ u2 = u1).
Proof.
  intros Hr Ht. unfold generate_otp.
  set (u0 := set_otp_attempts _ 0).
  assert (str r <> "") as Hne by (apply str_nonempty; lia).
  rewrite (verify_otp_match u0 (str r) (now + ten_minutes) t1)
    by (try reflexivity; try assumption; cbn; lia).
  set (u1 := set_otp_attempts _ 0).
  rewrite (verify_otp_no_code u1) by reflexivity.
  repeat split.
  - now apply str_six_digits.
  - apply str_all_digits. lia.
  - rewrite int_str; lia.
  - rewrite int_str; lia.
Qed.

Lemma generate_then_verify_once_witness :
  100000 <= 123456 <= 999999 /\
  5 <= 0 + ten_minutes /\
  let '(u0, code) := generate_otp Scenario.verified_user 123456 0 in
  let '(u1, first) := verify_otp u0 code 5 in
  let '(u2, second) := verify_otp u1 code 6 in
  (String.length code = 6%nat /\ all_digits code = true /\
   100000 <= int code <= 999999) /\
  (first = (true, "Email verified successfully!") /\
   is_verified u1 = true /\
   otp_code u1 = None /\ otp_expires_at u1 = None /\ otp_attempts u1 = 0) /\
  (second = (false, "No OTP found. Please request a new one.") /\ u2 = u1).
Proof.
  split; [lia|]. split; [vm_compute; discriminate|].
  apply (generate_then_verify_once Scenario.verified_user 123456 0 5 6).
  - lia.
  - vm_compute. discriminate.
Defined.

(** C2. On a row with a fresh code (counter 0), five wrong submissions
    before the expiry raise the counter to 1, 2, 3, 4, 5 and report 4, 3, 2,
    1, 0 remaining attempts; a sixth submission, whatever its code, is
    answered with the too-many-attempts message. *)
Theorem five_wrong_then_locked (u : User) (code : string) (expires : datetime)
    (w1 w2 w3 w4 w5 last : string) (t1 t2 t3 t4 t5 t6 : datetime) :
  otp_code u = Some code -> code <> "" ->
  otp_expires_at u = Some expires ->
  otp_attempts u = 0 ->
  Forall (fun w => w <> code) [w1; w2; w3; w4; w5] ->
  Forall (fun t => t <= expires) [t1; t2; t3; t4; t5; t6] ->
  verify_all u [(w1, t1); (w2, t2); (w3, t3); (w4, t4); (w5, t5); (last, t6)] =
  [ (1, (false, "Invalid OTP. 4 attempts remaining."));
    (2, (false, "Invalid OTP. 3 attempts remaining."));
    (3, (false, "Invalid OTP. 2 attempts remaining."));
    (4, (false, "Invalid OTP. 1 attempts remaining."));
    (5, (false, "Invalid OTP. 0 attempts remaining."));
    (5, (false, "Too many failed attempts. Please request a new OTP.")) ].
Proof.
  intros Hcode Hne Hexp Hatt Hw Ht.
  repeat match goal with
         | H : Forall _ (_ :: _) |- _ => apply Forall_cons_iff in H as [? H]
         end.
  assert (forall (v : User) (k : Z) (w : string) (t : datetime) rest,
            otp_code v = Some code -> otp_expires_at v = Some expires ->
            otp_attempts v = k -> k < 5 -> w <> code -> t <= expires ->
            verify_all v ((w, t) :: rest) =
            (k + 1, (false, invalid_otp_message (5 - (k + 1))))
              :: verify_all (set_otp_attempts v (k + 1)) rest) as Hstep.
  { intros v k w t rest Hc He Hk Hlt Hneq Hle. cbn [verify_all].
    rewrite (verify_otp_mismatch v code expires t Hc He Hne w) by lia || assumption.
    rewrite Hk. reflexivity. }
  rewrite (Hstep u 0) by (assumption || lia).
  rewrite (Hstep _ 1) by (assumption || reflexivity || lia).
  rewrite (Hstep _ 2) by (assumption || reflexivity || lia).
  rewrite (Hstep _ 3) by (assumption || reflexivity || lia).
  rewrite (Hstep _ 4) by (assumption || reflexivity || lia).
  cbn [verify_all].
  rewrite (verify_otp_locked _ code expires t6) by (assumption || reflexivity || cbn; lia).
  reflexivity.
Qed.

Lemma five_wrong_then_locked_witness :
  verify_all Scenario.pending_user
    [("000000", 1); ("111111", 2); ("000000", 3); ("999999", 4); ("12345", 5);
     ("123456", 6)] =
  [ (1, (false, "Invalid OTP. 4 attempts remaining."));
    (2, (false, "Invalid OTP. 3 attempts remaining."));
    (3, (false, "Invalid OTP. 2 attempts remaining."));
    (4, (false, "Invalid OTP. 1 attempts remaining."));
    (5, (false, "Invalid OTP. 0 attempts remaining."));
    (5, (false, "Too many failed attempts. Please request a new OTP.")) ].
Proof.
  apply (five_wrong_then_locked Scenario.pending_user "123456" 600000000).
  - reflexivity.
  - discriminate.
  - reflexivity.
  - reflexivity.
  - repeat constructor; discriminate.
  - repeat constructor; vm_compute; discriminate.
Defined.

End OtpFacts.

(** ** Role detection and domain validation *)

Module RoleFacts.
Import PyStr PyStrFacts UserModel Validators Membership.

Lemma ends_with_any_student (email : string) :
  ends_with_any email allowed_student_domains = true <->
  endswith (lower email) "@students.kcau.ac.ke" = true \/
  endswith (lower email) "@student.kcau.ac.ke" = true.
Proof.
  unfold ends_with_any, allowed_student_domains. cbn [existsb].
  change (lower "@students.kcau.ac.ke") with "@students.kcau.ac.ke".
  change (lower "@student.kcau.ac.ke") with "@student.kcau.ac.ke".
  rewrite orb_false_r, orb_true_iff. reflexivity.
Qed.

Lemma ends_with_any_lecturer (email : string) :
  ends_with_any email allowed_lecturer_domains = true <->
  endswith (lower email) "@kcau.ac.ke" = true \/
  endswith (lower email) "@staff.kcau.ac.ke" = true \/
  endswith (lower email) "@faculty.kcau.ac.ke" = true.
Proof.
  unfold ends_with_any, allowed_lecturer_domains. cbn [existsb].
  change (lower "@kcau.ac.ke") with "@kcau.ac.ke".
  change (lower "@staff.kcau.ac.ke") with "@staff.kcau.ac.ke".
  change (lower "@faculty.kcau.ac.ke") with "@faculty.kcau.ac.ke".
  rewrite orb_false_r, !orb_true_iff. reflexivity.
Qed.

(** Two domains neither of which ends with the other cannot both end one
    address. *)
Lemma domains_exclusive (s a b : string) :
  endswith a b = false -> endswith b a = false ->
  endswith s a = true -> endswith s b = false.
Proof.
  intros Hab Hba Ha. destruct (endswith s b) eqn:Hb; [|reflexivity].
  destruct (endswith_comparable s a b Ha Hb) as [H|H]; congruence.
Qed.

(** A suffix of the address as typed is a suffix of its folded form, for a
    domain in lower case. *)
Lemma endswith_folded (s d : string) :
  lower d = d -> endswith s d = true -> endswith (lower s) d = true.
Proof. intros Hd H. rewrite <- Hd. now apply endswith_lower. Qed.

(** The role is [lecturer] exactly when the address as typed ends with
    one of the two lecturer domains the resolver knows. *)
Lemma detect_role_lecturer (email : string) :
  detect_role_from_email email = "lecturer" ->
  endswith email "@kcau.ac.ke" = true \/ endswith email "@staff.kcau.ac.ke" = true.
Proof.
  unfold detect_role_from_email.
  destruct (endswith email "@students.kcau.ac.ke" || endswith email "@student.kcau.ac.ke");
    [discriminate|].
  destruct (endswith email "@kcau.ac.ke" || endswith email "@staff.kcau.ac.ke") eqn:E;
    [|discriminate].
  intros _. now apply orb_true_iff in E.
Qed.

Lemma detect_role_cases (email : string) :
  detect_role_from_email email = "student" \/ detect_role_from_email email = "lecturer".
Proof.
  unfold detect_role_from_email.
  repeat match goal with |- context [if ?b then _ else _] => destruct b end; auto.
Qed.

(** Student half of the agreement: an address of the student list is
    resolved to [student] and accepted under that role. *)
Lemma student_list_agrees (email : string) :
  in_student_list email ->
  detect_role_from_email email = "student" /\ accepts email "student" = true.
Proof.
  intros [Hv Hd]. split.
  - destruct (detect_role_cases email) as [H|H]; [exact H|exfalso].
    apply detect_role_lecturer in H.
    apply ends_with_any_student in Hd.
    assert (endswith (lower email) "@kcau.ac.ke" = true \/
            endswith (lower email) "@staff.kcau.ac.ke" = true) as Hl.
    { destruct H as [H|H]; [left|right]; now apply endswith_folded. }
    destruct Hd as [Hd|Hd], Hl as [Hl|Hl];
      eapply (domains_exclusive (lower email)) in Hd;
      try (rewrite Hl in Hd; discriminate Hd); reflexivity.
  - unfold accepts, validate_institutional_email. cbn [lower String.eqb].
    change (String.eqb (lower "student") "student") with true. cbv iota.
    unfold validate_student_email. now rewrite Hv, Hd.
Qed.

(** The last clause: an address of neither list is resolved to [student]
    and rejected under that role. *)
Lemma outside_lists_rejected (email : string) :
  ends_with_any email allowed_student_domains = false ->
  ends_with_any email allowed_lecturer_domains = false ->
  detect_role_from_email email = "student" /\ accepts email "student" = false.
Proof.
  intros Hs Hl. split.
  - destruct (detect_role_cases email) as [H|H]; [exact H|exfalso].
    apply detect_role_lecturer in H.
    assert (ends_with_any email allowed_lecturer_domains = true); [|congruence].
    apply ends_with_any_lecturer.
    destruct H as [H|H]; [left|right; left]; now apply endswith_folded.
  - unfold accepts, validate_institutional_email.
    change (String.eqb (lower "student") "student") with true. cbv iota.
    unfold validate_student_email. rewrite Hs.
    now destruct (validate_email email).
Qed.

(** Lecturer half, for the two domains the resolver tests and an address
    typed with its domain in lower case. *)
Lemma lecturer_typed_agrees (email : string) :
  validate_email email = true ->
  endswith email "@kcau.ac.ke" = true \/ endswith email "@staff.kcau.ac.ke" = true ->
  detect_role_from_email email = "lecturer" /\ accepts email "lecturer" = true.
Proof.
  intros Hv Hd.
  assert (endswith email "@students.kcau.ac.ke" = false /\
          endswith email "@student.kcau.ac.ke" = false) as [H1 H2].
  { destruct Hd as [Hd|Hd]; split;
      eapply (domains_exclusive email); try exact Hd; reflexivity. }
  split.
  - unfold detect_role_from_email. rewrite H1, H2. cbn [orb].
    destruct Hd as [-> | ->]; [reflexivity|]. now rewrite orb_true_r.
  - unfold accepts, validate_institutional_email.
    change (String.eqb (lower "lecturer") "student") with false.
    change (String.eqb (lower "lecturer") "lecturer") with true. cbv iota.
    unfold validate_lecturer_email. rewrite Hv. cbn [negb].
    assert (ends_with_any email allowed_lecturer_domains = true) as ->; [|reflexivity].
    apply ends_with_any_lecturer.
    destruct Hd as [H|H]; [left|right; left]; now apply endswith_folded.
Qed.

(** C3, where the resolver departs from the lecturer list.  The address
    [a@faculty.kcau.ac.ke] is syntactically valid and in the lecturer list
    of the validator, yet the resolver answers [student] and the
    validation under the resolved role rejects it; the same happens to a
    lecturer address typed in capitals. *)
Theorem resolver_misses_lecturer_domains :
  (in_lecturer_list "a@faculty.kcau.ac.ke" /\
   detect_role_from_email "a@faculty.kcau.ac.ke" = "student" /\
   accepts "a@faculty.kcau.ac.ke" (detect_role_from_email "a@faculty.kcau.ac.ke") = false /\
   accepts "a@faculty.kcau.ac.ke" "lecturer" = true) /\
  (in_lecturer_list "A@KCAU.AC.KE" /\
   detect_role_from_email "A@KCAU.AC.KE" = "student" /\
   accepts "A@KCAU.AC.KE" (detect_role_from_email "A@KCAU.AC.KE") = false /\
   accepts "A@KCAU.AC.KE" "lecturer" = true).
Proof. vm_compute. repeat split. Qed.

End RoleFacts.

(** ** The username loop of the federated sign-up *)

Module UsernameFacts.
Import PyStr PyStrFacts UserModel Store Auth Lifecycle.

Lemma append_same_length (a x : string) : (a ++ x)%string = a -> x = "".
Proof.
  intros H. apply (f_equal String.length) in H. rewrite length_append in H.
  destruct x; [reflexivity | simpl in H; lia].
Qed.

(** The candidates are pairwise different. *)
Lemma candidate_inj (name : string) (i j : nat) :
  candidate name i = candidate name j -> i = j.
Proof.
  destruct i as [|i], j as [|j]; cbn [candidate]; intros H.
  - reflexivity.
  - symmetry in H. apply append_same_length in H.
    exfalso. revert H. apply str_nonempty. lia.
  - apply append_same_length in H.
    exfalso. revert H. apply str_nonempty. lia.
  - apply String.app_inj, str_inj in H. lia.
Qed.

Lemma candidate_next (name : string) (k : nat) :
  (name ++ str (Z.of_nat (S k)))%string = candidate name (S k).
Proof. reflexivity. Qed.

(** One turn of the loop, in terms of the candidates: the loop holds
    candidate [k] when its counter is [k + 1]. *)
Lemma username_loop_turn (fuel : nat) (db : list User) (name : string) (k : nat) :
  username_loop (S fuel) db name (Z.of_nat (S k)) (candidate name k) =
  if username_taken db (candidate name k)
  then username_loop fuel db name (Z.of_nat (S (S k))) (candidate name (S k))
  else Some (candidate name k).
Proof.
  cbn [username_loop]. unfold username_taken.
  destruct (found _); [|reflexivity].
  rewrite candidate_next. f_equal. lia.
Qed.

(** A loop that runs out of fuel has seen only taken candidates. *)
Lemma username_loop_none (fuel : nat) (db : list User) (name : string) (k : nat) :
  username_loop fuel db name (Z.of_nat (S k)) (candidate name k) = None ->
  forall j : nat, (k <= j < k + fuel)%nat -> username_taken db (candidate name j) = true.
Proof.
  revert k. induction fuel as [|fuel IH]; intros k Hloop j Hj; [lia|].
  rewrite username_loop_turn in Hloop.
  destruct (username_taken db (candidate name k)) eqn:Hk; [|discriminate Hloop].
  destruct (Nat.eq_dec j k) as [->|Hne]; [exact Hk|].
  apply (IH (S k) Hloop). lia.
Qed.

(** A loop that ends returns the first free candidate from where it started. *)
Lemma username_loop_some (fuel : nat) (db : list User) (name : string) (k : nat)
    (result : string) :
  username_loop fuel db name (Z.of_nat (S k)) (candidate name k) = Some result ->
  exists j : nat,
    (k <= j < k + fuel)%nat /\ result = candidate name j /\
    username_taken db (candidate name j) = false /\
    forall i : nat, (k <= i < j)%nat -> username_taken db (candidate name i) = true.
Proof.
  revert k. induction fuel as [|fuel IH]; intros k Hloop; [discriminate Hloop|].
  rewrite username_loop_turn in Hloop.
  destruct (username_taken db (candidate name k)) eqn:Hk.
  - destruct (IH (S k) Hloop) as (j & Hj & Hres & Hfree & Hbelow).
    exists j. split; [lia|]. split; [exact Hres|]. split; [exact Hfree|].
    intros i Hi. destruct (Nat.eq_dec i k) as [->|Hne]; [exact Hk|].
    apply Hbelow. lia.
  - injection Hloop as <-. exists k.
    split; [lia|]. split; [reflexivity|]. split; [exact Hk|].
    intros i Hi. lia.
Qed.

Lemma username_taken_in (db : list User) (name : string) :
  username_taken db name = true -> In name (map username db).
Proof.
  unfold username_taken, find_by_username.
  destruct (find _ db) as [u|] eqn:Hfind; [|discriminate].
  intros _. apply find_some in Hfind as [Hin Heq].
  apply String.eqb_eq in Heq. subst name. now apply in_map.
Qed.

(** Pigeonhole: more candidates than rows cannot all be taken. *)
Lemma candidates_not_all_taken (db : list User) (name : string) :
  ~ (forall j : nat, (j < S (length db))%nat ->
                     username_taken db (candidate name j) = true).
Proof.
  intros Hall.
  assert (List.NoDup (map (candidate name) (seq 0 (S (length db))))) as Hnodup.
  { assert (Inj (=) (=) (candidate name)) as Hinj
      by (intros i j; apply candidate_inj).
    apply NoDup_ListNoDup, (NoDup_fmap_2 (candidate name)), NoDup_seq. }
  assert (incl (map (candidate name) (seq 0 (S (length db)))) (map username db)) as Hincl.
  { intros c Hc. apply in_map_iff in Hc as (j & <- & Hj).
    apply in_seq in Hj. apply username_taken_in, Hall. lia. }
  pose proof (NoDup_incl_length Hnodup Hincl) as Hlen.
  rewrite !length_map, length_seq in Hlen. lia.
Qed.

(** One more turn than there are rows always ends the loop. *)
Lemma username_loop_terminates (fuel : nat) (db : list User) (name : string) :
  (length db < fuel)%nat ->
  is_Some (username_loop fuel db name 1 name).
Proof.
  intros Hfuel.
  destruct (username_loop fuel db name 1 name) as [result|] eqn:Hloop; [eauto|].
  exfalso. apply (candidates_not_all_taken db name). intros j Hj.
  apply (username_loop_none fuel db name 0 Hloop). lia.
Qed.

(** C7. For every store the loop ends, within one turn more than there are
    rows (and with the same result for any larger bound), on the first
    candidate of [name], [name1], [name2], ... that no row has as its
    username. *)
Theorem username_collision_resolution (db : list User) (name : string) :
  exists k : nat,
    (k <= length db)%nat /\
    (forall fuel : nat, (length db < fuel)%nat ->
       username_loop fuel db name 1 name = Some (candidate name k)) /\
    unique_username db name = candidate name k /\
    username_taken db (candidate name k) = false /\
    (forall j : nat, (j < k)%nat -> username_taken db (candidate name j) = true).
Proof.
  destruct (username_loop_terminates (S (length db)) db name) as [result Hloop]; [lia|].
  destruct (username_loop_some _ db name 0 result Hloop) as (k & Hk & -> & Hfree & Hbelow).
  exists k. split; [lia|]. split; [|split; [|split]].
  - intros fuel Hfuel.
    destruct (username_loop_terminates fuel db name Hfuel) as [result' Hloop'].
    rewrite Hloop'. f_equal.
    destruct (username_loop_some _ db name 0 result' Hloop') as (k' & _ & -> & Hfree' & Hbelow').
    f_equal.
    destruct (Nat.lt_trichotomy k k') as [Hlt|[Heq|Hgt]]; [|exact (eq_sym Heq)|].
    + rewrite Hbelow' in Hfree by lia. discriminate Hfree.
    + rewrite Hbelow in Hfree' by lia. discriminate Hfree'.
  - unfold unique_username. now rewrite Hloop.
  - exact Hfree.
  - intros j Hj. apply Hbelow. lia.
Qed.

Lemma username_collision_resolution_witness :
  exists k : nat,
    (k <= length Scenario.after_google_signup)%nat /\
    (forall fuel : nat, (length Scenario.after_google_signup < fuel)%nat ->
       username_loop fuel Scenario.after_google_signup "Bob" 1 "Bob"
       = Some (candidate "Bob" k)) /\
    unique_username Scenario.after_google_signup "Bob" = candidate "Bob" k /\
    username_taken Scenario.after_google_signup (candidate "Bob" k) = false /\
    (forall j : nat, (j < k)%nat ->
       username_taken Scenario.after_google_signup (candidate "Bob" j) = true).
Proof. apply (username_collision_resolution Scenario.after_google_signup "Bob"). Defined.

(** [alice] taken and [alice1] free: the new account is [alice1]. *)
Example alice_then_alice1 :
  unique_username [set_uid Scenario.federated_user 1;
                   {| uid := 2; email := "alice@example.com"; username := "alice";
                      password_hash := None; first_name := ""; last_name := "";
                      profile_picture := None; phone_number := None;
                      role := "student"; is_active := true; is_verified := true;
                      otp_code := None; otp_expires_at := None; otp_attempts := 0;
                      google_id := Some "g-2"; created_at := 0; last_login := None |}]
    (split_head "@" "alice@kcau.ac.ke") = "alice1".
Proof. vm_compute. reflexivity. Qed.

End UsernameFacts.

(** ** The stored form of an accepted address *)

Module AddressFacts.
Import PyStr PyStrFacts Re RegexFacts UserModel Validators Membership RoleFacts.

Ltac by_cases_on_char :=
  intros [[] [] [] [] [] [] [] []]; vm_compute; congruence.

Lemma local_class_lower :
  forall c : ascii, local_class c = true -> local_class (lower_char c) = true.
Proof. by_cases_on_char. Qed.

Lemma domain_class_lower :
  forall c : ascii, domain_class c = true -> domain_class (lower_char c) = true.
Proof. by_cases_on_char. Qed.

Lemma is_alpha_lower : forall c : ascii, is_alpha c = true -> is_alpha (lower_char c) = true.
Proof. by_cases_on_char. Qed.

Lemma at_sign_lower :
  forall c : ascii, Ascii.eqb "@" c = true -> Ascii.eqb "@" (lower_char c) = true.
Proof. by_cases_on_char. Qed.

Lemma dot_lower : forall c : ascii, Ascii.eqb "." c = true -> Ascii.eqb "." (lower_char c) = true.
Proof. by_cases_on_char. Qed.

Lemma newline_lower :
  forall c : ascii, Ascii.eqb "010" c = true -> Ascii.eqb "010" (lower_char c) = true.
Proof. by_cases_on_char. Qed.

Lemma local_class_not_space : forall c : ascii, local_class c = true -> is_space c = false.
Proof. by_cases_on_char. Qed.

Lemma email_pattern_closed : closed_under lower_char email_pattern.
Proof.
  cbn [closed_under email_pattern plus at_least_two dollar chr].
  repeat split; auto using local_class_lower, domain_class_lower, is_alpha_lower,
    at_sign_lower, dot_lower, newline_lower.
Qed.

(** A valid address is still valid in lower case. *)
Lemma validate_email_lower (e : string) :
  validate_email e = true -> validate_email (lower e) = true.
Proof.
  unfold validate_email. rewrite !fullmatch_matches.
  apply matches_lower, email_pattern_closed.
Qed.

Lemma fullmatch_void (s : string) : fullmatch Void s = false.
Proof. induction s as [|c s IH]; [reflexivity | exact IH]. Qed.

(** A valid address starts with a character of the local class. *)
Lemma validate_email_head (e : string) :
  validate_email e = true ->
  exists (c : ascii) (s : string), e = String c s /\ local_class c = true.
Proof.
  destruct e as [|c s]; [discriminate|]. intros H.
  exists c, s. split; [reflexivity|].
  destruct (local_class c) eqn:Hc; [reflexivity|].
  unfold validate_email, email_pattern in H. cbn [fullmatch deriv plus nullable andb] in H.
  rewrite Hc in H. cbn [cat alt] in H. now rewrite fullmatch_void in H.
Qed.

Lemma endswith_nonempty (s d : string) : d <> "" -> endswith s d = true -> s <> "".
Proof.
  intros Hd H ->. rewrite endswith_nil in H. apply String.eqb_eq in H. congruence.
Qed.

(** A string that ends with a suffix [rstrip] leaves alone is left alone. *)
Lemma rstrip_endswith (s d : string) :
  d <> "" -> rstrip d = d -> endswith s d = true -> rstrip s = s.
Proof.
  intros Hd Hr. induction s as [|x s IH]; intros H; [reflexivity|].
  apply endswith_inv in H as [->|(c & s' & [= <- <-] & H)]; [exact Hr|].
  cbn [rstrip]. rewrite (IH H).
  pose proof (endswith_nonempty s d Hd H) as Hs. now destruct s.
Qed.

Lemma accepted_inv (e : string) :
  accepts e (detect_role_from_email e) = true ->
  validate_email e = true /\
  (ends_with_any e allowed_student_domains = true \/
   ends_with_any e allowed_lecturer_domains = true).
Proof.
  unfold accepts, validate_institutional_email.
  destruct (detect_role_cases e) as [-> | ->].
  - change (String.eqb (lower "student") "student") with true. cbv iota.
    unfold validate_student_email.
    destruct (validate_email e); cbn [negb fst]; [|discriminate].
    destruct (ends_with_any e allowed_student_domains); cbn [fst]; [auto|discriminate].
  - change (String.eqb (lower "lecturer") "student") with false.
    change (String.eqb (lower "lecturer") "lecturer") with true. cbv iota.
    unfold validate_lecturer_email.
    destruct (validate_email e); cbn [negb fst]; [|discriminate].
    destruct (ends_with_any e allowed_lecturer_domains); cbn [fst]; [auto|discriminate].
Qed.

(** An address [register] accepts is stored as its lower-case form, and
    that form is a valid address: [strip] has nothing to remove. *)
Lemma accepted_stored_form (e : string) :
  accepts e (detect_role_from_email e) = true ->
  strip (lower e) = lower e /\ validate_email (lower e) = true.
Proof.
  intros H. apply accepted_inv in H as [Hv Hd].
  pose proof (validate_email_lower e Hv) as Hvl. split; [|exact Hvl].
  unfold strip.
  destruct (validate_email_head (lower e) Hvl) as (c & s & Hs & Hc).
  assert (lstrip (lower e) = lower e) as ->.
  { rewrite Hs. cbn [lstrip]. now rewrite (local_class_not_space c Hc). }
  assert (exists d, d <> "" /\ rstrip d = d /\ endswith (lower e) d = true)
    as (d & Hne & Hr & He).
  { assert (ends_with_any e allowed_student_domains = true \/
            ends_with_any e allowed_lecturer_domains = true) as Hlists by exact Hd.
    rewrite ends_with_any_student, ends_with_any_lecturer in Hlists.
    repeat destruct Hlists as [Hlists|Hlists];
      match type of Hlists with
      | endswith _ ?d = true =>
          exists d; split; [discriminate | split; [reflexivity | exact Hlists]]
      end. }
  exact (rstrip_endswith (lower e) d Hne Hr He).
Qed.

End AddressFacts.

(** ** The table: lookups, rewrites and inserts *)

Module StoreFacts.
Import PyStr PyStrFacts UserModel Store Auth Lifecycle.

Lemma update_length (db : list User) (v : User) : length (update db v) = length db.
Proof. apply length_map. Qed.

Lemma update_uids (db : list User) (v : User) : map uid (update db v) = map uid db.
Proof.
  unfold update. rewrite map_map. apply map_ext. intros r.
  destruct (uid r =? uid v) eqn:E; [|reflexivity].
  apply Z.eqb_eq in E. now rewrite E.
Qed.

Lemma update_lookup (db : list User) (v : User) (i : nat) :
  update db v !! i = (fun r => if uid r =? uid v then v else r) <$> db !! i.
Proof. unfold update. apply list_lookup_fmap. Qed.

(** Two rewrites of the same row amount to the second. *)
Lemma update_update (db : list User) (a b : User) :
  uid a = uid b -> update (update db a) b = update db b.
Proof.
  intros H. unfold update. rewrite map_map. apply map_ext. intros r.
  rewrite <- H. destruct (uid r =? uid a) eqn:E; [|now rewrite E].
  now rewrite Z.eqb_refl.
Qed.

Lemma update_Forall (P : User -> Prop) (db : list User) (v : User) :
  Forall P db -> P v -> Forall P (update db v).
Proof.
  intros Hdb Hv. unfold update. apply Forall_fmap.
  eapply Forall_impl; [exact Hdb|]. intros r Hr. cbn. now destruct (uid r =? uid v).
Qed.

Lemma query_get_some (db : list User) (i : Z) (u : User) :
  query_get db i = Some u -> In u db /\ uid u = i.
Proof.
  intros H. apply find_some in H as [Hin Heq]. split; [exact Hin | lia].
Qed.

Lemma find_by_email_some (db : list User) (e : string) (u : User) :
  find_by_email db e = Some u -> In u db /\ email u = e.
Proof.
  intros H. apply find_some in H as [Hin Heq]. split; [exact Hin|].
  now apply String.eqb_eq.
Qed.

Lemma find_by_google_id_some (db : list User) (g : string) (u : User) :
  find_by_google_id db g = Some u -> In u db /\ google_id u = Some g.
Proof.
  intros H. apply find_some in H as [Hin Heq]. split; [exact Hin|].
  unfold opt_eqb in Heq. destruct (google_id u); [|discriminate].
  apply String.eqb_eq in Heq. now subst.
Qed.

(** Under the primary key a row is determined by its id. *)
Lemma keyed_row (db : list User) (a b : User) :
  keyed db -> In a db -> In b db -> uid a = uid b -> a = b.
Proof.
  unfold keyed. induction db as [|r db IH]; intros Hk Ha Hb Heq; [destruct Ha|].
  cbn in Hk. apply NoDup_cons in Hk as [Hr Hk].
  destruct Ha as [->|Ha], Hb as [->|Hb].
  - reflexivity.
  - exfalso. apply Hr. rewrite Heq. apply list_elem_of_In. now apply in_map.
  - exfalso. apply Hr. rewrite <- Heq. apply list_elem_of_In. now apply in_map.
  - now apply IH.
Qed.

Lemma next_id_above (db : list User) (u : User) : In u db -> uid u < next_id db.
Proof.
  unfold next_id. induction db as [|r db IH]; intros Hin; [destruct Hin|].
  cbn [map fold_right]. destruct Hin as [->|Hin]; [lia|].
  apply IH in Hin. lia.
Qed.

Lemma keyed_update (db : list User) (v : User) : keyed db -> keyed (update db v).
Proof. unfold keyed. now rewrite update_uids. Qed.

Lemma keyed_insert (db : list User) (v : User) :
  keyed db -> keyed (db ++ [set_uid v (next_id db)]).
Proof.
  unfold keyed. intros Hk. rewrite map_app. cbn [map].
  apply NoDup_app. split; [exact Hk|]. split; [|apply NoDup_singleton].
  intros i Hi Hi'. apply list_elem_of_In in Hi. apply in_map_iff in Hi as (u & <- & Hu).
  apply next_id_above in Hu. apply list_elem_of_singleton in Hi'.
  destruct v; cbn in Hi'. lia.
Qed.

Lemma evolves_keyed (db db' : list User) : evolves db db' -> keyed db -> keyed db'.
Proof.
  intros [ | v0 v _ _ _ | v _ ] Hk;
    [exact Hk | now apply keyed_update | now apply keyed_insert].
Qed.

(** A verified row stays where it is, with its id, and stays verified. *)
Lemma evolves_verified (db db' : list User) (i : nat) (u : User) :
  evolves db db' -> keyed db ->
  db !! i = Some u -> is_verified u = true ->
  exists u', db' !! i = Some u' /\ uid u' = uid u /\ is_verified u' = true.
Proof.
  intros [ | v0 v Hin Huid [Hver _] | v _ ] Hk Hi Hu.
  - eauto.
  - rewrite update_lookup, Hi. cbn.
    destruct (uid u =? uid v) eqn:E; [|eauto].
    apply Z.eqb_eq in E. exists v. split; [reflexivity|]. split; [congruence|].
    apply Hver. replace v0 with u; [exact Hu|].
    apply (keyed_row db); try assumption; [|congruence].
    apply list_elem_of_In, list_elem_of_lookup. eauto.
  - exists u. rewrite lookup_app_l; [eauto|]. now apply lookup_lt_Some in Hi.
Qed.

(** The OTP fields of every row stay a unit. *)
Lemma evolves_otp_unit (limit : Z) (db db' : list User) :
  5 < limit -> evolves db db' ->
  Forall (otp_unit limit) db -> Forall (otp_unit limit) db'.
Proof.
  intros Hl [ | v0 v Hin Huid [_ Hotp] | v Hnew ] Hdb.
  - exact Hdb.
  - apply update_Forall; [exact Hdb|]. apply Hotp; [exact Hl|].
    rewrite List.Forall_forall in Hdb. now apply Hdb.
  - apply Forall_app. split; [exact Hdb|]. apply Forall_singleton.
    destruct v; apply Hnew; lia.
Qed.

End StoreFacts.

(** ** What the operations do to the rows *)

Module LifecycleFacts.
Import PyStr PyStrFacts UserModel Store Auth Lifecycle StoreFacts.

Lemma row_step_refl (u : User) : row_step u u.
Proof. split; auto. Qed.

Lemma row_step_trans (a b c : User) : row_step a b -> row_step b c -> row_step a c.
Proof. intros [H1 H2] [H3 H4]. split; auto. Qed.

(** An assignment to a column outside the OTP fields and [is_verified]. *)
Lemma row_step_other (u v : User) :
  is_verified v = is_verified u -> otp_code v = otp_code u ->
  otp_expires_at v = otp_expires_at u -> otp_attempts v = otp_attempts u ->
  row_step u v.
Proof.
  intros Hv Hc He Ha. split; [congruence|].
  intros limit _. unfold otp_unit. now rewrite Hc, He, Ha.
Qed.

Lemma generate_otp_row_step (u : User) (r : Z) (now : datetime) :
  row_step u (fst (generate_otp u r now)) /\ uid (fst (generate_otp u r now)) = uid u.
Proof.
  split; [|reflexivity]. split; [auto|].
  intros limit Hl _. right. cbn. repeat split; eauto; lia.
Qed.

Lemma generate_otp_new_row (u : User) (r : Z) (now : datetime) :
  new_row (fst (generate_otp u r now)).
Proof. intros limit Hl. right. cbn. repeat split; eauto; lia. Qed.

Lemma clear_otp_row_step (u : User) : row_step u (clear_otp u) /\ uid (clear_otp u) = uid u.
Proof.
  split; [|reflexivity]. split; [auto|].
  intros limit Hl _. left. cbn. auto.
Qed.

Lemma verify_otp_row_step (u : User) (p : string) (now : datetime) :
  row_step u (fst (UserModel.verify_otp u p now)) /\
  uid (fst (UserModel.verify_otp u p now)) = uid u.
Proof.
  unfold UserModel.verify_otp.
  destruct (otp_code u) as [code|] eqn:Hc; [|split; [apply row_step_refl | reflexivity]].
  destruct (otp_expires_at u) as [expires|] eqn:He;
    [|split; [apply row_step_refl | reflexivity]].
  destruct (negb (truthy code)); [split; [apply row_step_refl | reflexivity]|].
  destruct (expires <? now); [split; [apply row_step_refl | reflexivity]|].
  destruct (5 <=? otp_attempts u) eqn:Ha; [split; [apply row_step_refl | reflexivity]|].
  apply Z.leb_gt in Ha.
  destruct (String.eqb code p); (split; [|reflexivity]).
  - split; [auto|]. intros limit Hl _. left. cbn. auto.
  - split; [auto|]. intros limit Hl [(Hn & _)|(_ & _ & Hr)]; [congruence|].
    right. cbn. rewrite Hc, He. repeat split; eauto; lia.
Qed.

Lemma on_row_evolves (db : list User) (i : Z) (f : User -> User) :
  (forall u, row_step u (f u) /\ uid (f u) = uid u) ->
  evolves db (on_row db i f).
Proof.
  intros Hf. unfold on_row. destruct (query_get db i) as [u|] eqn:Hq; [|constructor].
  apply query_get_some in Hq as [Hin _].
  destruct (Hf u) as [Hs Hu]. now apply (evolves_update db u).
Qed.

Lemma verify_otp_view_evolves (db : list User) (user_id : option Z)
    (otp_code : option string) (now : datetime) :
  evolves db (fst (Auth.verify_otp db user_id otp_code now)).
Proof.
  unfold Auth.verify_otp.
  destruct user_id as [i|]; [|constructor].
  destruct otp_code as [code|]; [|constructor].
  destruct ((i =? 0) || negb (truthy code)); [constructor|].
  destruct (query_get db i) as [user|] eqn:Hq; [|constructor].
  apply query_get_some in Hq as [Hin _].
  destruct (is_verified user); [constructor|].
  destruct (verify_otp_row_step user code now) as [Hs Hu].
  destruct (UserModel.verify_otp user code now) as [v [is_valid message]].
  cbn [fst] in Hs, Hu.
  destruct is_valid; cbn [negb fst].
  - rewrite update_update by reflexivity.
    apply (evolves_update db user); [exact Hin | exact Hu |].
    eapply row_step_trans; [exact Hs|]. now apply row_step_other.
  - now apply (evolves_update db user).
Qed.

Lemma resend_otp_evolves (db : list User) (user_id : option Z) (r : Z) (now : datetime) :
  evolves db (fst (resend_otp db user_id r now)).
Proof.
  unfold resend_otp.
  destruct user_id as [i|]; [|constructor].
  destruct (i =? 0); [constructor|].
  destruct (query_get db i) as [user|] eqn:Hq; [|constructor].
  apply query_get_some in Hq as [Hin _].
  destruct (is_verified user); [constructor|].
  destruct (generate_otp_row_step user r now) as [Hs Hu].
  unfold generate_otp in *. cbn [fst negb send_otp_email] in *.
  now apply (evolves_update db user).
Qed.

Lemma google_auth_evolves (db : list User) (token : option string)
    (verified : option (gmap string string)) (now : datetime) :
  evolves db (fst (google_auth db token verified now)).
Proof.
  unfold google_auth.
  destruct (negb (truthy_opt token)); [constructor|].
  destruct verified as [idinfo|]; [|constructor].
  destruct (idinfo !! "iss") as [iss|]; [|constructor].
  destruct (negb _); [constructor|].
  destruct (idinfo !! "sub") as [sub|]; [|constructor].
  destruct (idinfo !! "email") as [mail|]; [|constructor].
  destruct (find_by_google_id db sub) as [user|] eqn:Hg.
  { apply find_by_google_id_some in Hg as [Hin _]. cbn [fst].
    apply (evolves_update db user); [exact Hin | reflexivity |].
    now apply row_step_other. }
  destruct (find_by_email db mail) as [user|] eqn:He.
  { apply find_by_email_some in He as [Hin _]. cbn [fst].
    destruct (negb (truthy_opt (profile_picture (set_google_id user (Some sub)))));
      (apply (evolves_update db user);
       [exact Hin | reflexivity | now apply row_step_other]). }
  unfold insert. destruct (existsb _ db); [constructor|]. cbn [fst].
  apply (evolves_insert db). intros limit Hl. left. cbn. auto.
Qed.

Section WithHasher.
Context `{W : Werkzeug}.

Lemma login_evolves (db : list User) (data : gmap string string) (now : datetime) :
  evolves db (fst (login db data now)).
Proof.
  unfold login.
  destruct (_ || _); [constructor|].
  destruct (negb (Validators.validate_email _)); [constructor|].
  destruct (find_by_email db _) as [user|] eqn:He; [|constructor].
  apply find_by_email_some in He as [Hin _].
  destruct (check_password user _) as [[|]|e]; try constructor.
  destruct (negb (is_active user)); [constructor|].
  destruct (negb (is_verified user)); [constructor|]. cbn [fst].
  apply (evolves_update db user); [exact Hin | reflexivity |].
  now apply row_step_other.
Qed.

Lemma register_evolves (db : list User) (data : gmap string string) (salt : string)
    (r : Z) (now : datetime) :
  evolves db (fst (register db data salt r now)).
Proof.
  unfold register.
  destruct (find _ required_fields); [constructor|].
  destruct (Validators.validate_institutional_email _ _) as [is_valid message].
  destruct (negb is_valid); [constructor|].
  destruct (negb (Validators.validate_password _)); [constructor|].
  destruct (found (find_by_email db _)); [constructor|].
  destruct (found (find_by_username db _)); [constructor|].
  unfold generate_otp, insert.
  destruct (existsb _ db); [constructor|].
  cbn [negb send_otp_email fst].
  apply (evolves_insert db). intros limit Hl. right. cbn. repeat split; eauto; lia.
Qed.

(** Every operation changes the table in one of the three ways. *)
Lemma step_evolves (db : list User) (op : Op) : evolves db (step db op).
Proof.
  destruct op; cbn [step].
  - apply register_evolves.
  - apply verify_otp_view_evolves.
  - apply resend_otp_evolves.
  - apply login_evolves.
  - apply google_auth_evolves.
  - apply on_row_evolves. intros u. apply generate_otp_row_step.
  - apply on_row_evolves. intros u. apply verify_otp_row_step.
  - apply on_row_evolves. intros u. apply clear_otp_row_step.
Qed.

Lemma step_keyed (db : list User) (op : Op) : keyed db -> keyed (step db op).
Proof. apply evolves_keyed, step_evolves. Qed.

Lemma run_keyed (db : list User) (ops : list Op) : keyed db -> keyed (run db ops).
Proof.
  revert db. induction ops as [|op ops IH]; intros db Hk; [exact Hk|].
  apply IH, step_keyed, Hk.
Qed.

End WithHasher.

End LifecycleFacts.

(** ** Invariants of the stored rows *)

Module Invariants.
Import PyStr PyStrFacts UserModel Store Auth Lifecycle StoreFacts LifecycleFacts.

(** The store of the scenario: Jane's row with four failed attempts. *)
Lemma after_four_wrong_rows :
  Scenario.after_four_wrong =
  [ {| uid := 1; email := "jane@students.kcau.ac.ke"; username := "jane";
       password_hash := Some "password123"; first_name := "Jane"; last_name := "Doe";
       profile_picture := None; phone_number := Some ""; role := "student";
       is_active := true; is_verified := false;
       otp_code := Some "123456"; otp_expires_at := Some 600000000;
       otp_attempts := 4; google_id := None; created_at := 0;
       last_login := None |} ].
Proof. vm_compute. reflexivity. Qed.

(** C5 as stated fails: after Jane's registration and four wrong codes the
    OTP fields of every row are a unit with the counter in [0,5); a fifth
    wrong code leaves her code and expiry set with the counter at 5. *)
Lemma otp_unit_below_five_broken :
  Forall (otp_unit 5) Scenario.after_four_wrong /\
  ~ Forall (otp_unit 5)
      (step (W := Scenario.plain_hasher) Scenario.after_four_wrong
         (OpVerifyOtp (Some 1) (Some "000000") 5)).
Proof.
  rewrite after_four_wrong_rows. split.
  - apply Forall_singleton. right. cbn. repeat split; eauto; lia.
  - intros H.
    assert (step (W := Scenario.plain_hasher)
              [ {| uid := 1; email := "jane@students.kcau.ac.ke"; username := "jane";
                   password_hash := Some "password123"; first_name := "Jane";
                   last_name := "Doe"; profile_picture := None;
                   phone_number := Some ""; role := "student";
                   is_active := true; is_verified := false;
                   otp_code := Some "123456"; otp_expires_at := Some 600000000;
                   otp_attempts := 4; google_id := None; created_at := 0;
                   last_login := None |} ]
              (OpVerifyOtp (Some 1) (Some "000000") 5) =
            [ {| uid := 1; email := "jane@students.kcau.ac.ke"; username := "jane";
                 password_hash := Some "password123"; first_name := "Jane";
                 last_name := "Doe"; profile_picture := None;
                 phone_number := Some ""; role := "student";
                 is_active := true; is_verified := false;
                 otp_code := Some "123456"; otp_expires_at := Some 600000000;
                 otp_attempts := 5; google_id := None; created_at := 0;
                 last_login := None |} ]) as E by (vm_compute; reflexivity).
    rewrite E in H. apply List.Forall_inv in H. unfold otp_unit in H.
    destruct H as [(Hc & _)|(_ & _ & Ha)]; cbn in *; [discriminate Hc | lia].
Qed.

(** C5, amended.  Every operation (the five views, and [generate_otp],
    [verify_otp], [clear_otp] called on a stored row) keeps the OTP fields
    of every row a unit: code and expiry both NULL with the counter at 0,
    or both set with the counter in [0,5] (that is, below 6). *)
Theorem otp_unit_preserved `{W : Werkzeug} (db : list User) (ops : list Op) :
  Forall (otp_unit 6) db -> Forall (otp_unit 6) (run db ops).
Proof.
  revert db. induction ops as [|op ops IH]; intros db Hdb; [exact Hdb|].
  cbn [run fold_left]. apply IH.
  apply (evolves_otp_unit 6 db); [lia | apply step_evolves | exact Hdb].
Qed.

Lemma otp_unit_preserved_witness :
  Forall (otp_unit 6)
    (run (W := Scenario.plain_hasher) Scenario.after_four_wrong
       [OpVerifyOtp (Some 1) (Some "000000") 5; OpVerifyOtp (Some 1) (Some "123456") 6]).
Proof.
  apply (otp_unit_preserved (W := Scenario.plain_hasher)).
  rewrite after_four_wrong_rows.
  apply Forall_singleton. right. cbn. repeat split; eauto; lia.
Defined.

(** C9. [is_verified] is monotonic: whatever operations follow, a verified
    row of a store with a primary key stays at its place with its id and
    stays verified. *)
Theorem is_verified_monotone `{W : Werkzeug} (db : list User) (ops : list Op)
    (i : nat) (u : User) :
  keyed db -> db !! i = Some u -> is_verified u = true ->
  exists u', run db ops !! i = Some u' /\ uid u' = uid u /\ is_verified u' = true.
Proof.
  revert db u. induction ops as [|op ops IH]; intros db u Hk Hi Hu; [eauto|].
  cbn [run fold_left].
  destruct (evolves_verified db (step db op) i u (step_evolves db op) Hk Hi Hu)
    as (u1 & Hi1 & Hid1 & Hu1).
  destruct (IH (step db op) u1 (step_keyed db op Hk) Hi1 Hu1) as (u' & Hi' & Hid' & Hu').
  exists u'. split; [exact Hi'|]. split; [congruence | exact Hu'].
Qed.

Lemma is_verified_monotone_witness :
  exists u',
    run (W := Scenario.plain_hasher) [Scenario.verified_user]
      [ OpLogin (Scenario.credentials "A@B.com" "Secret1") 5;
        OpResendOtp (Some 1) 654321 6;
        OpCheckOtp 1 "654321" 7;
        OpClearOtp 1;
        OpGoogleAuth (Some "token") (Some (Scenario.assertion "g-9" "a@b.com")) 8 ] !! 0%nat
    = Some u' /\ uid u' = uid Scenario.verified_user /\ is_verified u' = true.
Proof.
  apply (is_verified_monotone (W := Scenario.plain_hasher) [Scenario.verified_user]).
  - apply NoDup_singleton.
  - reflexivity.
  - reflexivity.
Defined.

(** A store built from the empty table has a primary key. *)
Corollary reachable_keyed `{W : Werkzeug} (ops : list Op) : keyed (run [] ops).
Proof. apply run_keyed. constructor. Qed.

End Invariants.

(** ** Federated login *)

Module FederationFacts.
Import PyStr PyStrFacts UserModel Store Auth Lifecycle StoreFacts.

(** A lookup after the row it found has been rewritten finds the new row,
    when the new row still answers the query. *)
Lemma find_update (p : User -> bool) (db : list User) (u v : User) :
  find p db = Some u -> p v = true -> uid v = uid u ->
  find p (update db v) = Some v.
Proof.
  intros Hfind Hp Huid. induction db as [|r db IH]; [discriminate Hfind|].
  cbn [update map find] in *.
  destruct (p r) eqn:Hr.
  - injection Hfind as ->. rewrite Huid, Z.eqb_refl. now rewrite Hp.
  - destruct (uid r =? uid v); [now rewrite Hp|].
    rewrite Hr. now apply IH.
Qed.

Lemma valid_assertion_issuer (token : string) (idinfo : gmap string string) (g : string) :
  valid_assertion token idinfo g ->
  exists iss, idinfo !! "iss" = Some iss /\
    negb (String.eqb iss "accounts.google.com" ||
          String.eqb iss "https://accounts.google.com") = false.
Proof.
  intros (_ & [H|H] & _); eexists; (split; [exact H | reflexivity]).
Qed.

(** The first branch of the resolution: the external id is known. *)
Lemma google_auth_known (db : list User) (u : User) (token : string)
    (idinfo : gmap string string) (g : string) (now : datetime) :
  find_by_google_id db g = Some u ->
  valid_assertion token idinfo g ->
  google_auth db (Some token) (Some idinfo) now =
  (update db (set_last_login u (Some now)),
   (Authenticated "Google authentication successful"
      (to_dict (set_last_login u (Some now)))
      (AccessToken (uid u)) (RefreshToken (uid u)), 200)).
Proof.
  intros Hfind Hvalid.
  destruct (valid_assertion_issuer _ _ _ Hvalid) as (iss & Hiss & Hok).
  destruct Hvalid as (Htoken & _ & Hsub & [mail Hmail]).
  unfold google_auth. cbn [truthy_opt].
  apply truthy_true in Htoken. rewrite Htoken. cbn [negb].
  rewrite Hiss, Hok, Hsub, Hmail, Hfind. reflexivity.
Qed.

(** The row the third branch of the resolution inserts. *)
Lemma google_auth_creates (db : list User) (token : string)
    (idinfo : gmap string string) (g mail : string) (now : datetime) :
  valid_assertion token idinfo g ->
  idinfo !! "email" = Some mail ->
  find_by_google_id db g = None ->
  find_by_email db mail = None ->
  exists row,
    google_auth db (Some token) (Some idinfo) now =
    ((db ++ [row])%list,
     (Authenticated "Google authentication successful" (to_dict row)
        (AccessToken (next_id db)) (RefreshToken (next_id db)), 200)) /\
    uid row = next_id db /\
    email row = mail /\
    username row = unique_username db (split_head "@" mail) /\
    find_by_username db (username row) = None /\
    google_id row = Some g /\
    password_hash row = None /\
    is_verified row = true.
Proof.
  intros Hvalid Hmail Hg He.
  destruct (valid_assertion_issuer _ _ _ Hvalid) as (iss & Hiss & Hok).
  destruct Hvalid as (Htoken & _ & Hsub & _).
  assert (find_by_username db (unique_username db (split_head "@" mail)) = None) as Hu.
  { unfold unique_username.
    destruct (UsernameFacts.username_loop_terminates (S (length db)) db
                (split_head "@" mail)) as [result Hloop]; [lia|].
    rewrite Hloop. cbn [default from_option id].
    destruct (UsernameFacts.username_loop_some _ db _ 0 result Hloop)
      as (k & _ & -> & Hfree & _).
    unfold username_taken in Hfree. now destruct (find_by_username db _). }
  eexists. split.
  - unfold google_auth. cbn [truthy_opt].
    apply truthy_true in Htoken. rewrite Htoken. cbn [negb].
    rewrite Hiss, Hok, Hsub, Hmail, Hg, He.
    unfold insert.
    match goal with
    | |- context [existsb (collides ?v) db] =>
        assert (existsb (collides v) db = false) as ->
    end.
    { apply not_true_is_false. intros Hex.
      apply existsb_exists in Hex as (r & Hin & Hcol).
      unfold collides in Hcol. cbn in Hcol.
      pose proof (find_none _ _ He r Hin) as H1.
      pose proof (find_none _ _ Hu r Hin) as H2.
      pose proof (find_none _ _ Hg r Hin) as H3.
      cbn in H1, H2, H3. rewrite H1, H2, H3 in Hcol. discriminate Hcol. }
    reflexivity.
  - cbn. repeat split. exact Hu.
Qed.

(** C6. With an account for the external id in the store, two federated
    logins with that id both answer 200 with that account (same id, tokens
    minted for it), rewrite only its [last_login], add no row, and leave its
    profile picture as it was. *)
Theorem federated_login_idempotent (db : list User) (u : User)
    (token1 token2 : string) (idinfo1 idinfo2 : gmap string string) (g : string)
    (now1 now2 : datetime) :
  find_by_google_id db g = Some u ->
  valid_assertion token1 idinfo1 g ->
  valid_assertion token2 idinfo2 g ->
  let u1 := set_last_login u (Some now1) in
  let u2 := set_last_login u (Some now2) in
  let '(db1, first) := google_auth db (Some token1) (Some idinfo1) now1 in
  let '(db2, second) := google_auth db1 (Some token2) (Some idinfo2) now2 in
  first = (Authenticated "Google authentication successful" (to_dict u1)
             (AccessToken (uid u)) (RefreshToken (uid u)), 200) /\
  second = (Authenticated "Google authentication successful" (to_dict u2)
              (AccessToken (uid u)) (RefreshToken (uid u)), 200) /\
  d_id (to_dict u1) = uid u /\ d_id (to_dict u2) = uid u /\
  db1 = update db u1 /\ db2 = update db u2 /\
  length db2 = length db /\ map uid db2 = map uid db /\
  find_by_google_id db2 g = Some u2 /\
  profile_picture u2 = profile_picture u /\
  d_profile_picture (to_dict u1) = profile_picture u /\
  d_profile_picture (to_dict u2) = profile_picture u.
Proof.
  intros Hfind Hv1 Hv2 u1 u2.
  pose proof (find_by_google_id_some db g u Hfind) as [_ Hg].
  rewrite (google_auth_known db u token1 idinfo1 g now1 Hfind Hv1).
  fold u1.
  assert (find_by_google_id (update db u1) g = Some u1) as Hfind1.
  { apply (find_update _ db u u1 Hfind); [|reflexivity].
    unfold opt_eqb. change (google_id u1) with (google_id u).
    rewrite Hg. apply String.eqb_refl. }
  rewrite (google_auth_known (update db u1) u1 token2 idinfo2 g now2 Hfind1 Hv2).
  change (set_last_login u1 (Some now2)) with u2.
  rewrite (update_update db u1 u2) by reflexivity.
  repeat split.
  - apply update_length.
  - apply update_uids.
  - apply (find_update _ db u u2 Hfind); [|reflexivity].
    unfold opt_eqb. change (google_id u2) with (google_id u).
    rewrite Hg. apply String.eqb_refl.
Qed.

Lemma federated_login_idempotent_witness :
  let u := Scenario.federated_user in
  let u1 := set_last_login u (Some 10) in
  let u2 := set_last_login u (Some 20) in
  let '(db1, first) :=
    google_auth [Scenario.verified_user; set_uid u 2] (Some "t1")
      (Some (Scenario.assertion "g-1" "bob@example.com")) 10 in
  let '(db2, second) :=
    google_auth db1 (Some "t2") (Some (Scenario.assertion "g-1" "other@example.com")) 20 in
  first = (Authenticated "Google authentication successful" (to_dict (set_uid u1 2))
             (AccessToken 2) (RefreshToken 2), 200) /\
  second = (Authenticated "Google authentication successful" (to_dict (set_uid u2 2))
              (AccessToken 2) (RefreshToken 2), 200) /\
  length db2 = 2%nat /\
  find_by_google_id db2 "g-1" = Some (set_uid u2 2) /\
  profile_picture (set_uid u2 2) = Some "https://example.org/bob.png".
Proof.
  pose proof (federated_login_idempotent
                [Scenario.verified_user; set_uid Scenario.federated_user 2]
                (set_uid Scenario.federated_user 2) "t1" "t2"
                (Scenario.assertion "g-1" "bob@example.com")
                (Scenario.assertion "g-1" "other@example.com") "g-1" 10 20) as H.
  cbv zeta in H |- *.
  destruct (google_auth _ (Some "t1") _ 10) as [db1 first].
  destruct (google_auth db1 (Some "t2") _ 20) as [db2 second].
  destruct H as (H1 & H2 & _ & _ & _ & _ & H7 & _ & H9 & H10 & _).
  - reflexivity.
  - repeat split; try discriminate; try (left; reflexivity); eauto.
  - repeat split; try discriminate; try (left; reflexivity); eauto.
  - repeat split; assumption.
Defined.

End FederationFacts.

(** ** Registration *)

Module RegisterFacts.
Import PyStr PyStrFacts UserModel Store Auth Lifecycle StoreFacts.

Lemma found_true (o : option User) : found o = true <-> is_Some o.
Proof. destruct o; cbn; split; intros H; eauto; try discriminate. now destruct H. Qed.

Lemma find_app_last (p : User -> bool) (db : list User) (row : User) :
  p row = true -> found (find p (db ++ [row])) = true.
Proof.
  intros Hp. induction db as [|r db IH]; cbn [app find].
  - now rewrite Hp.
  - destruct (p r); [reflexivity | exact IH].
Qed.

Lemma required_fields_present (data : gmap string string) :
  Forall (fun field => truthy_opt (data !! field) = true) required_fields ->
  find (fun field => negb (truthy_opt (data !! field))) required_fields = None.
Proof.
  induction 1 as [|field fields Hf _ IH]; [reflexivity|].
  cbn [find]. now rewrite Hf.
Qed.

Lemma required_fields_checked (data : gmap string string) :
  find (fun field => negb (truthy_opt (data !! field))) required_fields = None ->
  Forall (fun field => truthy_opt (data !! field) = true) required_fields.
Proof.
  intros H. apply List.Forall_forall. intros field Hin.
  pose proof (find_none _ _ H field Hin) as Hn. cbn in Hn.
  now apply negb_false_iff.
Qed.

Section WithHasher.
Context `{W : Werkzeug}.

(** [register] once the checks and the two lookups are behind. *)
Lemma register_insert (db : list User) (data : gmap string string) (salt : string)
    (r : Z) (now : datetime) :
  passes_checks data ->
  find_by_email db (item data "email") = None ->
  find_by_username db (item data "username") = None ->
  register db data salt r now =
  match insert db (new_user data salt r now) with
  | Raise e => (db, (ErrorDetails "Registration failed" e, 500))
  | Ok (db1, user) =>
      (db1, (Registered
               "Registration successful! Please check your email for a 6-digit verification code."
               (detect_role_from_email (item data "email")) (uid user), 201))
  end.
Proof.
  intros (Hfields & Hvalid & Hpw) He Hu. unfold register.
  rewrite (required_fields_present data Hfields).
  destruct (Validators.validate_institutional_email _ _) as [is_valid message].
  cbn [fst] in Hvalid. subst is_valid. cbn [negb].
  rewrite Hpw, He, Hu. cbn [negb found].
  unfold generate_otp.
  match goal with
  | |- context [insert db ?x] => change x with (new_user data salt r now)
  end.
  destruct (insert db (new_user data salt r now)) as [[db1 user]|e]; reflexivity.
Qed.

(** A 201 answer means the checks passed, the lookups found nothing, and
    the new row was appended. *)
Lemma register_created (db db1 : list User) (data : gmap string string)
    (salt : string) (r : Z) (now : datetime) (answer : Body) :
  register db data salt r now = (db1, (answer, 201)) ->
  passes_checks data /\
  find_by_email db (item data "email") = None /\
  find_by_username db (item data "username") = None /\
  existsb (collides (new_user data salt r now)) db = false /\
  db1 = (db ++ [set_uid (new_user data salt r now) (next_id db)])%list.
Proof.
  intros Hreg.
  assert (passes_checks data /\
          find_by_email db (item data "email") = None /\
          find_by_username db (item data "username") = None) as (Hc & He & Hu).
  { revert Hreg. unfold register, passes_checks.
    destruct (find _ required_fields) eqn:Hf; [discriminate|].
    destruct (Validators.validate_institutional_email _ _) as [is_valid message].
    destruct is_valid; cbn [negb fst]; [|discriminate].
    destruct (Validators.validate_password _); cbn [negb]; [|discriminate].
    destruct (find_by_email db _); cbn [found]; [discriminate|].
    destruct (find_by_username db _); cbn [found]; [discriminate|].
    intros _. repeat split. now apply required_fields_checked. }
  split; [exact Hc|]. split; [exact He|]. split; [exact Hu|].
  rewrite (register_insert db data salt r now Hc He Hu) in Hreg.
  unfold insert in Hreg. destruct (existsb _ db); [discriminate Hreg|].
  split; [reflexivity|]. injection Hreg as Hdb _. now rewrite <- Hdb.
Qed.

Lemma find_app_fresh (p : User -> bool) (db : list User) (row : User) :
  find p db = None -> p row = true -> find p (db ++ [row]) = Some row.
Proof.
  intros Hn Hp. induction db as [|r db IH]; cbn [app find] in *.
  - now rewrite Hp.
  - destruct (p r); [discriminate Hn | now apply IH].
Qed.

Lemma no_collision_email (db : list User) (v : User) :
  existsb (collides v) db = false -> find_by_email db (email v) = None.
Proof.
  intros Hex. unfold find_by_email.
  destruct (find _ db) as [r|] eqn:Hf; [|reflexivity].
  apply find_some in Hf as [Hin Heq].
  assert (existsb (collides v) db = true) as Hc; [|congruence].
  apply existsb_exists. exists r. split; [exact Hin|].
  unfold collides. now rewrite Heq.
Qed.

(** [register] with checks passed and the submitted email in the table. *)
Lemma register_email_taken (db : list User) (data : gmap string string)
    (salt : string) (r : Z) (now : datetime) :
  passes_checks data ->
  found (find_by_email db (item data "email")) = true ->
  register db data salt r now = (db, (Error "Email already registered", 409)).
Proof.
  intros (Hfields & Hvalid & Hpw) He. unfold register.
  rewrite (required_fields_present data Hfields).
  destruct (Validators.validate_institutional_email _ _) as [is_valid message].
  cbn [fst] in Hvalid. subst is_valid. cbn [negb].
  now rewrite Hpw, He.
Qed.

Lemma register_username_taken (db : list User) (data : gmap string string)
    (salt : string) (r : Z) (now : datetime) :
  passes_checks data ->
  find_by_email db (item data "email") = None ->
  found (find_by_username db (item data "username")) = true ->
  register db data salt r now = (db, (Error "Username already taken", 409)).
Proof.
  intros (Hfields & Hvalid & Hpw) He Hu. unfold register.
  rewrite (required_fields_present data Hfields).
  destruct (Validators.validate_institutional_email _ _) as [is_valid message].
  cbn [fst] in Hvalid. subst is_valid. cbn [negb].
  now rewrite Hpw, He, Hu.
Qed.

Lemma collides_stored (db : list User) (v : User) :
  found (find_by_email db (email v)) = true \/
  found (find_by_username db (username v)) = true ->
  existsb (collides v) db = true.
Proof.
  intros [H|H]; apply found_true in H as [row Hrow];
    apply find_some in Hrow as [Hin Heq];
    apply existsb_exists; exists row; (split; [exact Hin|]);
    unfold collides; rewrite Heq, ?orb_true_r; reflexivity.
Qed.

End WithHasher.

End RegisterFacts.

Module Registration.
Import PyStr PyStrFacts UserModel Store Auth Lifecycle StoreFacts RegisterFacts.

(** C4 as stated fails.  Jane registers.  A body with another email and her
    username typed with a leading blank passes both lookups (they compare
    the text as submitted), the row to insert carries the stripped username,
    the unique constraint fails, and the answer is the generic 500
    "Registration failed", not 409.  Likewise for her email typed with a
    capital: the lookup by email misses, so the same body sent again is
    answered "Username already taken" instead of "Email already
    registered", and with a new username it ends in the same 500. *)
Lemma duplicate_not_reported_as_conflict :
  let jane := Scenario.body "jane@students.kcau.ac.ke" "jane" "password123" in
  let '(db1, first) := register (W := Scenario.plain_hasher) [] jane "s1" 123456 0 in
  snd first = 201 /\
  snd (register (W := Scenario.plain_hasher) db1
         (Scenario.body "joe@students.kcau.ac.ke" " jane" "password123") "s2" 654321 1) =
    (ErrorDetails "Registration failed" IntegrityError, 500) /\
  snd (register (W := Scenario.plain_hasher) db1
         (Scenario.body "Jane@students.kcau.ac.ke" "jane" "password123") "s3" 111111 2) =
    (Error "Username already taken", 409) /\
  snd (register (W := Scenario.plain_hasher) db1
         (Scenario.body "Jane@students.kcau.ac.ke" "jane2" "password123") "s4" 222222 3) =
    (ErrorDetails "Registration failed" IntegrityError, 500).
Proof. vm_compute. repeat split. Qed.

(** C4, amended.  (1) After a successful registration whose email was
    submitted in the form it is stored in (lower case, no surrounding white
    space), a further registration with that email that passes the checks
    is answered 409 "Email already registered".  (2) After a successful
    registration whose username was submitted without surrounding white
    space, a further registration with that username and an email not in
    the table is answered 409 "Username already taken".  (3) When the two
    lookups find nothing but the row to insert collides with a stored email
    or username, the insert raises, the session is rolled back and the
    answer is 500 "Registration failed". *)
Theorem register_duplicates `{W : Werkzeug} :
  (forall (db db1 : list User) (data1 data2 : gmap string string)
          (salt1 salt2 : string) (r1 r2 : Z) (now1 now2 : datetime) (answer : Body),
      register db data1 salt1 r1 now1 = (db1, (answer, 201)) ->
      strip (lower (item data1 "email")) = item data1 "email" ->
      item data2 "email" = item data1 "email" ->
      passes_checks data2 ->
      register db1 data2 salt2 r2 now2 = (db1, (Error "Email already registered", 409))) /\
  (forall (db db1 : list User) (data1 data2 : gmap string string)
          (salt1 salt2 : string) (r1 r2 : Z) (now1 now2 : datetime) (answer : Body),
      register db data1 salt1 r1 now1 = (db1, (answer, 201)) ->
      strip (item data1 "username") = item data1 "username" ->
      item data2 "username" = item data1 "username" ->
      find_by_email db1 (item data2 "email") = None ->
      passes_checks data2 ->
      register db1 data2 salt2 r2 now2 = (db1, (Error "Username already taken", 409))) /\
  (forall (db : list User) (data : gmap string string) (salt : string) (r : Z)
          (now : datetime),
      passes_checks data ->
      find_by_email db (item data "email") = None ->
      find_by_username db (item data "username") = None ->
      found (find_by_email db (strip (lower (item data "email")))) = true \/
      found (find_by_username db (strip (item data "username"))) = true ->
      register db data salt r now =
      (db, (ErrorDetails "Registration failed" IntegrityError, 500))).
Proof.
  split; [|split].
  - intros db db1 data1 data2 salt1 salt2 r1 r2 now1 now2 answer Hreg Hnorm Hsame Hc.
    apply register_created in Hreg as (_ & _ & _ & _ & ->).
    apply register_email_taken; [exact Hc|].
    apply find_app_last. cbn. rewrite Hsame, Hnorm. apply String.eqb_refl.
  - intros db db1 data1 data2 salt1 salt2 r1 r2 now1 now2 answer Hreg Hnorm Hsame He Hc.
    apply register_created in Hreg as (_ & _ & _ & _ & ->).
    apply register_username_taken; [exact Hc | exact He |].
    apply find_app_last. cbn. rewrite Hsame, Hnorm. apply String.eqb_refl.
  - intros db data salt r now Hc He Hu Hcol.
    rewrite (register_insert db data salt r now Hc He Hu).
    unfold insert. now rewrite (collides_stored db (new_user data salt r now) Hcol).
Qed.

Lemma register_duplicates_witness :
  let W := Scenario.plain_hasher in
  let jane := Scenario.body "jane@students.kcau.ac.ke" "jane" "password123" in
  let db1 := fst (register [] jane "s1" 123456 0) in
  register db1 (Scenario.body "jane@students.kcau.ac.ke" "jane2" "longer-password")
    "s2" 654321 1 = (db1, (Error "Email already registered", 409)) /\
  register db1 (Scenario.body "joe@kcau.ac.ke" "jane" "password123")
    "s3" 111111 2 = (db1, (Error "Username already taken", 409)) /\
  register db1 (Scenario.body "JANE@students.kcau.ac.ke" " jane" "password123")
    "s4" 222222 3 = (db1, (ErrorDetails "Registration failed" IntegrityError, 500)).
Proof.
  intros W jane db1.
  destruct (register_duplicates (W := W)) as (Hemail & Huser & Hinsert).
  assert (passes_checks (Scenario.body "jane@students.kcau.ac.ke" "jane2" "longer-password"))
    as Hc2 by (repeat split; repeat constructor).
  assert (passes_checks (Scenario.body "joe@kcau.ac.ke" "jane" "password123"))
    as Hc3 by (repeat split; repeat constructor).
  assert (passes_checks (Scenario.body "JANE@students.kcau.ac.ke" " jane" "password123"))
    as Hc4 by (repeat split; repeat constructor).
  split; [|split].
  - apply (Hemail [] db1 jane _ "s1" "s2" 123456 654321 0 1
             (Registered
                "Registration successful! Please check your email for a 6-digit verification code."
                "student" 1));
      [vm_compute; reflexivity | vm_compute; reflexivity | reflexivity | exact Hc2].
  - apply (Huser [] db1 jane _ "s1" "s3" 123456 111111 0 2
             (Registered
                "Registration successful! Please check your email for a 6-digit verification code."
                "student" 1));
      [vm_compute; reflexivity | vm_compute; reflexivity | reflexivity
      | vm_compute; reflexivity | exact Hc3].
  - apply (Hinsert db1 _ "s4" 222222 3 Hc4);
      [vm_compute; reflexivity | vm_compute; reflexivity | left; vm_compute; reflexivity].
Defined.

End Registration.

(** ** Login *)

Module LoginFacts.
Import PyStr PyStrFacts UserModel Store Auth Lifecycle Validators.

Lemma validate_email_nonempty (e : string) :
  validate_email (strip (lower e)) = true -> e <> "".
Proof. intros H ->. vm_compute in H. discriminate H. Qed.

Lemma case_variant_nonempty (p q : string) : lower q = lower p -> q <> p -> q <> "".
Proof.
  intros Hl Hne ->. apply Hne. symmetry. apply lower_empty. now rewrite <- Hl.
Qed.

Section WithHasher.
Context `{W : Werkzeug}.

(** [login] reads the email only through its truth value and its folded,
    stripped form. *)
Lemma login_email_folded (db : list User) (data : gmap string string)
    (e e' : string) (now : datetime) :
  lower e' = lower e ->
  login db (<["email" := e']> data) now = login db (<["email" := e]> data) now.
Proof.
  intros Hl. unfold login, item.
  rewrite !lookup_insert_eq, !lookup_insert_ne by discriminate.
  cbn [truthy_opt default from_option id].
  rewrite <- (truthy_lower e'), <- (truthy_lower e), !Hl. reflexivity.
Qed.

(** [login] up to the password check, for a body with both fields and a
    valid address that the lookup resolves. *)
Lemma login_resolved (db : list User) (data : gmap string string) (e pw : string)
    (u : User) (now : datetime) :
  data !! "email" = Some e -> data !! "password" = Some pw ->
  pw <> "" ->
  validate_email (strip (lower e)) = true ->
  find_by_email db (strip (lower e)) = Some u ->
  login db data now =
  match check_password u pw with
  | Raise exn => (db, (ErrorDetails "Login failed" exn, 500))
  | Ok false => (db, (Error "Invalid email or password", 401))
  | Ok true =>
      if negb (is_active u) then (db, (Error "Account is deactivated", 401))
      else if negb (is_verified u) then
        (db, (VerificationRequired
                "Email not verified. Please verify your email before logging in."
                (uid u), 401))
      else
        (update db (set_last_login u (Some now)),
         (Authenticated "Login successful" (to_dict (set_last_login u (Some now)))
            (AccessToken (uid u)) (RefreshToken (uid u)), 200))
  end.
Proof.
  intros He Hp Hpw Hvalid Hfind. unfold login, item.
  rewrite He, Hp. cbn [truthy_opt default from_option id].
  pose proof (validate_email_nonempty e Hvalid) as Hne.
  apply truthy_true in Hne, Hpw. rewrite Hne, Hpw. cbn [negb orb].
  rewrite Hvalid, Hfind. cbn [negb]. reflexivity.
Qed.

Lemma login_unknown (db : list User) (data : gmap string string) (e pw : string)
    (now : datetime) :
  data !! "email" = Some e -> data !! "password" = Some pw ->
  pw <> "" ->
  validate_email (strip (lower e)) = true ->
  find_by_email db (strip (lower e)) = None ->
  login db data now = (db, (Error "Invalid email or password", 401)).
Proof.
  intros He Hp Hpw Hvalid Hfind. unfold login, item.
  rewrite He, Hp. cbn [truthy_opt default from_option id].
  pose proof (validate_email_nonempty e Hvalid) as Hne.
  apply truthy_true in Hne, Hpw. rewrite Hne, Hpw. cbn [negb orb].
  now rewrite Hvalid, Hfind.
Qed.

End WithHasher.

(** Login right after a registration: any spelling of the registered
    address reaches the new account, and the password is checked as typed. *)
Lemma registered_account_login `{W : Werkzeug} (db db1 : list User)
    (data creds : gmap string string) (salt : string) (r : Z) (now now' : datetime)
    (answer : Body) (e q : string) :
  register db data salt r now = (db1, (answer, 201)) ->
  creds !! "email" = Some e -> creds !! "password" = Some q ->
  lower e = lower (item data "email") -> q <> "" ->
  login db1 creds now' =
  if check_password_hash (generate_password_hash salt (item data "password")) q
  then (db1, (VerificationRequired
                "Email not verified. Please verify your email before logging in."
                (next_id db), 401))
  else (db1, (Error "Invalid email or password", 401)).
Proof.
  intros Hreg He Hq Hl Hne.
  apply RegisterFacts.register_created in Hreg as ((_ & Hacc & _) & _ & _ & Hfree & ->).
  apply AddressFacts.accepted_stored_form in Hacc as [Hstrip Hvalid].
  set (row := set_uid (new_user data salt r now) (next_id db)).
  assert (find_by_email (db ++ [row]) (strip (lower e)) = Some row) as Hfind.
  { rewrite Hl, Hstrip. apply RegisterFacts.find_app_fresh.
    - apply RegisterFacts.no_collision_email in Hfree. cbn [email new_user] in Hfree.
      now rewrite Hstrip in Hfree.
    - cbn. rewrite Hstrip. apply String.eqb_refl. }
  rewrite (login_resolved (db ++ [row]) creds e q row now' He Hq Hne); [| |exact Hfind].
  - unfold check_password. cbn [password_hash row set_uid new_user].
    destruct (check_password_hash _ q); reflexivity.
  - now rewrite Hl, Hstrip.
Qed.

(** C8. Login folds the case of the email and not of the password.  (1) Two
    bodies whose emails differ only in letter case get the same store and
    the same answer.  (2) For an account whose hash was made from password
    [p], found under the submitted (valid) email, a password [q] that
    differs from [p] only in letter case is answered 401 "Invalid email or
    password" -- given that the hash of one password does not verify
    another. *)
Theorem login_case_sensitivity `{W : Werkzeug} :
  (forall (db : list User) (data : gmap string string) (e e' : string) (now : datetime),
      lower e' = lower e ->
      login db (<["email" := e']> data) now = login db (<["email" := e]> data) now) /\
  ((forall salt p q : string,
       check_password_hash (generate_password_hash salt p) q = true -> p = q) ->
   forall (db : list User) (data : gmap string string) (e p q salt : string)
          (u : User) (now : datetime),
      data !! "email" = Some e -> data !! "password" = Some q ->
      validate_email (strip (lower e)) = true ->
      find_by_email db (strip (lower e)) = Some u ->
      password_hash u = Some (generate_password_hash salt p) ->
      lower q = lower p -> q <> p ->
      login db data now = (db, (Error "Invalid email or password", 401))).
Proof.
  split.
  - intros db data e e' now. apply login_email_folded.
  - intros Hsound db data e p q salt u now He Hq Hvalid Hfind Hhash Hl Hne.
    rewrite (login_resolved db data e q u now He Hq
               (case_variant_nonempty p q Hl Hne) Hvalid Hfind).
    unfold check_password. rewrite Hhash.
    destruct (check_password_hash _ q) eqn:Hcheck; [|reflexivity].
    apply Hsound in Hcheck. congruence.
Qed.

Lemma login_case_sensitivity_witness :
  let W := Scenario.plain_hasher in
  login [Scenario.verified_user] (Scenario.credentials "A@B.com" "Secret1") 9 =
  login [Scenario.verified_user] (Scenario.credentials "a@b.com" "Secret1") 9 /\
  login [Scenario.verified_user] (Scenario.credentials "A@B.com" "secret1") 9 =
  ([Scenario.verified_user], (Error "Invalid email or password", 401)).
Proof.
  intros W. destruct (login_case_sensitivity (W := W)) as [Hfold Hpw]. split.
  - apply (Hfold [Scenario.verified_user] {[ "password" := "Secret1" ]}
             "a@b.com" "A@B.com" 9). reflexivity.
  - apply (Hpw ltac:(intros salt p q H; now apply String.eqb_eq in H)
             [Scenario.verified_user] _ "A@B.com" "Secret1" "secret1" "salt"
             Scenario.verified_user 9).
    + reflexivity.
    + reflexivity.
    + vm_compute. reflexivity.
    + vm_compute. reflexivity.
    + reflexivity.
    + reflexivity.
    + discriminate.
Defined.

(** The spec's example: the exact password is accepted under either
    spelling of the address. *)
Example login_spec_example :
  snd (snd (login (W := Scenario.plain_hasher) [Scenario.verified_user]
              (Scenario.credentials "A@B.com" "Secret1") 9)) = 200.
Proof. vm_compute. reflexivity. Qed.

(** C10 as stated fails.  The account created by a first federated login
    from [Bob@Example.com] has no password hash and keeps the address as
    Google gave it; Login with that address folds it to lower case, the
    lookup (which compares the text exactly) finds no row, and the answer is
    401 "Invalid email or password".  And for a federated account that the
    lookup does find, an empty password is answered 400 before any hash is
    looked at. *)
Lemma federated_account_invalid_credentials :
  (exists u, Scenario.after_google_signup = [u] /\
             email u = "Bob@Example.com" /\ password_hash u = None) /\
  login (W := Scenario.plain_hasher) Scenario.after_google_signup
    (Scenario.credentials "Bob@Example.com" "any password") 1 =
  (Scenario.after_google_signup, (Error "Invalid email or password", 401)) /\
  login (W := Scenario.plain_hasher) [Scenario.federated_user]
    (Scenario.credentials "bob@example.com" "") 1 =
  ([Scenario.federated_user], (Error "Email and password are required", 400)).
Proof.
  split; [|split].
  - eexists. split; [vm_compute; reflexivity|]. split; reflexivity.
  - vm_compute. reflexivity.
  - vm_compute. reflexivity.
Qed.

(** C10, amended.  When the lookup of Login resolves the submitted email
    (valid once folded and stripped) to an account without a password hash,
    any non-empty password is answered with the generic 500 "Login failed":
    [check_password] raises on the NULL hash.  The store is unchanged. *)
Theorem login_without_hash `{W : Werkzeug} (db : list User)
    (data : gmap string string) (e pw : string) (u : User) (now : datetime) :
  data !! "email" = Some e -> data !! "password" = Some pw ->
  pw <> "" ->
  validate_email (strip (lower e)) = true ->
  find_by_email db (strip (lower e)) = Some u ->
  password_hash u = None ->
  login db data now = (db, (ErrorDetails "Login failed" AttributeError, 500)).
Proof.
  intros He Hp Hpw Hvalid Hfind Hhash.
  rewrite (login_resolved db data e pw u now He Hp Hpw Hvalid Hfind).
  unfold check_password. now rewrite Hhash.
Qed.

Lemma login_without_hash_witness :
  login (W := Scenario.plain_hasher) [Scenario.federated_user]
    (Scenario.credentials "Bob@Example.com" "any password") 1 =
  ([Scenario.federated_user], (ErrorDetails "Login failed" AttributeError, 500)).
Proof.
  apply (login_without_hash (W := Scenario.plain_hasher) [Scenario.federated_user]
           _ "Bob@Example.com" "any password" Scenario.federated_user 1).
  - reflexivity.
  - reflexivity.
  - discriminate.
  - vm_compute. reflexivity.
  - vm_compute. reflexivity.
  - reflexivity.
Defined.

End LoginFacts.

(** ** The languages of the two patterns *)

Module ShapeFacts.
Import PyStr PyStrFacts Re RegexFacts Validators Shapes.

Lemma append_nil_r (a : string) : (a ++ "")%string = a.
Proof.
  induction a as [|x a IH]; [reflexivity|]. rewrite append_cons. f_equal. exact IH.
Qed.

Lemma all_in_append (p : ascii -> bool) (s t : string) :
  all_in p (s ++ t) = all_in p s && all_in p t.
Proof.
  induction s as [|c s IH]; [reflexivity|].
  rewrite append_cons. cbn [all_in]. now rewrite IH, andb_assoc.
Qed.

Lemma matches_cat_inv (a b : regex) (s : string) :
  matches (Cat a b) s ->
  exists s1 s2, s = (s1 ++ s2)%string /\ matches a s1 /\ matches b s2.
Proof. intros H. inversion H; subst. eauto. Qed.

Lemma matches_alt_inv (a b : regex) (s : string) :
  matches (Alt a b) s -> matches a s \/ matches b s.
Proof. intros H. inversion H; subst; auto. Qed.

Lemma matches_class_inv (p : ascii -> bool) (s : string) :
  matches (Class p) s -> exists c, s = String c "" /\ p c = true.
Proof. intros H. inversion H; subst. eauto. Qed.

Lemma matches_chr (c : ascii) (s : string) : matches (chr c) s <-> s = String c "".
Proof.
  unfold chr. split.
  - intros H. apply matches_class_inv in H as (x & -> & Hx).
    apply Ascii.eqb_eq in Hx. now subst.
  - intros ->. constructor. apply Ascii.eqb_refl.
Qed.

Lemma matches_dollar (s : string) : matches dollar s <-> s = "" \/ s = newline.
Proof.
  unfold dollar. split.
  - intros H. apply matches_alt_inv in H as [H|H].
    + left. now apply matches_eps_inv.
    + right. now apply matches_chr.
  - intros [-> | ->]; [apply matches_alt_l; constructor | apply matches_alt_r, matches_chr].
    reflexivity.
Qed.

Lemma matches_star_class (p : ascii -> bool) (s : string) :
  matches (Star (Class p)) s <-> all_in p s = true.
Proof.
  split.
  - intros H. remember (Star (Class p)) as r eqn:Hr.
    induction H as [| | | | | |a s t Ha _ Hb IHb]; try discriminate Hr; [reflexivity|].
    injection Hr as ->. apply matches_class_inv in Ha as (c & -> & Hc).
    rewrite all_in_append. cbn [all_in]. rewrite Hc, IHb by reflexivity. reflexivity.
  - induction s as [|c s IH]; cbn [all_in]; intros H; [constructor|].
    apply andb_true_iff in H as [Hc Hs].
    change (String c s) with (String c "" ++ s)%string.
    constructor; [now constructor | auto].
Qed.

(** [[p]{n,}]: at least [n] characters, all of the class. *)
Lemma matches_at_least (n : nat) (p : ascii -> bool) (s : string) :
  matches (at_least n (Class p)) s <->
  all_in p s = true /\ (n <= String.length s)%nat.
Proof.
  revert s. induction n as [|n IH]; intros s; cbn [at_least].
  - rewrite matches_star_class. split; [intros H; split; [exact H | lia] | now intros [H _]].
  - split.
    + intros H. apply matches_cat_inv in H as (s1 & s2 & -> & H1 & H2).
      apply matches_class_inv in H1 as (c & -> & Hc).
      apply IH in H2 as [H2 Hlen]. rewrite append_cons.
      change ("" ++ s2)%string with s2. cbn [all_in String.length].
      rewrite Hc, H2. split; [reflexivity | lia].
    + intros [Hall Hlen]. destruct s as [|c s]; [cbn in Hlen; lia|].
      cbn [all_in] in Hall. apply andb_true_iff in Hall as [Hc Hs].
      change (String c s) with (String c "" ++ s)%string.
      constructor; [now constructor|]. apply IH. split; [exact Hs | cbn in Hlen; lia].
Qed.

Lemma nonempty_length (s : string) : s <> "" <-> (1 <= String.length s)%nat.
Proof. destruct s; cbn; split; intros H; try congruence; lia. Qed.

(** [validate_email] accepts exactly the strings [local@domain.tld], with an
    optional final newline: the local part non-empty over
    [[a-zA-Z0-9._%+-]], the domain non-empty over [[a-zA-Z0-9.-]], and two or
    more letters after the dot. *)
Theorem validate_email_shape (e : string) :
  validate_email e = true <->
  exists local domain tld : string,
    email_shape local domain tld /\
    (e = address local domain tld \/
     e = (address local domain tld ++ newline)%string).
Proof.
  unfold validate_email. rewrite fullmatch_matches. unfold email_pattern.
  change (plus ?r) with (at_least 1 r).
  change (at_least_two (Class is_alpha)) with (at_least 2 (Class is_alpha)).
  split.
  - intros H.
    apply matches_cat_inv in H as (l & r1 & -> & Hl & H).
    apply matches_cat_inv in H as (a & r2 & -> & Ha & H).
    apply matches_cat_inv in H as (d & r3 & -> & Hd & H).
    apply matches_cat_inv in H as (o & r4 & -> & Ho & H).
    apply matches_cat_inv in H as (t & n & -> & Ht & Hn).
    apply matches_at_least in Hl as [Hl1 Hl2], Hd as [Hd1 Hd2], Ht as [Ht1 Ht2].
    apply matches_chr in Ha, Ho. subst a o.
    exists l, d, t. split.
    + repeat split; try assumption; now apply nonempty_length.
    + unfold address. apply matches_dollar in Hn as [-> | ->].
      * left. now rewrite append_nil_r.
      * right. now rewrite !append_assoc.
  - intros (l & d & t & (Hl & Hla & Hd & Hda & Hta & Htl) & He).
    assert (forall n, matches dollar n ->
              matches
                (Cat (at_least 1 (Class local_class))
                   (Cat (chr "@")
                      (Cat (at_least 1 (Class domain_class))
                         (Cat (chr ".") (Cat (at_least 2 (Class is_alpha)) dollar)))))
                (l ++ "@" ++ d ++ "." ++ t ++ n)) as Hbuild.
    { intros n Hn.
      constructor; [apply matches_at_least; split; [exact Hla | now apply nonempty_length]|].
      constructor; [now apply matches_chr|].
      constructor; [apply matches_at_least; split; [exact Hda | now apply nonempty_length]|].
      constructor; [now apply matches_chr|].
      constructor; [apply matches_at_least; split; assumption | exact Hn]. }
    destruct He as [-> | ->]; unfold address.
    + rewrite <- (append_nil_r t). apply Hbuild, matches_dollar. now left.
    + rewrite !append_assoc. apply Hbuild, matches_dollar. now right.
Qed.

(** [validate_phone] accepts exactly an optional [+] followed by ten or
    more characters that are digits, white space, [-], [(] or [)] -- it
    counts characters, not digits. *)
Theorem validate_phone_shape (phone : string) :
  validate_phone phone = true <->
  exists body : string,
    all_in phone_class body = true /\ (10 <= String.length body)%nat /\
    (phone = body \/ phone = String "+" body).
Proof.
  unfold validate_phone. rewrite fullmatch_matches. unfold phone_pattern, optional.
  split.
  - intros H.
    apply matches_cat_inv in H as (o & r & -> & Ho & H).
    apply matches_cat_inv in H as (b & n & -> & Hb & Hn).
    apply matches_at_least in Hb as [Hb Hlen].
    exists (b ++ n)%string. split; [|split].
    + rewrite all_in_append, Hb.
      apply matches_dollar in Hn as [-> | ->]; reflexivity.
    + rewrite length_append. lia.
    + apply matches_alt_inv in Ho as [Ho|Ho].
      * apply matches_eps_inv in Ho. subst o. now left.
      * apply matches_chr in Ho. subst o. now right.
  - intros (body & Hall & Hlen & Hp).
    assert (matches (Cat (at_least 10 (Class phone_class)) dollar) body) as Hbody.
    { rewrite <- (append_nil_r body).
      constructor; [now apply matches_at_least | apply matches_dollar; now left]. }
    destruct Hp as [-> | ->].
    + change body with ("" ++ body)%string.
      constructor; [apply matches_alt_l; constructor | exact Hbody].
    + change (String "+" body) with (String "+" "" ++ body)%string.
      constructor; [apply matches_alt_r; now apply matches_chr | exact Hbody].
Qed.

End ShapeFacts.

(** ** More on the one-time code *)

Module OtpMore.
Import PyStr PyStrFacts UserModel Lifecycle OtpFacts.

(** [verify_otp] answers [True] only for the stored, non-empty code, not
    after the expiry and with fewer than five failures on the counter; the
    row it leaves is verified with its OTP fields cleared. *)
Theorem verify_otp_accepts_only_the_code (u u' : User) (p msg : string)
    (now : datetime) :
  verify_otp u p now = (u', (true, msg)) ->
  otp_code u = Some p /\ p <> "" /\
  (exists expires, otp_expires_at u = Some expires /\ now <= expires) /\
  otp_attempts u < 5 /\
  is_verified u' = true /\ otp_code u' = None /\ otp_expires_at u' = None /\
  otp_attempts u' = 0 /\ msg = "Email verified successfully!".
Proof.
  unfold verify_otp.
  destruct (otp_code u) as [code|] eqn:Hc; [|discriminate].
  destruct (otp_expires_at u) as [expires|] eqn:He; [|discriminate].
  destruct (truthy code) eqn:Ht; cbn [negb]; [|discriminate].
  destruct (expires <? now) eqn:Hx; [discriminate|].
  destruct (5 <=? otp_attempts u) eqn:Ha; [discriminate|].
  destruct (String.eqb code p) eqn:Hp; [|discriminate].
  intros [= <- <-]. apply String.eqb_eq in Hp. subst p.
  apply truthy_true in Ht. apply Z.ltb_ge in Hx. apply Z.leb_gt in Ha.
  repeat split; eauto.
Qed.

Lemma verify_otp_accepts_only_the_code_witness :
  otp_code Scenario.pending_user = Some "123456" /\
  is_verified
    (fst (verify_otp Scenario.pending_user "123456" 5)) = true.
Proof.
  destruct (verify_otp Scenario.pending_user "123456" 5) as [u' [ok msg]] eqn:E.
  assert (ok = true) as -> by (vm_compute in E; congruence).
  destruct (verify_otp_accepts_only_the_code _ _ _ _ _ E) as (H1 & _ & _ & _ & H5 & _).
  split; [exact H1 | exact H5].
Defined.

(** The code of [generate_otp] is good up to and including the tenth
    minute, and refused with the expiry message after it; a refusal for expiry
    leaves the row as it was (no attempt is counted). *)
Theorem otp_valid_until_expiry (u : User) (r : Z) (now t : datetime) :
  100000 <= r <= 999999 ->
  let '(u0, code) := generate_otp u r now in
  (t <= now + ten_minutes ->
   snd (verify_otp u0 code t) = (true, "Email verified successfully!")) /\
  (now + ten_minutes < t ->
   verify_otp u0 code t = (u0, (false, "OTP has expired. Please request a new one."))).
Proof.
  intros Hr. unfold generate_otp. set (u0 := set_otp_attempts _ 0).
  assert (str r <> "") as Hne by (apply str_nonempty; lia).
  split; intros Ht.
  - rewrite (verify_otp_match u0 (str r) (now + ten_minutes) t)
      by (try reflexivity; try assumption; cbn; lia).
    reflexivity.
  - apply (verify_otp_expired u0 (str r) (now + ten_minutes) t);
      try reflexivity; assumption.
Qed.

Lemma otp_valid_until_expiry_witness :
  let '(u0, code) := generate_otp Scenario.pending_user 424242 0 in
  snd (verify_otp u0 code 600000000) = (true, "Email verified successfully!") /\
  verify_otp u0 code 600000001 =
    (u0, (false, "OTP has expired. Please request a new one.")).
Proof.
  pose proof (otp_valid_until_expiry Scenario.pending_user 424242 0 600000000) as H1.
  pose proof (otp_valid_until_expiry Scenario.pending_user 424242 0 600000001) as H2.
  revert H1 H2. destruct (generate_otp Scenario.pending_user 424242 0) as [u0 code].
  intros H1 H2.
  destruct H1 as [H1 _]; [lia|]. destruct H2 as [_ H2]; [lia|].
  split.
  - apply H1. vm_compute. discriminate.
  - apply H2. vm_compute. reflexivity.
Defined.

(** A refused [verify_otp] changes nothing but the counter: the row is left
    as it was, or -- for a wrong code on a live, unlocked OTP -- only
    [otp_attempts] goes up by one, with the remaining attempts in the
    message. *)
Theorem refused_verify_touches_only_counter (u u' : User) (p msg : string)
    (now : datetime) :
  verify_otp u p now = (u', (false, msg)) ->
  u' = u \/
  (u' = set_otp_attempts u (otp_attempts u + 1) /\ otp_attempts u < 5 /\
   msg = invalid_otp_message (4 - otp_attempts u)).
Proof.
  unfold verify_otp.
  destruct (otp_code u) as [code|] eqn:Hc; [|intros [= <- _]; now left].
  destruct (otp_expires_at u) as [expires|] eqn:He; [|intros [= <- _]; now left].
  destruct (negb (truthy code)); [intros [= <- _]; now left|].
  destruct (expires <? now); [intros [= <- _]; now left|].
  destruct (5 <=? otp_attempts u) eqn:Ha; [intros [= <- _]; now left|].
  destruct (String.eqb code p); [discriminate|].
  intros [= <- <-]. right. apply Z.leb_gt in Ha.
  split; [reflexivity|]. split; [exact Ha|].
  cbn. f_equal. lia.
Qed.

Lemma refused_verify_touches_only_counter_witness :
  fst (verify_otp Scenario.pending_user "000000" 5) = Scenario.pending_user \/
  fst (verify_otp Scenario.pending_user "000000" 5) =
    set_otp_attempts Scenario.pending_user 1.
Proof.
  destruct (verify_otp Scenario.pending_user "000000" 5) as [u' [ok msg]] eqn:E.
  assert (ok = false) as -> by (vm_compute in E; congruence).
  destruct (refused_verify_touches_only_counter _ _ _ _ _ E) as [H|(H & _)].
  - left. exact H.
  - right. exact H.
Defined.

(** A new draw replaces the code: whatever state the row was in (locked,
    expired, verified), after [generate_otp] the code of any other draw is
    refused as a first wrong attempt and the new code is accepted. *)
Theorem regenerated_code_replaces_old (u : User) (r r' : Z) (now t : datetime) :
  100000 <= r <= 999999 -> 100000 <= r' <= 999999 -> r <> r' ->
  t <= now + ten_minutes ->
  let '(u1, code') := generate_otp u r' now in
  verify_otp u1 (str r) t =
    (set_otp_attempts u1 1, (false, "Invalid OTP. 4 attempts remaining.")) /\
  snd (verify_otp u1 code' t) = (true, "Email verified successfully!").
Proof.
  intros Hr Hr' Hne Ht. unfold generate_otp. set (u1 := set_otp_attempts _ 0).
  assert (str r' <> "") as Hcode by (apply str_nonempty; lia).
  split.
  - rewrite (verify_otp_mismatch u1 (str r') (now + ten_minutes) t)
      by (try reflexivity; try assumption; try (cbn; lia);
          intros E; apply str_inj in E; contradiction).
    reflexivity.
  - rewrite (verify_otp_match u1 (str r') (now + ten_minutes) t)
      by (try reflexivity; try assumption; cbn; lia).
    reflexivity.
Qed.

Lemma regenerated_code_replaces_old_witness :
  let u1 := fst (generate_otp (set_otp_attempts Scenario.pending_user 5) 654321 100) in
  verify_otp u1 "123456" 200 =
    (set_otp_attempts u1 1, (false, "Invalid OTP. 4 attempts remaining.")) /\
  snd (verify_otp u1 "654321" 200) = (true, "Email verified successfully!").
Proof.
  apply (regenerated_code_replaces_old
           (set_otp_attempts Scenario.pending_user 5) 123456 654321 100 200);
    try lia. vm_compute. discriminate.
Defined.

End OtpMore.

(** ** The two allow-lists *)

Module ListFacts.
Import PyStr PyStrFacts UserModel Validators Membership RoleFacts.

(** No address is accepted both as a student and as a lecturer address, and
    a role other than [student] or [lecturer] (in any letter case) accepts
    no address at all. *)
Theorem roles_exclusive (email user_role : string) :
  accepts email user_role = true ->
  (lower user_role = "student" /\ accepts email "lecturer" = false) \/
  (lower user_role = "lecturer" /\ accepts email "student" = false).
Proof.
  unfold accepts at 1, validate_institutional_email.
  assert (ends_with_any email allowed_student_domains = true ->
          ends_with_any email allowed_lecturer_domains = true -> False) as Hex.
  { rewrite ends_with_any_student, ends_with_any_lecturer.
    intros [Hs|Hs] [Hl|[Hl|Hl]];
      eapply (domains_exclusive (lower email)) in Hs;
      try (rewrite Hl in Hs; discriminate Hs); reflexivity. }
  destruct (String.eqb (lower user_role) "student") eqn:Hrs.
  - apply String.eqb_eq in Hrs. unfold validate_student_email.
    destruct (validate_email email); cbn [negb fst]; [|discriminate].
    destruct (ends_with_any email allowed_student_domains) eqn:Hs; [|discriminate].
    intros _. left. split; [exact Hrs|].
    unfold accepts, validate_institutional_email.
    change (String.eqb (lower "lecturer") "student") with false.
    change (String.eqb (lower "lecturer") "lecturer") with true. cbv iota.
    unfold validate_lecturer_email.
    destruct (validate_email email); [|reflexivity]. cbn [negb].
    destruct (ends_with_any email allowed_lecturer_domains) eqn:Hl; [|reflexivity].
    exfalso. now apply Hex.
  - destruct (String.eqb (lower user_role) "lecturer") eqn:Hrl; [|discriminate].
    apply String.eqb_eq in Hrl. unfold validate_lecturer_email.
    destruct (validate_email email); cbn [negb fst]; [|discriminate].
    destruct (ends_with_any email allowed_lecturer_domains) eqn:Hl; [|discriminate].
    intros _. right. split; [exact Hrl|].
    unfold accepts, validate_institutional_email.
    change (String.eqb (lower "student") "student") with true. cbv iota.
    unfold validate_student_email.
    destruct (validate_email email); [|reflexivity]. cbn [negb].
    destruct (ends_with_any email allowed_student_domains) eqn:Hs; [|reflexivity].
    exfalso. now apply Hex.
Qed.

Lemma roles_exclusive_witness :
  (lower "Lecturer" = "student" /\ accepts "Prof@Staff.KCAU.ac.ke" "lecturer" = false) \/
  (lower "Lecturer" = "lecturer" /\ accepts "Prof@Staff.KCAU.ac.ke" "student" = false).
Proof.
  apply (roles_exclusive "Prof@Staff.KCAU.ac.ke" "Lecturer"). vm_compute. reflexivity.
Defined.

End ListFacts.

(** ** Lookups after a write *)

Module RoundTrips.
Import PyStr PyStrFacts UserModel Store Auth Lifecycle StoreFacts.

Lemma find_app_new (p : User -> bool) (db : list User) (row : User) :
  find p db = None -> p row = true -> find p (db ++ [row]) = Some row.
Proof.
  intros Hn Hp. induction db as [|r db IH]; cbn [app find] in *.
  - now rewrite Hp.
  - destruct (p r); [discriminate Hn | now apply IH].
Qed.

Lemma find_app_old (p : User -> bool) (db : list User) (row u : User) :
  find p db = Some u -> find p (db ++ [row]) = Some u.
Proof.
  intros Hf. induction db as [|r db IH]; cbn [app find] in *; [discriminate Hf|].
  destruct (p r); [exact Hf | now apply IH].
Qed.

Lemma query_get_fresh (db : list User) : query_get db (next_id db) = None.
Proof.
  unfold query_get. destruct (find _ db) as [u|] eqn:Hf; [|reflexivity].
  apply find_some in Hf as [Hin Heq]. apply next_id_above in Hin. lia.
Qed.

Lemma no_collision (db : list User) (v : User) :
  existsb (collides v) db = false ->
  find_by_email db (email v) = None /\
  find_by_username db (username v) = None /\
  (forall g, google_id v = Some g -> find_by_google_id db g = None).
Proof.
  intros Hex.
  assert (forall r, In r db -> collides v r = false) as Hall.
  { intros r Hin. destruct (collides v r) eqn:Hc; [|reflexivity].
    assert (existsb (collides v) db = true); [|congruence].
    apply existsb_exists. eauto. }
  split; [|split; [|intros g Hg]].
  - unfold find_by_email. destruct (find _ db) as [r|] eqn:Hf; [|reflexivity].
    apply find_some in Hf as [Hin Heq]. apply Hall in Hin.
    unfold collides in Hin. rewrite Heq in Hin. discriminate Hin.
  - unfold find_by_username. destruct (find _ db) as [r|] eqn:Hf; [|reflexivity].
    apply find_some in Hf as [Hin Heq]. apply Hall in Hin.
    unfold collides in Hin. rewrite Heq, orb_true_r in Hin. discriminate Hin.
  - unfold find_by_google_id. destruct (find _ db) as [r|] eqn:Hf; [|reflexivity].
    apply find_some in Hf as [Hin Heq]. apply Hall in Hin.
    unfold collides in Hin. rewrite Hg, Heq, !orb_true_r in Hin. discriminate Hin.
Qed.

(** Insert, then look up.  A successful insert appends the row under a key
    no row had; the new row is what each of the four lookups returns for its
    own key, email, username and external id, and every lookup that found a
    row before finds the same row after. *)
Theorem insert_then_lookup (db db' : list User) (v v' : User) :
  insert db v = Ok (db', v') ->
  v' = set_uid v (next_id db) /\ db' = (db ++ [v'])%list /\
  query_get db (uid v') = None /\
  query_get db' (uid v') = Some v' /\
  find_by_email db' (email v) = Some v' /\
  find_by_username db' (username v) = Some v' /\
  (forall g, google_id v = Some g -> find_by_google_id db' g = Some v') /\
  (forall i u, query_get db i = Some u -> query_get db' i = Some u) /\
  (forall e u, find_by_email db e = Some u -> find_by_email db' e = Some u) /\
  (forall n u, find_by_username db n = Some u -> find_by_username db' n = Some u) /\
  (forall g u, find_by_google_id db g = Some u -> find_by_google_id db' g = Some u).
Proof.
  unfold insert. destruct (existsb (collides v) db) eqn:Hex; [discriminate|].
  intros [= <- <-]. destruct (no_collision db v Hex) as (He & Hu & Hg).
  split; [reflexivity|]. split; [reflexivity|].
  split; [apply query_get_fresh|].
  split; [apply find_app_new; [apply query_get_fresh | apply Z.eqb_refl]|].
  split; [apply find_app_new; [exact He | apply String.eqb_refl]|].
  split; [apply find_app_new; [exact Hu | apply String.eqb_refl]|].
  split.
  { intros g Hgv. apply find_app_new; [now apply Hg|].
    cbn. rewrite Hgv. apply String.eqb_refl. }
  repeat split; intros k u Hf; now apply find_app_old.
Qed.

Lemma insert_then_lookup_witness :
  query_get (Scenario.after_four_wrong ++ [set_uid Scenario.federated_user 2])%list 2 =
  Some (set_uid Scenario.federated_user 2).
Proof.
  assert (insert Scenario.after_four_wrong Scenario.federated_user =
          Ok ((Scenario.after_four_wrong ++ [set_uid Scenario.federated_user 2])%list,
              set_uid Scenario.federated_user 2)) as E by (vm_compute; reflexivity).
  destruct (insert_then_lookup _ _ _ _ E) as (_ & _ & _ & H & _). exact H.
Defined.

Lemma query_get_update_other (db : list User) (v : User) (j : Z) :
  j <> uid v -> query_get (update db v) j = query_get db j.
Proof.
  intros Hj. unfold query_get, update.
  induction db as [|r db IH]; [reflexivity|].
  cbn [map find]. destruct (uid r =? uid v) eqn:E.
  - apply Z.eqb_eq in E.
    assert ((uid v =? j) = false) as -> by (apply Z.eqb_neq; congruence).
    assert ((uid r =? j) = false) as -> by (apply Z.eqb_neq; congruence).
    exact IH.
  - destruct (uid r =? j); [reflexivity | exact IH].
Qed.

(** Rewrite, then look up.  After the commit of a loaded row, a lookup by
    its id returns the new version, and a lookup by any other id returns
    what it returned before; the number of rows does not change. *)
Theorem update_then_lookup (db : list User) (u v : User) (i : Z) :
  query_get db i = Some u -> uid v = i ->
  query_get (update db v) i = Some v /\
  (forall j, j <> i -> query_get (update db v) j = query_get db j) /\
  length (update db v) = length db.
Proof.
  intros Hq Hv. split; [|split; [|apply update_length]].
  - pose proof (query_get_some db i u Hq) as [_ Hu].
    apply (FederationFacts.find_update _ db u v Hq); [|congruence].
    cbn. rewrite Hv. apply Z.eqb_refl.
  - intros j Hj. apply query_get_update_other. congruence.
Qed.

Lemma update_then_lookup_witness :
  query_get (update [Scenario.verified_user] (set_last_login Scenario.verified_user (Some 7))) 1
  = Some (set_last_login Scenario.verified_user (Some 7)).
Proof.
  destruct (update_then_lookup [Scenario.verified_user] Scenario.verified_user
              (set_last_login Scenario.verified_user (Some 7)) 1) as [H _];
    [reflexivity | reflexivity | exact H].
Defined.

End RoundTrips.

(** ** The unique constraints hold after every operation *)

Module UniquenessFacts.
Import PyStr PyStrFacts UserModel Store Auth Lifecycle Uniqueness StoreFacts RoundTrips.

Lemma keyed_index (db : list User) (i j : nat) (a b : User) :
  keyed db -> db !! i = Some a -> db !! j = Some b -> uid a = uid b -> i = j.
Proof.
  unfold keyed. intros Hk Ha Hb Heq.
  apply (NoDup_lookup (map uid db) i j (uid a) Hk).
  - change (map uid db) with (uid <$> db). now rewrite list_lookup_fmap, Ha.
  - change (map uid db) with (uid <$> db). rewrite list_lookup_fmap, Hb. cbn. congruence.
Qed.

Lemma lookup_in (db : list User) (i : nat) (a : User) : db !! i = Some a -> In a db.
Proof. intros H. apply list_elem_of_In, list_elem_of_lookup. eauto. Qed.

(** A rewrite keeps a column unique when the row keeps its value or takes
    one no row has. *)
Lemma unique_on_update {K : Type} (key : User -> option K) (db : list User)
    (v0 v : User) :
  keyed db -> unique_on key db -> In v0 db -> uid v = uid v0 ->
  (key v = key v0 \/ forall r k, In r db -> key v = Some k -> key r <> Some k) ->
  unique_on key (update db v).
Proof.
  intros Hk Hu Hin Huid Hkey i j a' b' k Hi Hj Ha Hb.
  rewrite update_lookup in Hi, Hj.
  destruct (db !! i) as [a|] eqn:Hdi; [|discriminate Hi].
  destruct (db !! j) as [b|] eqn:Hdj; [|discriminate Hj].
  cbn in Hi, Hj. injection Hi as <-. injection Hj as <-.
  destruct (uid a =? uid v) eqn:Ea, (uid b =? uid v) eqn:Eb.
  - apply Z.eqb_eq in Ea, Eb. apply (keyed_index db i j a b Hk Hdi Hdj). congruence.
  - apply Z.eqb_eq in Ea.
    assert (a = v0) as -> by (apply (keyed_row db); eauto using lookup_in; congruence).
    destruct Hkey as [Hsame|Hfresh].
    + apply (Hu i j v0 b k Hdi Hdj); congruence.
    + exfalso. apply (Hfresh b k (lookup_in _ _ _ Hdj) Ha Hb).
  - apply Z.eqb_eq in Eb.
    assert (b = v0) as -> by (apply (keyed_row db); eauto using lookup_in; congruence).
    destruct Hkey as [Hsame|Hfresh].
    + apply (Hu i j a v0 k Hdi Hdj); congruence.
    + exfalso. apply (Hfresh a k (lookup_in _ _ _ Hdi) Hb Ha).
  - apply (Hu i j a b k Hdi Hdj Ha Hb).
Qed.

(** An insert keeps a column unique when no row has the new value. *)
Lemma unique_on_insert {K : Type} (key : User -> option K) (db : list User) (v : User) :
  unique_on key db ->
  (forall r k, In r db -> key v = Some k -> key r <> Some k) ->
  unique_on key (db ++ [v]).
Proof.
  intros Hu Hfresh i j a b k Hi Hj Ha Hb.
  destruct (decide (i < length db)%nat) as [Hli|Hli],
           (decide (j < length db)%nat) as [Hlj|Hlj].
  - rewrite lookup_app_l in Hi, Hj by assumption. eauto.
  - rewrite lookup_app_l in Hi by assumption.
    rewrite lookup_app_r in Hj by lia.
    destruct (j - length db)%nat as [|n]; [|destruct n; discriminate Hj].
    injection Hj as <-. exfalso. apply (Hfresh a k (lookup_in _ _ _ Hi) Hb Ha).
  - rewrite lookup_app_l in Hj by assumption.
    rewrite lookup_app_r in Hi by lia.
    destruct (i - length db)%nat as [|n]; [|destruct n; discriminate Hi].
    injection Hi as <-. exfalso. apply (Hfresh b k (lookup_in _ _ _ Hj) Ha Hb).
  - assert (i < length (db ++ [v]))%nat by (now apply lookup_lt_Some in Hi).
    assert (j < length (db ++ [v]))%nat by (now apply lookup_lt_Some in Hj).
    rewrite length_app in *. cbn in *. lia.
Qed.

Lemma find_none_in (p : User -> bool) (db : list User) (r : User) :
  find p db = None -> In r db -> p r = false.
Proof. intros Hf Hin. exact (find_none p db Hf r Hin). Qed.

Lemma changes_unique_store (db db' : list User) :
  changes db db' -> unique_store db -> unique_store db'.
Proof.
  intros [ | v0 v Hin Huid He Hn Hg | v Hex ] (Hk & Hue & Hun & Hug).
  - now repeat split.
  - split; [now apply keyed_update|].
    split; [|split].
    + apply (unique_on_update _ db v0 v); try assumption. left. congruence.
    + apply (unique_on_update _ db v0 v); try assumption. left. congruence.
    + apply (unique_on_update _ db v0 v); try assumption.
      destruct Hg as [Hg|(g & Hg & Hfree)]; [now left|right].
      intros r k Hr Hv Hrk. rewrite Hg in Hv. injection Hv as <-.
      pose proof (find_none_in _ db r Hfree Hr) as Hp. cbn in Hp.
      rewrite Hrk in Hp. cbn in Hp. now rewrite String.eqb_refl in Hp.
  - destruct (no_collision db v Hex) as (He & Hn & Hg).
    split; [now apply keyed_insert|].
    split; [|split].
    + apply unique_on_insert; [exact Hue|].
      intros r k Hr [= <-] [= Hrk].
      pose proof (find_none_in _ db r He Hr) as Hp. cbn in Hp.
      destruct v; cbn in *. rewrite Hrk, String.eqb_refl in Hp. discriminate Hp.
    + apply unique_on_insert; [exact Hun|].
      intros r k Hr [= <-] [= Hrk].
      pose proof (find_none_in _ db r Hn Hr) as Hp. cbn in Hp.
      destruct v; cbn in *. rewrite Hrk, String.eqb_refl in Hp. discriminate Hp.
    + apply unique_on_insert; [exact Hug|].
      intros r k Hr Hv Hrk.
      assert (google_id v = Some k) as Hvk by (destruct v; exact Hv).
      pose proof (find_none_in _ db r (Hg k Hvk) Hr) as Hp. cbn in Hp.
      rewrite Hrk in Hp. cbn in Hp. now rewrite String.eqb_refl in Hp.
Qed.

(** The OTP methods leave the unique columns alone. *)
Lemma verify_otp_columns (u : User) (p : string) (now : datetime) :
  let v := fst (UserModel.verify_otp u p now) in
  uid v = uid u /\ email v = email u /\ username v = username u /\
  google_id v = google_id u.
Proof.
  unfold UserModel.verify_otp.
  repeat match goal with
         | |- context [match ?x with _ => _ end] => destruct x
         end; cbn; auto.
Qed.

Lemma on_row_changes (db : list User) (i : Z) (f : User -> User) :
  (forall u, uid (f u) = uid u /\ email (f u) = email u /\
             username (f u) = username u /\ google_id (f u) = google_id u) ->
  changes db (on_row db i f).
Proof.
  intros Hf. unfold on_row. destruct (query_get db i) as [u|] eqn:Hq; [|constructor].
  apply query_get_some in Hq as [Hin _].
  destruct (Hf u) as (H1 & H2 & H3 & H4).
  apply (changes_update db u); auto.
Qed.

Lemma verify_otp_view_changes (db : list User) (user_id : option Z)
    (otp_code : option string) (now : datetime) :
  changes db (fst (Auth.verify_otp db user_id otp_code now)).
Proof.
  unfold Auth.verify_otp.
  destruct user_id as [i|]; [|constructor].
  destruct otp_code as [code|]; [|constructor].
  destruct ((i =? 0) || negb (truthy code)); [constructor|].
  destruct (query_get db i) as [user|] eqn:Hq; [|constructor].
  apply query_get_some in Hq as [Hin _].
  destruct (is_verified user); [constructor|].
  pose proof (verify_otp_columns user code now) as Hc. cbv zeta in Hc.
  destruct (UserModel.verify_otp user code now) as [v [is_valid message]].
  cbn [fst] in Hc. destruct Hc as (H1 & H2 & H3 & H4).
  destruct is_valid; cbn [negb fst].
  - rewrite update_update by reflexivity.
    apply (changes_update db user); auto.
  - apply (changes_update db user); auto.
Qed.

Lemma resend_otp_changes (db : list User) (user_id : option Z) (r : Z) (now : datetime) :
  changes db (fst (resend_otp db user_id r now)).
Proof.
  unfold resend_otp.
  destruct user_id as [i|]; [|constructor].
  destruct (i =? 0); [constructor|].
  destruct (query_get db i) as [user|] eqn:Hq; [|constructor].
  apply query_get_some in Hq as [Hin _].
  destruct (is_verified user); [constructor|].
  unfold generate_otp. cbn [fst negb send_otp_email].
  apply (changes_update db user); auto.
Qed.

Lemma google_auth_changes (db : list User) (token : option string)
    (verified : option (gmap string string)) (now : datetime) :
  changes db (fst (google_auth db token verified now)).
Proof.
  unfold google_auth.
  destruct (negb (truthy_opt token)); [constructor|].
  destruct verified as [idinfo|]; [|constructor].
  destruct (idinfo !! "iss") as [iss|]; [|constructor].
  destruct (negb _); [constructor|].
  destruct (idinfo !! "sub") as [sub|]; [|constructor].
  destruct (idinfo !! "email") as [mail|]; [|constructor].
  destruct (find_by_google_id db sub) as [user|] eqn:Hg.
  { apply find_by_google_id_some in Hg as [Hin _]. cbn [fst].
    apply (changes_update db user); auto. }
  destruct (find_by_email db mail) as [user|] eqn:He.
  { apply find_by_email_some in He as [Hin _]. cbn [fst].
    destruct (negb (truthy_opt (profile_picture (set_google_id user (Some sub)))));
      (apply (changes_update db user); auto; right; exists sub; auto). }
  unfold insert.
  match goal with
  | |- context [existsb (collides ?v) db] => destruct (existsb (collides v) db) eqn:Hex
  end; [constructor|]. cbn [fst].
  match goal with
  | |- changes db (db ++ [set_uid (set_last_login ?v ?t) _]) =>
      apply (changes_insert db (set_last_login v t))
  end.
  exact Hex.
Qed.

Section WithHasher.
Context `{W : Werkzeug}.

Lemma login_changes (db : list User) (data : gmap string string) (now : datetime) :
  changes db (fst (login db data now)).
Proof.
  unfold login.
  destruct (_ || _); [constructor|].
  destruct (negb (Validators.validate_email _)); [constructor|].
  destruct (find_by_email db _) as [user|] eqn:He; [|constructor].
  apply find_by_email_some in He as [Hin _].
  destruct (check_password user _) as [[|]|e]; try constructor.
  destruct (negb (is_active user)); [constructor|].
  destruct (negb (is_verified user)); [constructor|]. cbn [fst].
  apply (changes_update db user); auto.
Qed.

Lemma register_changes (db : list User) (data : gmap string string) (salt : string)
    (r : Z) (now : datetime) :
  changes db (fst (register db data salt r now)).
Proof.
  unfold register.
  destruct (find _ required_fields); [constructor|].
  destruct (Validators.validate_institutional_email _ _) as [is_valid message].
  destruct (negb is_valid); [constructor|].
  destruct (negb (Validators.validate_password _)); [constructor|].
  destruct (found (find_by_email db _)); [constructor|].
  destruct (found (find_by_username db _)); [constructor|].
  unfold generate_otp, insert.
  match goal with
  | |- context [existsb (collides ?v) db] => destruct (existsb (collides v) db) eqn:Hex
  end; [constructor|].
  cbn [negb send_otp_email fst].
  now apply (changes_insert db).
Qed.

Lemma step_changes (db : list User) (op : Op) : changes db (step db op).
Proof.
  destruct op; cbn [step].
  - apply register_changes.
  - apply verify_otp_view_changes.
  - apply resend_otp_changes.
  - apply login_changes.
  - apply google_auth_changes.
  - apply on_row_changes. intros u. cbn. auto.
  - apply on_row_changes. intros u. apply verify_otp_columns.
  - apply on_row_changes. intros u. cbn. auto.
Qed.

End WithHasher.

(** Whatever operations run -- the five views, the OTP methods on a stored
    row -- the table keeps what the schema declares: ids, emails, usernames
    and external ids stay pairwise different.  In particular the commits that
    rewrite a row never meet a unique constraint. *)
Theorem unique_columns_preserved `{W : Werkzeug} (db : list User) (ops : list Op) :
  unique_store db -> unique_store (run db ops).
Proof.
  revert db. induction ops as [|op ops IH]; intros db Hdb; [exact Hdb|].
  cbn [run fold_left]. apply IH.
  apply (changes_unique_store db); [apply step_changes | exact Hdb].
Qed.

Lemma unique_columns_preserved_witness :
  unique_store
    (run (W := Scenario.plain_hasher) []
       [ OpRegister (Scenario.body "jane@students.kcau.ac.ke" "jane" "password123")
           "salt" 123456 0;
         OpGoogleAuth (Some "token")
           (Some (Scenario.assertion "g-1" "jane@students.kcau.ac.ke")) 1;
         OpGoogleAuth (Some "token") (Some (Scenario.assertion "g-2" "jane@kcau.ac.ke")) 2 ]).
Proof.
  apply (unique_columns_preserved (W := Scenario.plain_hasher) []).
  split; [constructor|]. repeat split; intros i j a b k Hi; discriminate Hi.
Defined.

End UniquenessFacts.

(** ** The views, composed *)

Module ViewFacts.
Import PyStr PyStrFacts UserModel Store Auth Lifecycle Validators Membership Rows.
Import StoreFacts RoleFacts AddressFacts RegisterFacts LoginFacts RoundTrips OtpFacts.

Lemma next_id_pos (db : list User) : 0 < next_id db.
Proof.
  unfold next_id. assert (0 <= fold_right Z.max 0 (map uid db)); [|lia].
  induction db as [|r db IH]; cbn [map fold_right]; lia.
Qed.

Lemma query_get_update (db : list User) (u v : User) (i : Z) :
  query_get db i = Some u -> uid v = i -> query_get (update db v) i = Some v.
Proof.
  intros Hq Hv. pose proof (query_get_some db i u Hq) as [_ Hu].
  apply (FederationFacts.find_update _ db u v Hq); [|congruence].
  cbn. rewrite Hv. apply Z.eqb_refl.
Qed.

(** The view on a live code. *)
Lemma verify_view_success (db : list User) (u : User) (i : Z) (code : string)
    (expires t : datetime) :
  query_get db i = Some u -> i <> 0 -> is_verified u = false ->
  otp_code u = Some code -> code <> "" ->
  otp_expires_at u = Some expires -> t <= expires -> otp_attempts u < 5 ->
  Auth.verify_otp db (Some i) (Some code) t =
  (update db (verified_row u t),
   (Authenticated "Email verified successfully! Welcome to MySchool!"
      (to_dict (verified_row u t)) (AccessToken i) (RefreshToken i), 200)).
Proof.
  intros Hq Hi Hv Hc Hne He Ht Ha.
  pose proof (query_get_some db i u Hq) as [_ Hu].
  unfold Auth.verify_otp.
  apply Z.eqb_neq in Hi. rewrite Hi.
  pose proof Hne as Htr. apply truthy_true in Htr. rewrite Htr. cbn [negb orb].
  rewrite Hq, Hv.
  rewrite (verify_otp_match u code expires t Hc He Hne Ht Ha).
  cbn [negb]. rewrite update_update by reflexivity.
  unfold verified_row, create_access_token, create_refresh_token. cbn [uid].
  rewrite <- Hu. reflexivity.
Qed.

(** The view on a wrong code for a live, unlocked OTP. *)
Lemma verify_view_wrong (db : list User) (u : User) (i : Z) (code p : string)
    (expires t : datetime) :
  query_get db i = Some u -> i <> 0 -> is_verified u = false ->
  otp_code u = Some code -> code <> "" -> p <> "" -> p <> code ->
  otp_expires_at u = Some expires -> t <= expires -> otp_attempts u < 5 ->
  Auth.verify_otp db (Some i) (Some p) t =
  (update db (set_otp_attempts u (otp_attempts u + 1)),
   (Error (invalid_otp_message (5 - (otp_attempts u + 1))), 400)).
Proof.
  intros Hq Hi Hv Hc Hne Hp Hpc He Ht Ha.
  unfold Auth.verify_otp.
  apply Z.eqb_neq in Hi. rewrite Hi.
  apply truthy_true in Hp. rewrite Hp. cbn [negb orb].
  rewrite Hq, Hv.
  rewrite (verify_otp_mismatch u code expires t Hc He Hne p Ht Ha Hpc).
  reflexivity.
Qed.

(** What a 201 of [register] means: exactly one row was appended, under a
    new id that the answer carries; it holds the address in lower case (a
    valid address), the stripped username, the hash of a password of eight
    characters or more, is active and not verified, has the drawn code
    pending for ten minutes with no failed attempt, and has the role the
    address was accepted under. *)
Theorem register_success `{W : Werkzeug} (db db1 : list User)
    (data : gmap string string) (salt : string) (r : Z) (now : datetime)
    (answer : Body) :
  register db data salt r now = (db1, (answer, 201)) ->
  exists row : User,
    db1 = (db ++ [row])%list /\
    answer = Registered
      "Registration successful! Please check your email for a 6-digit verification code."
      (role row) (uid row) /\
    uid row = next_id db /\ query_get db (uid row) = None /\
    email row = lower (item data "email") /\ validate_email (email row) = true /\
    username row = strip (item data "username") /\
    password_hash row = Some (generate_password_hash salt (item data "password")) /\
    8 <= len (item data "password") /\
    is_active row = true /\ is_verified row = false /\
    otp_code row = Some (str r) /\ otp_expires_at row = Some (now + ten_minutes) /\
    otp_attempts row = 0 /\
    ((role row = "student" /\
      ends_with_any (item data "email") allowed_student_domains = true) \/
     (role row = "lecturer" /\
      (endswith (item data "email") "@kcau.ac.ke" = true \/
       endswith (item data "email") "@staff.kcau.ac.ke" = true))).
Proof.
  intros Hreg. pose proof Hreg as Hreg'.
  apply register_created in Hreg' as (Hc & He & Hu & Hfree & ->).
  rewrite (register_insert db data salt r now Hc He Hu) in Hreg.
  unfold insert in Hreg. rewrite Hfree in Hreg. injection Hreg as <-.
  destruct Hc as (_ & Hacc & Hpw).
  pose proof (accepted_stored_form _ Hacc) as [Hstrip Hvalid].
  exists (set_uid (new_user data salt r now) (next_id db)).
  cbn [set_uid new_user uid email username password_hash is_active is_verified
         otp_code otp_expires_at otp_attempts role].
  rewrite Hstrip.
  repeat (split; [first [reflexivity | assumption | apply query_get_fresh] |]).
  split.
  { unfold validate_password in Hpw. destruct (len _ <? 8) eqn:E; [discriminate|].
    now apply Z.ltb_ge in E. }
  repeat (split; [reflexivity|]).
  destruct (detect_role_cases (item data "email")) as [Hr|Hr].
  - left. split; [exact Hr|]. rewrite Hr in Hacc.
    unfold accepts, validate_institutional_email in Hacc.
    change (String.eqb (lower "student") "student") with true in Hacc. cbv iota in Hacc.
    unfold validate_student_email in Hacc.
    destruct (validate_email _); cbn [negb] in Hacc; [|discriminate].
    now destruct (ends_with_any _ allowed_student_domains).
  - right. split; [exact Hr|]. now apply detect_role_lecturer.
Qed.

Lemma register_success_witness :
  exists row : User,
    fst (register (W := Scenario.plain_hasher) []
           (Scenario.body "Jane@students.kcau.ac.ke" " jane " "password123")
           "salt" 123456 0) = [row] /\
    email row = "jane@students.kcau.ac.ke" /\ username row = "jane" /\
    role row = "student" /\ is_verified row = false.
Proof.
  destruct (register (W := Scenario.plain_hasher) []
              (Scenario.body "Jane@students.kcau.ac.ke" " jane " "password123")
              "salt" 123456 0) as [db1 [answer st]] eqn:E.
  assert (st = 201) as -> by (vm_compute in E; congruence).
  destruct (register_success _ _ _ _ _ _ _ E)
    as (row & -> & _ & _ & _ & He & _ & Hu & _ & _ & _ & Hv & _ & _ & _ & Hr).
  exists row. split; [reflexivity|]. split; [exact He|]. split; [exact Hu|].
  split; [|exact Hv].
  destruct Hr as [[Hr _]|[_ [Hr|Hr]]]; [exact Hr | vm_compute in Hr; discriminate Hr ..].
Defined.

(** A request that is not served leaves the table as it was: [register]
    unless it answers 201, and [login], [resend_otp] and [google_auth]
    unless they answer 200. *)
Theorem refused_requests_leave_table `{W : Werkzeug} (db db' : list User)
    (body : Body) (status : Z) :
  (forall data salt r now,
      register db data salt r now = (db', (body, status)) -> status <> 201 -> db' = db) /\
  (forall data now,
      login db data now = (db', (body, status)) -> status <> 200 -> db' = db) /\
  (forall user_id r now,
      resend_otp db user_id r now = (db', (body, status)) -> status <> 200 -> db' = db) /\
  (forall token verified now,
      google_auth db token verified now = (db', (body, status)) ->
      status <> 200 -> db' = db).
Proof.
  split; [|split; [|split]].
  - intros data salt r now. unfold register, generate_otp, insert.
    repeat match goal with
           | |- context [match ?x with _ => _ end] => destruct x
           end; intros [= <- <- <-] Hst; try reflexivity; now destruct Hst.
  - intros data now. unfold login.
    repeat match goal with
           | |- context [match ?x with _ => _ end] => destruct x
           end; intros [= <- <- <-] Hst; try reflexivity; now destruct Hst.
  - intros user_id r now. unfold resend_otp, generate_otp. cbn [send_otp_email negb].
    repeat match goal with
           | |- context [match ?x with _ => _ end] => destruct x
           end; intros [= <- <- <-] Hst; try reflexivity; now destruct Hst.
  - intros token verified now. unfold google_auth, insert.
    repeat match goal with
           | |- context [match ?x with _ => _ end] => destruct x
           end; intros [= <- <- <-] Hst; try reflexivity; now destruct Hst.
Qed.

Lemma refused_requests_leave_table_witness :
  fst (login (W := Scenario.plain_hasher) [Scenario.verified_user]
         (Scenario.credentials "a@b.com" "wrong") 3) = [Scenario.verified_user].
Proof.
  destruct (login (W := Scenario.plain_hasher) [Scenario.verified_user]
              (Scenario.credentials "a@b.com" "wrong") 3) as [db' [body st]] eqn:E.
  destruct (refused_requests_leave_table (W := Scenario.plain_hasher)
              [Scenario.verified_user] db' body st) as (_ & Hlogin & _).
  apply (Hlogin _ _ E). vm_compute in E. injection E as _ _ <-. discriminate.
Defined.

(** Register, verify, log in.  After a 201 of [register], the OTP view
    called with the new id and the drawn code within ten minutes answers 200
    with tokens for that id and a verified user; after that, [login] with any
    spelling of the registered address and the registered password answers
    200 with tokens for the same id -- given that the library verifies a
    password against its own hash. *)
Theorem register_verify_login `{W : Werkzeug} (db db1 : list User)
    (data creds : gmap string string) (salt e : string) (r : Z)
    (now t t' : datetime) (answer : Body) :
  (forall s p, check_password_hash (generate_password_hash s p) p = true) ->
  register db data salt r now = (db1, (answer, 201)) ->
  100000 <= r <= 999999 -> t <= now + ten_minutes ->
  creds !! "email" = Some e -> lower e = lower (item data "email") ->
  creds !! "password" = Some (item data "password") ->
  let i := next_id db in
  let '(db2, second) := Auth.verify_otp db1 (Some i) (Some (str r)) t in
  let '(db3, third) := login db2 creds t' in
  (exists d, second =
     (Authenticated "Email verified successfully! Welcome to MySchool!" d
        (AccessToken i) (RefreshToken i), 200) /\
     d_id d = i /\ d_is_verified d = true /\ d_last_login d = Some t) /\
  (exists d, third =
     (Authenticated "Login successful" d (AccessToken i) (RefreshToken i), 200) /\
     d_id d = i /\ d_is_verified d = true /\ d_last_login d = Some t') /\
  length db3 = S (length db).
Proof.
  intros Hcomplete Hreg Hr Ht He Hl Hp i.
  apply register_created in Hreg as ((Hfields & Hacc & Hpw) & _ & _ & Hfree & ->).
  apply accepted_stored_form in Hacc as [Hstrip Hvalid].
  set (row := set_uid (new_user data salt r now) (next_id db)).
  assert (query_get (db ++ [row]) i = Some row) as Hq.
  { apply find_app_new; [apply query_get_fresh | apply Z.eqb_refl]. }
  assert (str r <> "") as Hne by (apply str_nonempty; lia).
  rewrite (verify_view_success (db ++ [row]) row i (str r) (now + ten_minutes) t)
    by (try reflexivity; try assumption; try (cbn; lia);
        pose proof (next_id_pos db); subst i; lia).
  set (row2 := verified_row row t).
  assert (find_by_email (db ++ [row]) (strip (lower e)) = Some row) as Hfind.
  { rewrite Hl, Hstrip. apply find_app_new.
    - apply no_collision_email in Hfree. cbn [email new_user] in Hfree.
      now rewrite Hstrip in Hfree.
    - cbn. rewrite Hstrip. apply String.eqb_refl. }
  assert (find_by_email (update (db ++ [row]) row2) (strip (lower e)) = Some row2)
    as Hfind2.
  { apply (FederationFacts.find_update _ _ row row2 Hfind); [|reflexivity].
    subst row2 row. cbn. rewrite Hl, !Hstrip. apply String.eqb_refl. }
  assert (item data "password" <> "") as Hpne.
  { intros E. rewrite E in Hpw. vm_compute in Hpw. discriminate Hpw. }
  rewrite (login_resolved _ creds e (item data "password") row2 t' He Hp Hpne);
    [| now rewrite Hl, Hstrip | exact Hfind2].
  unfold check_password. cbn [password_hash row2 verified_row row set_uid new_user
    set_last_login set_otp_attempts set_otp_expires_at set_otp_code set_is_verified].
  rewrite Hcomplete. cbn [negb is_active is_verified].
  split; [eexists; split; [reflexivity | repeat split]|].
  split; [eexists; split; [reflexivity | repeat split]|].
  rewrite !update_length, length_app. cbn. lia.
Qed.

Lemma register_verify_login_witness :
  let db1 := fst (register (W := Scenario.plain_hasher) []
                    (Scenario.body "jane@students.kcau.ac.ke" "jane" "password123")
                    "salt" 123456 0) in
  let '(db2, second) := Auth.verify_otp db1 (Some 1) (Some "123456") 5 in
  let '(db3, third) :=
    login (W := Scenario.plain_hasher) db2
      (Scenario.credentials "JANE@students.kcau.ac.ke" "password123") 9 in
  snd second = 200 /\ snd third = 200 /\ length db3 = 1%nat.
Proof.
  pose proof (register_verify_login (W := Scenario.plain_hasher) []
                (fst (register (W := Scenario.plain_hasher) []
                    (Scenario.body "jane@students.kcau.ac.ke" "jane" "password123")
                    "salt" 123456 0))
                (Scenario.body "jane@students.kcau.ac.ke" "jane" "password123")
                (Scenario.credentials "JANE@students.kcau.ac.ke" "password123")
                "salt" "JANE@students.kcau.ac.ke" 123456 0 5 9
                (Registered
                   "Registration successful! Please check your email for a 6-digit verification code."
                   "student" 1)) as H.
  cbv zeta in H |- *.
  change (next_id []) with 1 in H. change (str 123456) with "123456" in H.
  destruct (Auth.verify_otp _ (Some 1) (Some "123456") 5) as [db2 second].
  destruct (login db2 _ 9) as [db3 third].
  destruct H as ((d & -> & _) & (d' & -> & _) & Hlen).
  - intros s p. apply String.eqb_refl.
  - vm_compute. reflexivity.
  - lia.
  - vm_compute. discriminate.
  - reflexivity.
  - reflexivity.
  - reflexivity.
  - repeat split. exact Hlen.
Defined.

(** Resend always recovers.  For an unverified account in any OTP state --
    no code, expired, locked after five failures -- [resend_otp] answers 200
    and the OTP view then accepts the new code within ten minutes: 200,
    tokens for the account, the stored row verified with its OTP fields
    cleared. *)
Theorem resend_then_verify (db : list User) (u : User) (i r : Z) (now t : datetime) :
  query_get db i = Some u -> i <> 0 -> is_verified u = false ->
  100000 <= r <= 999999 -> t <= now + ten_minutes ->
  let '(db1, first) := resend_otp db (Some i) r now in
  let '(db2, second) := Auth.verify_otp db1 (Some i) (Some (str r)) t in
  first = (OtpResent "New OTP code sent to your email", 200) /\
  (exists d, second =
     (Authenticated "Email verified successfully! Welcome to MySchool!" d
        (AccessToken i) (RefreshToken i), 200) /\
     d_is_verified d = true) /\
  (exists row, query_get db2 i = Some row /\ is_verified row = true /\
               otp_code row = None /\ otp_expires_at row = None /\
               otp_attempts row = 0) /\
  length db2 = length db.
Proof.
  intros Hq Hi Hv Hr Ht.
  pose proof (query_get_some db i u Hq) as [_ Hu].
  unfold resend_otp. pose proof Hi as Hi'. apply Z.eqb_neq in Hi'. rewrite Hi', Hq, Hv.
  unfold generate_otp. cbn [send_otp_email negb].
  set (u1 := set_otp_attempts _ 0).
  assert (query_get (update db u1) i = Some u1) as Hq1
    by (apply (query_get_update db u u1 i Hq); exact Hu).
  assert (str r <> "") as Hne by (apply str_nonempty; lia).
  rewrite (verify_view_success (update db u1) u1 i (str r) (now + ten_minutes) t)
    by (try reflexivity; try assumption; cbn; lia).
  split; [reflexivity|].
  split; [eexists; split; [reflexivity | reflexivity]|].
  split.
  - exists (verified_row u1 t). split; [|repeat split].
    apply (query_get_update _ u1 _ i Hq1). exact Hu.
  - now rewrite !update_length.
Qed.

Lemma resend_then_verify_witness :
  let locked := set_otp_attempts Scenario.pending_user 5 in
  let '(db1, first) := resend_otp [locked] (Some 1) 777777 100 in
  let '(db2, second) := Auth.verify_otp db1 (Some 1) (Some "777777") 200 in
  snd first = 200 /\ snd second = 200.
Proof.
  pose proof (resend_then_verify [set_otp_attempts Scenario.pending_user 5]
                (set_otp_attempts Scenario.pending_user 5) 1 777777 100 200) as H.
  cbv zeta in H |- *. change (str 777777) with "777777" in H.
  destruct (resend_otp _ (Some 1) 777777 100) as [db1 first].
  destruct (Auth.verify_otp db1 (Some 1) (Some "777777") 200) as [db2 second].
  destruct H as (-> & (d & -> & _) & _).
  - reflexivity.
  - discriminate.
  - reflexivity.
  - lia.
  - vm_compute. discriminate.
  - split; reflexivity.
Defined.

(** A wrong code is recorded.  For an unverified account with a live code
    and fewer than five failures, the OTP view answers a wrong code with 400
    and the remaining attempts, and the failure is committed: the stored row
    is the old one with the counter one higher. *)
Theorem wrong_code_is_recorded (db : list User) (u : User) (i : Z)
    (code p : string) (expires t : datetime) :
  query_get db i = Some u -> i <> 0 -> is_verified u = false ->
  otp_code u = Some code -> code <> "" -> p <> "" -> p <> code ->
  otp_expires_at u = Some expires -> t <= expires -> otp_attempts u < 5 ->
  let '(db1, answer) := Auth.verify_otp db (Some i) (Some p) t in
  answer = (Error (invalid_otp_message (4 - otp_attempts u)), 400) /\
  query_get db1 i = Some (set_otp_attempts u (otp_attempts u + 1)) /\
  (forall j, j <> i -> query_get db1 j = query_get db j).
Proof.
  intros Hq Hi Hv Hc Hne Hp Hpc He Ht Ha.
  pose proof (query_get_some db i u Hq) as [_ Hu].
  rewrite (verify_view_wrong db u i code p expires t) by assumption.
  split; [do 2 f_equal; f_equal; lia|]. split.
  - apply (query_get_update db u _ i Hq). exact Hu.
  - intros j Hj. apply query_get_update_other. cbn. congruence.
Qed.

Lemma wrong_code_is_recorded_witness :
  let '(db1, answer) := Auth.verify_otp [Scenario.pending_user] (Some 1) (Some "000000") 5 in
  answer = (Error "Invalid OTP. 4 attempts remaining.", 400) /\
  query_get db1 1 = Some (set_otp_attempts Scenario.pending_user 1).
Proof.
  pose proof (wrong_code_is_recorded [Scenario.pending_user] Scenario.pending_user 1
                "123456" "000000" 600000000 5) as H.
  destruct (Auth.verify_otp [Scenario.pending_user] (Some 1) (Some "000000") 5)
    as [db1 answer].
  destruct H as (H1 & H2 & _);
    try reflexivity; try discriminate; try lia.
  split; [exact H1 | exact H2].
Defined.

(** The case analysis of [login] on an answer that carries tokens. *)
Ltac login_granted :=
  unfold login, item;
  destruct (_ !! "email") as [e|]; cbn [truthy_opt negb orb]; [|discriminate];
  destruct (_ !! "password") as [pw|]; cbn [truthy_opt negb orb];
    [|rewrite orb_true_r; discriminate];
  cbn [default from_option id];
  destruct (negb (truthy e) || negb (truthy pw)); [discriminate|];
  destruct (negb (validate_email _)); [discriminate|];
  destruct (find_by_email _ _) as [u|] eqn:Hf; [|discriminate];
  unfold check_password;
  destruct (password_hash u) as [h|] eqn:Hh; [|discriminate];
  destruct (check_password_hash h pw) eqn:Hc; [|discriminate];
  destruct (is_active u) eqn:Ha; cbn [negb]; [|discriminate];
  destruct (is_verified u) eqn:Hv; cbn [negb]; [|discriminate];
  intros [= <- <- <- <- <- <-].

(** [login] hands out tokens only to an account it found under the folded
    address, whose stored hash verifies the password as typed, and which is
    active and verified; the tokens are minted for that account, the answer
    is 200, and the only change to the table is its [last_login]. *)
Theorem login_grants_only_checked_accounts `{W : Werkzeug} (db db' : list User)
    (data : gmap string string) (now : datetime) (msg : string) (d : UserDict)
    (a rt : Token) (status : Z) :
  login db data now = (db', (Authenticated msg d a rt, status)) ->
  exists (e pw h : string) (u : User),
    data !! "email" = Some e /\ data !! "password" = Some pw /\
    find_by_email db (strip (lower e)) = Some u /\
    password_hash u = Some h /\ check_password_hash h pw = true /\
    is_active u = true /\ is_verified u = true /\
    status = 200 /\ a = AccessToken (uid u) /\ rt = RefreshToken (uid u) /\
    d = to_dict (set_last_login u (Some now)) /\
    db' = update db (set_last_login u (Some now)).
Proof.
  login_granted. exists e, pw, h, u. repeat split; assumption.
Qed.

Lemma login_grants_only_checked_accounts_witness :
  exists u : User,
    find_by_email [Scenario.verified_user] (strip (lower "A@B.com")) = Some u /\
    is_active u = true /\ is_verified u = true.
Proof.
  destruct (login (W := Scenario.plain_hasher) [Scenario.verified_user]
              (Scenario.credentials "A@B.com" "Secret1") 9) as [db' [body st]] eqn:E.
  assert (exists msg d a rt, body = Authenticated msg d a rt) as (msg & d & a & rt & ->).
  { vm_compute in E. injection E as _ <- _. eauto. }
  destruct (login_grants_only_checked_accounts _ _ _ _ _ _ _ _ _ E)
    as (e & pw & h & u & He & _ & Hf & _ & _ & Ha & Hv & _).
  assert (e = "A@B.com") as -> by (vm_compute in He; congruence).
  exists u. split; [exact Hf|]. split; [exact Ha | exact Hv].
Defined.

(** An unknown address and a wrong password look the same: for two bodies
    with valid addresses and non-empty passwords, one naming no account and
    one naming an account whose hash refuses the password, [login] returns
    the same store and the same 401 answer. *)
Theorem unknown_email_and_wrong_password_alike `{W : Werkzeug} (db : list User)
    (data1 data2 : gmap string string) (e1 e2 p1 p2 h : string) (u : User)
    (now : datetime) :
  data1 !! "email" = Some e1 -> data1 !! "password" = Some p1 -> p1 <> "" ->
  validate_email (strip (lower e1)) = true ->
  find_by_email db (strip (lower e1)) = None ->
  data2 !! "email" = Some e2 -> data2 !! "password" = Some p2 -> p2 <> "" ->
  validate_email (strip (lower e2)) = true ->
  find_by_email db (strip (lower e2)) = Some u ->
  password_hash u = Some h -> check_password_hash h p2 = false ->
  login db data1 now = login db data2 now /\
  login db data2 now = (db, (Error "Invalid email or password", 401)).
Proof.
  intros He1 Hp1 Hn1 Hv1 Hf1 He2 Hp2 Hn2 Hv2 Hf2 Hh Hc.
  rewrite (login_unknown db data1 e1 p1 now He1 Hp1 Hn1 Hv1 Hf1).
  rewrite (login_resolved db data2 e2 p2 u now He2 Hp2 Hn2 Hv2 Hf2).
  unfold check_password. rewrite Hh, Hc. split; reflexivity.
Qed.

Lemma unknown_email_and_wrong_password_alike_witness :
  login (W := Scenario.plain_hasher) [Scenario.verified_user]
    (Scenario.credentials "nobody@b.com" "Secret1") 9 =
  login (W := Scenario.plain_hasher) [Scenario.verified_user]
    (Scenario.credentials "a@b.com" "guess") 9.
Proof.
  apply (unknown_email_and_wrong_password_alike (W := Scenario.plain_hasher)
           [Scenario.verified_user]
           (Scenario.credentials "nobody@b.com" "Secret1")
           (Scenario.credentials "a@b.com" "guess")
           "nobody@b.com" "a@b.com" "Secret1" "guess"
           "Secret1" Scenario.verified_user 9);
    try reflexivity; try discriminate; vm_compute; reflexivity.
Defined.

(** After a 200 of [login], the identity of its tokens is served by the two
    token-guarded views: [get_current_user] returns the user the login
    returned, and [refresh] mints a new access token for it. *)
Theorem session_after_login `{W : Werkzeug} (db db' : list User)
    (data : gmap string string) (now : datetime) (msg : string) (d : UserDict)
    (a rt : Token) (status : Z) :
  login db data now = (db', (Authenticated msg d a rt, status)) ->
  a = AccessToken (d_id d) /\ rt = RefreshToken (d_id d) /\
  Session.get_current_user db' (d_id d) = (Session.CurrentUser d, 200) /\
  Session.refresh db' (d_id d) = (Session.AccessOnly (AccessToken (d_id d)), 200).
Proof.
  login_granted.
  cbn [d_id to_dict uid set_last_login create_access_token create_refresh_token].
  split; [reflexivity|]. split; [reflexivity|].
  apply find_by_email_some in Hf as [Hin _].
  assert (exists u0, query_get db (uid u) = Some u0) as [u0 Hq].
  { unfold query_get. destruct (find _ db) as [u0|] eqn:Hn; [eauto|].
    pose proof (find_none _ _ Hn u Hin) as Hp. cbn in Hp.
    now rewrite Z.eqb_refl in Hp. }
  unfold Session.get_current_user, Session.refresh.
  rewrite (query_get_update db u0 (set_last_login u (Some now)) (uid u) Hq eq_refl).
  cbn [is_active set_last_login uid]. rewrite Ha. split; reflexivity.
Qed.

Lemma session_after_login_witness :
  Session.refresh
    (fst (login (W := Scenario.plain_hasher) [Scenario.verified_user]
            (Scenario.credentials "A@B.com" "Secret1") 9)) 1 =
  (Session.AccessOnly (AccessToken 1), 200).
Proof.
  destruct (login (W := Scenario.plain_hasher) [Scenario.verified_user]
              (Scenario.credentials "A@B.com" "Secret1") 9) as [db' [body st]] eqn:E.
  assert (exists msg d rt, body = Authenticated msg d (AccessToken 1) rt /\ d_id d = 1)
    as (msg & d & rt & -> & Hd).
  { vm_compute in E. injection E as _ <- _. eauto 6. }
  destruct (session_after_login _ _ _ _ _ _ _ _ _ E) as (_ & _ & _ & H).
  rewrite Hd in H. exact H.
Defined.

Lemma find_update_fresh (p : User -> bool) (db : list User) (v0 v : User) :
  find p db = None -> In v0 db -> uid v = uid v0 -> p v = true ->
  find p (update db v) = Some v.
Proof.
  intros Hn Hin Huid Hp. induction db as [|r db IH]; [destruct Hin|].
  cbn [find] in Hn. destruct (p r) eqn:Hr; [discriminate Hn|].
  cbn [update map find]. destruct (uid r =? uid v) eqn:E.
  - now rewrite Hp.
  - rewrite Hr. destruct Hin as [->|Hin].
    + rewrite Huid, Z.eqb_refl in E. discriminate E.
    + now apply IH.
Qed.

Lemma query_get_member (db : list User) (u : User) :
  In u db -> exists u0, query_get db (uid u) = Some u0.
Proof.
  intros Hin. unfold query_get. destruct (find _ db) as [u0|] eqn:Hn; [eauto|].
  pose proof (find_none _ _ Hn u Hin) as Hp. cbn in Hp.
  now rewrite Z.eqb_refl in Hp.
Qed.

(** The second branch of the resolution, spelled out. *)
Lemma google_auth_linked (db : list User) (token : string)
    (idinfo : gmap string string) (g mail : string) (u : User) (now : datetime) :
  valid_assertion token idinfo g ->
  idinfo !! "email" = Some mail ->
  find_by_google_id db g = None ->
  find_by_email db mail = Some u ->
  google_auth db (Some token) (Some idinfo) now =
  (update db (linked_row u g (default "" (idinfo !! "picture")) now),
   (Authenticated "Google authentication successful"
      (to_dict (linked_row u g (default "" (idinfo !! "picture")) now))
      (AccessToken (uid u)) (RefreshToken (uid u)), 200)).
Proof.
  intros Hvalid Hmail Hg He.
  destruct (FederationFacts.valid_assertion_issuer _ _ _ Hvalid) as (iss & Hiss & Hok).
  destruct Hvalid as (Htoken & _ & Hsub & _).
  unfold google_auth. cbn [truthy_opt].
  apply truthy_true in Htoken. rewrite Htoken. cbn [negb].
  rewrite Hiss, Hok, Hsub, Hmail, Hg, He. unfold linked_row.
  destruct (negb (truthy_opt (profile_picture (set_google_id u (Some g))))); reflexivity.
Qed.

(** A verified Google assertion is always served.  Whatever the table
    holds, [google_auth] answers 200 with tokens minted for one account; that
    account carries the external id, is stamped with the login time, is the
    one the next lookup by external id finds, and at most one row was added.
    Neither [is_active] nor [is_verified] is consulted. *)
Theorem federated_login_always_served (db : list User) (token : string)
    (idinfo : gmap string string) (g : string) (now : datetime) :
  valid_assertion token idinfo g ->
  exists (db' : list User) (row : User),
    google_auth db (Some token) (Some idinfo) now =
    (db', (Authenticated "Google authentication successful" (to_dict row)
             (AccessToken (uid row)) (RefreshToken (uid row)), 200)) /\
    google_id row = Some g /\ last_login row = Some now /\
    find_by_google_id db' g = Some row /\
    (length db <= length db' <= S (length db))%nat.
Proof.
  intros Hvalid. pose proof Hvalid as (_ & _ & _ & [mail Hmail]).
  destruct (find_by_google_id db g) as [u|] eqn:Hg.
  - pose proof (find_by_google_id_some db g u Hg) as [_ Hgu].
    exists (update db (set_last_login u (Some now))), (set_last_login u (Some now)).
    split; [exact (FederationFacts.google_auth_known db u token idinfo g now Hg Hvalid)|].
    split; [exact Hgu|]. split; [reflexivity|]. split.
    + apply (FederationFacts.find_update _ db u _ Hg); [|reflexivity].
      cbv beta. change (google_id (set_last_login u (Some now))) with (google_id u).
      rewrite Hgu. cbn [opt_eqb]. apply String.eqb_refl.
    + rewrite update_length. lia.
  - destruct (find_by_email db mail) as [u|] eqn:He.
    + pose proof (find_by_email_some db mail u He) as [Hin _].
      set (row := linked_row u g (default "" (idinfo !! "picture")) now).
      assert (uid row = uid u /\ google_id row = Some g /\ last_login row = Some now)
        as (Hu & Hgr & Hl).
      { unfold row, linked_row.
        destruct (negb (truthy_opt (profile_picture (set_google_id u (Some g)))));
          repeat split. }
      exists (update db row), row.
      split.
      { rewrite (google_auth_linked db token idinfo g mail u now Hvalid Hmail Hg He).
        fold row. now rewrite Hu. }
      split; [exact Hgr|]. split; [exact Hl|]. split.
      * apply (find_update_fresh _ db u row Hg Hin Hu).
        cbv beta. rewrite Hgr. cbn [opt_eqb]. apply String.eqb_refl.
      * rewrite update_length. lia.
    + destruct (FederationFacts.google_auth_creates db token idinfo g mail now
                  Hvalid Hmail Hg He)
        as (row & Hrun & Hid & _ & _ & _ & Hgr & _ & _).
      exists (db ++ [row])%list, row.
      split; [now rewrite Hid|].
      split; [exact Hgr|]. split.
      { unfold google_auth in Hrun. revert Hrun.
        destruct (FederationFacts.valid_assertion_issuer _ _ _ Hvalid) as (iss & Hiss & Hok).
        destruct Hvalid as (Htoken & _ & Hsub & _).
        cbn [truthy_opt]. apply truthy_true in Htoken. rewrite Htoken. cbn [negb].
        rewrite Hiss, Hok, Hsub, Hmail, Hg, He. unfold insert.
        destruct (existsb _ db); [discriminate|].
        intros [= Hrow _]. apply app_inj_tail in Hrow as [_ <-]. reflexivity. }
      split.
      * apply find_app_new; [exact Hg|]. cbv beta. rewrite Hgr. cbn [opt_eqb]. apply String.eqb_refl.
      * rewrite length_app. cbn. lia.
Qed.

Lemma federated_login_always_served_witness :
  exists (db' : list User) (row : User),
    google_auth [Scenario.verified_user] (Some "token")
      (Some (Scenario.assertion "g-5" "a@b.com")) 3 =
    (db', (Authenticated "Google authentication successful" (to_dict row)
             (AccessToken (uid row)) (RefreshToken (uid row)), 200)) /\
    google_id row = Some "g-5" /\ last_login row = Some 3 /\
    find_by_google_id db' "g-5" = Some row /\
    (length [Scenario.verified_user] <= length db' <= S (length [Scenario.verified_user]))%nat.
Proof.
  apply (federated_login_always_served [Scenario.verified_user] "token"
           (Scenario.assertion "g-5" "a@b.com") "g-5" 3).
  repeat split; try discriminate; try (left; reflexivity); eauto.
Defined.

(** Linking by email.  When the external id is new and a row has the
    asserted email, [google_auth] serves that row: same id, email, password
    hash, [is_active] and [is_verified] (an unverified account is not
    verified by this), the external id set to the asserted one whatever it
    was, a non-empty picture kept, an absent or empty one replaced by the
    asserted picture. *)
Theorem federated_login_links_by_email (db : list User) (token : string)
    (idinfo : gmap string string) (g mail : string) (u : User) (now : datetime) :
  valid_assertion token idinfo g ->
  idinfo !! "email" = Some mail ->
  find_by_google_id db g = None ->
  find_by_email db mail = Some u ->
  let picture := default "" (idinfo !! "picture") in
  let row := linked_row u g picture now in
  google_auth db (Some token) (Some idinfo) now =
    (update db row,
     (Authenticated "Google authentication successful" (to_dict row)
        (AccessToken (uid u)) (RefreshToken (uid u)), 200)) /\
  uid row = uid u /\ email row = email u /\ username row = username u /\
  password_hash row = password_hash u /\
  is_active row = is_active u /\ is_verified row = is_verified u /\
  google_id row = Some g /\
  (forall pic, profile_picture u = Some pic -> pic <> "" ->
               profile_picture row = Some pic) /\
  (profile_picture u = None \/ profile_picture u = Some "" ->
   profile_picture row = Some picture).
Proof.
  intros Hvalid Hmail Hg He picture row.
  split; [exact (google_auth_linked db token idinfo g mail u now Hvalid Hmail Hg He)|].
  unfold row, linked_row.
  destruct (profile_picture u) as [pic|] eqn:Hp.
  - destruct (truthy pic) eqn:Ht.
    + assert (negb (truthy_opt (profile_picture (set_google_id u (Some g)))) = false)
        as -> by (cbn; now rewrite Hp; cbn; rewrite Ht).
      cbn. repeat split; try assumption.
      * intros pic' [= <-] _. exact Hp.
      * intros [H|H]; [discriminate H|]. injection H as ->. discriminate Ht.
    + assert (negb (truthy_opt (profile_picture (set_google_id u (Some g)))) = true)
        as -> by (cbn; now rewrite Hp; cbn; rewrite Ht).
      cbn. repeat split.
      intros pic' [= <-] Hne. apply truthy_true in Hne. congruence.
  - assert (negb (truthy_opt (profile_picture (set_google_id u (Some g)))) = true)
      as -> by (cbn; now rewrite Hp).
    cbn. repeat split. intros pic' H. discriminate H.
Qed.

Lemma federated_login_links_by_email_witness :
  let row := linked_row Scenario.pending_user "g-5" "https://example.org/p.png" 3 in
  google_auth [Scenario.pending_user] (Some "token")
    (Some (Scenario.assertion "g-5" "jane@students.kcau.ac.ke")) 3 =
    ([row],
     (Authenticated "Google authentication successful" (to_dict row)
        (AccessToken 1) (RefreshToken 1), 200)) /\
  is_verified row = false /\ google_id row = Some "g-5".
Proof.
  destruct (federated_login_links_by_email [Scenario.pending_user] "token"
              (Scenario.assertion "g-5" "jane@students.kcau.ac.ke") "g-5"
              "jane@students.kcau.ac.ke" Scenario.pending_user 3)
    as (H1 & _ & _ & _ & _ & _ & H7 & H8 & _).
  - repeat split; try discriminate; try (left; reflexivity); eauto.
  - reflexivity.
  - reflexivity.
  - reflexivity.
  - intros row. split; [exact H1|]. split; [exact H7 | exact H8].
Defined.

(** First federated login, then a second.  With neither the external id
    nor the email in the table, the first [google_auth] creates a verified
    account under the next id, named by the username loop, and the second
    serves that same account without adding a row. *)
Theorem federated_signup_then_login (db : list User) (token1 token2 : string)
    (idinfo1 idinfo2 : gmap string string) (g mail : string) (now1 now2 : datetime) :
  valid_assertion token1 idinfo1 g -> idinfo1 !! "email" = Some mail ->
  valid_assertion token2 idinfo2 g ->
  find_by_google_id db g = None -> find_by_email db mail = None ->
  let i := next_id db in
  let '(db1, first) := google_auth db (Some token1) (Some idinfo1) now1 in
  let '(db2, second) := google_auth db1 (Some token2) (Some idinfo2) now2 in
  exists d1 d2 : UserDict,
    first = (Authenticated "Google authentication successful" d1
               (AccessToken i) (RefreshToken i), 200) /\
    second = (Authenticated "Google authentication successful" d2
                (AccessToken i) (RefreshToken i), 200) /\
    d_id d1 = i /\ d_id d2 = i /\
    d_email d1 = mail /\ d_email d2 = mail /\
    d_username d1 = unique_username db (split_head "@" mail) /\
    d_username d2 = d_username d1 /\
    d_is_verified d1 = true /\ d_last_login d2 = Some now2 /\
    length db1 = S (length db) /\ length db2 = S (length db).
Proof.
  intros Hv1 Hmail Hv2 Hg He i.
  destruct (FederationFacts.google_auth_creates db token1 idinfo1 g mail now1
              Hv1 Hmail Hg He)
    as (row & Hrun & Hid & Hem & Hun & _ & Hgr & _ & Hver).
  rewrite Hrun.
  assert (find_by_google_id (db ++ [row]) g = Some row) as Hfind.
  { apply find_app_new; [exact Hg|]. cbv beta. rewrite Hgr. cbn [opt_eqb]. apply String.eqb_refl. }
  rewrite (FederationFacts.google_auth_known (db ++ [row]) row token2 idinfo2 g now2
             Hfind Hv2).
  exists (to_dict row), (to_dict (set_last_login row (Some now2))).
  rewrite Hid. cbn [d_id d_email d_username d_is_verified d_last_login to_dict
                      uid email username is_verified last_login set_last_login].
  rewrite update_length, length_app. cbn [length].
  repeat split; try assumption; lia.
Qed.

Lemma federated_signup_then_login_witness :
  let '(db1, first) :=
    google_auth [Scenario.federated_user] (Some "t1")
      (Some (Scenario.assertion "g-9" "bob@kcau.ac.ke")) 1 in
  let '(db2, second) :=
    google_auth db1 (Some "t2") (Some (Scenario.assertion "g-9" "bob@kcau.ac.ke")) 2 in
  exists d1 d2 : UserDict,
    first = (Authenticated "Google authentication successful" d1
               (AccessToken 2) (RefreshToken 2), 200) /\
    second = (Authenticated "Google authentication successful" d2
                (AccessToken 2) (RefreshToken 2), 200) /\
    d_username d1 = "bob1" /\ length db2 = 2%nat.
Proof.
  pose proof (federated_signup_then_login [Scenario.federated_user] "t1" "t2"
                (Scenario.assertion "g-9" "bob@kcau.ac.ke")
                (Scenario.assertion "g-9" "bob@kcau.ac.ke") "g-9" "bob@kcau.ac.ke" 1 2) as H.
  cbv zeta in H. change (next_id [Scenario.federated_user]) with 2 in H.
  destruct (google_auth [Scenario.federated_user] (Some "t1") _ 1) as [db1 first].
  destruct (google_auth db1 (Some "t2") _ 2) as [db2 second].
  destruct H as (d1 & d2 & H1 & H2 & _ & _ & _ & _ & H7 & _ & _ & _ & _ & H12).
  - repeat split; try discriminate; try (left; reflexivity); eauto.
  - reflexivity.
  - repeat split; try discriminate; try (left; reflexivity); eauto.
  - reflexivity.
  - reflexivity.
  - exists d1, d2. split; [exact H1|]. split; [exact H2|]. split; [|exact H12].
    rewrite H7. vm_compute. reflexivity.
Defined.

(** A deactivated account and Google.  [google_auth] does not look at
    [is_active]: a deactivated account with a known external id is answered
    200 with tokens.  Of the two token-guarded views, [refresh] then refuses
    the identity with 404 while [get_current_user] serves it. *)
Theorem deactivated_account_federated_login (db : list User) (token : string)
    (idinfo : gmap string string) (g : string) (u : User) (now : datetime) :
  valid_assertion token idinfo g ->
  find_by_google_id db g = Some u -> is_active u = false ->
  let '(db1, answer) := google_auth db (Some token) (Some idinfo) now in
  (exists d, answer = (Authenticated "Google authentication successful" d
                         (AccessToken (uid u)) (RefreshToken (uid u)), 200) /\
             d_is_active d = false) /\
  Session.refresh db1 (uid u) = (Session.SessionError "User not found or inactive", 404) /\
  (exists d, Session.get_current_user db1 (uid u) = (Session.CurrentUser d, 200) /\
             d_is_active d = false).
Proof.
  intros Hvalid Hg Ha.
  rewrite (FederationFacts.google_auth_known db u token idinfo g now Hg Hvalid).
  pose proof (find_by_google_id_some db g u Hg) as [Hin _].
  destruct (query_get_member db u Hin) as [u0 Hq].
  pose proof (query_get_update db u0 (set_last_login u (Some now)) (uid u) Hq eq_refl)
    as Hq1.
  unfold Session.refresh, Session.get_current_user. rewrite Hq1.
  cbn [is_active set_last_login]. rewrite Ha. cbn [negb].
  split; [eexists; split; [reflexivity | exact Ha]|].
  split; [reflexivity|]. eexists. split; [reflexivity | exact Ha].
Qed.

Lemma deactivated_account_federated_login_witness :
  let off := set_uid (mkUser 0 "bob@example.com" "bob" None "Bob" "" None None
                        "student" false true None None 0 (Some "g-1") 0 None) 4 in
  Session.refresh
    (fst (google_auth [off] (Some "token")
            (Some (Scenario.assertion "g-1" "bob@example.com")) 5)) 4 =
  (Session.SessionError "User not found or inactive", 404).
Proof.
  intros off.
  pose proof (deactivated_account_federated_login [off] "token"
                (Scenario.assertion "g-1" "bob@example.com") "g-1" off 5) as H.
  destruct (google_auth [off] (Some "token") _ 5) as [db1 answer].
  destruct H as (_ & H & _).
  - repeat split; try discriminate; try (left; reflexivity); eauto.
  - reflexivity.
  - reflexivity.
  - exact H.
Defined.

(** An address outside both allow-lists never registers.  With all required
    fields present, [register] answers it with 400 -- the format message or
    the student-domain message, since the resolver falls back to [student]
    -- and leaves the table as it was, whatever the other fields hold. *)
Theorem register_rejects_unlisted `{W : Werkzeug} (db : list User)
    (data : gmap string string) (salt : string) (r : Z) (now : datetime) :
  Forall (fun field => truthy_opt (data !! field) = true) required_fields ->
  ends_with_any (item data "email") allowed_student_domains = false ->
  ends_with_any (item data "email") allowed_lecturer_domains = false ->
  exists message : string,
    register db data salt r now = (db, (Error message, 400)) /\
    (message = "Invalid email format" \/
     message = "Email must be from an institutional domain (e.g., @students.kcau.ac.ke)").
Proof.
  intros Hfields Hs Hl.
  destruct (outside_lists_rejected _ Hs Hl) as [Hrole Hrej].
  unfold register. rewrite (required_fields_present data Hfields), Hrole.
  unfold accepts in Hrej. revert Hrej.
  unfold validate_institutional_email.
  change (String.eqb (lower "student") "student") with true. cbv iota.
  unfold validate_student_email. rewrite Hs.
  destruct (validate_email (item data "email")); cbn [negb fst]; intros _;
    eexists; (split; [reflexivity|]); auto.
Qed.

Lemma register_rejects_unlisted_witness :
  exists message : string,
    register (W := Scenario.plain_hasher) [Scenario.pending_user]
      (Scenario.body "mallory@gmail.com" "mallory" "password123") "salt" 123456 0 =
    ([Scenario.pending_user], (Error message, 400)) /\
    (message = "Invalid email format" \/
     message = "Email must be from an institutional domain (e.g., @students.kcau.ac.ke)").
Proof.
  apply (register_rejects_unlisted (W := Scenario.plain_hasher) [Scenario.pending_user]
           (Scenario.body "mallory@gmail.com" "mallory" "password123") "salt" 123456 0).
  - repeat constructor.
  - vm_compute. reflexivity.
  - vm_compute. reflexivity.
Defined.

End ViewFacts.

(** ** The seeding script *)

Module SeedingFacts.
Import PyStr PyStrFacts UserModel Store Auth Lifecycle Validators Seeding.
Import StoreFacts RegisterFacts LoginFacts RoundTrips.

(** A seeded account can log in at once, and seeding it again changes
    nothing.  When [create_test_user] creates an account for an address that
    is valid and already in lower case, [login] with that address and
    password answers 200 with tokens for the new id -- no OTP step, the row is
    born verified -- given that the library verifies a password against its
    own hash; a second call for the same email, whatever the other arguments,
    returns the table as it is. *)
Theorem seeded_account_logs_in `{W : Werkzeug} (db db1 : list User)
    (email password first_name last_name role salt : string)
    (creds : gmap string string) (now t : datetime) :
  (forall s p, check_password_hash (generate_password_hash s p) p = true) ->
  find_by_email db email = None ->
  create_test_user db email password first_name last_name role salt now = Ok db1 ->
  strip (lower email) = email -> validate_email email = true -> password <> "" ->
  creds !! "email" = Some email -> creds !! "password" = Some password ->
  (exists d, snd (login db1 creds t) =
             (Authenticated "Login successful" d
                (AccessToken (next_id db)) (RefreshToken (next_id db)), 200) /\
             d_email d = email /\ d_username d = split_head "@" email /\
             d_role d = role /\ d_is_verified d = true) /\
  (forall password' first_name' last_name' role' salt' now',
      create_test_user db1 email password' first_name' last_name' role' salt' now'
      = Ok db1).
Proof.
  intros Hcomplete Hfree Hrun Hnorm Hvalid Hpw He Hp.
  unfold create_test_user in Hrun. rewrite Hfree in Hrun. cbn [found] in Hrun.
  unfold insert in Hrun.
  match type of Hrun with
  | context [existsb (collides ?v) db] =>
      set (user := v) in *; destruct (existsb (collides user) db); [discriminate Hrun|]
  end.
  injection Hrun as <-.
  set (row := set_uid user (next_id db)).
  assert (find_by_email (db ++ [row]) email = Some row) as Hfind.
  { apply find_app_new; [exact Hfree|]. cbn. apply String.eqb_refl. }
  split.
  - rewrite (login_resolved (db ++ [row]) creds email password row t He Hp Hpw);
      [| now rewrite Hnorm | now rewrite Hnorm].
    unfold check_password. cbn [password_hash row user set_uid set_password
      set_password_hash].
    rewrite Hcomplete. cbn [negb is_active is_verified snd].
    eexists. split; [reflexivity | repeat split].
  - intros password' first_name' last_name' role' salt' now'.
    unfold create_test_user. now rewrite Hfind.
Qed.

(** The two accounts of the script's [main], created on an empty table,
    log in with the credentials the script prints. *)
Lemma seeded_account_logs_in_witness :
  let W := Scenario.plain_hasher in
  match main [] ["s1"; "s2"] 0 with
  | Raise _ => False
  | Ok db =>
      snd (snd (login db (Scenario.credentials "lecturer1@kcau.ac.ke" "password123") 5))
      = 200 /\
      main db ["s3"; "s4"] 1 = Ok db
  end.
Proof.
  intros W.
  destruct (create_test_user (W := W) [] "1902909test1@students.kcau.ac.ke"
              "password123" "Test" "User 1" "student" "s1" 0) as [db0|] eqn:E0;
    [|vm_compute in E0; discriminate E0].
  destruct (create_test_user (W := W) db0 "lecturer1@kcau.ac.ke"
              "password123" "Test" "Lecturer" "lecturer" "s2" 0) as [db1|] eqn:E1;
    [|vm_compute in E0; injection E0 as <-; vm_compute in E1; discriminate E1].
  assert (main (W := W) [] ["s1"; "s2"] 0 = Ok db1) as ->.
  { unfold main, test_users. cbn [create_all hd tl]. rewrite E0.
    cbn [create_all hd tl]. now rewrite E1. }
  destruct (seeded_account_logs_in (W := W) db0 db1 "lecturer1@kcau.ac.ke"
              "password123" "Test" "Lecturer" "lecturer" "s2"
              (Scenario.credentials "lecturer1@kcau.ac.ke" "password123") 0 5)
    as ((d & Hlogin & _) & Hagain); try reflexivity; try discriminate.
  - intros s p. apply String.eqb_refl.
  - vm_compute in E0. injection E0 as <-. vm_compute. reflexivity.
  - exact E1.
  - split; [now rewrite Hlogin|].
    vm_compute in E0. injection E0 as <-. vm_compute in E1. injection E1 as <-.
    vm_compute. reflexivity.
Defined.

(** The script does not resolve username clashes.  For an email that is not
    in the table whose local part is already a username, the insert of
    [create_test_user] meets the unique constraint: the call ends in
    [IntegrityError] -- where [google_auth] would have tried [name1],
    [name2], ... *)
Theorem seeding_fails_on_taken_local_part `{W : Werkzeug} (db : list User)
    (email password first_name last_name role salt : string) (now : datetime) :
  find_by_email db email = None ->
  found (find_by_username db (split_head "@" email)) = true ->
  create_test_user db email password first_name last_name role salt now
  = Raise IntegrityError /\
  unique_username db (split_head "@" email) <> split_head "@" email.
Proof.
  intros Hfree Htaken. split.
  - unfold create_test_user. rewrite Hfree. cbn [found]. unfold insert.
    match goal with
    | |- context [existsb (collides ?v) db] =>
        rewrite (collides_stored db v (or_intror Htaken))
    end.
    reflexivity.
  - destruct (UsernameFacts.username_loop_terminates (S (length db)) db
                (split_head "@" email)) as [result Hloop]; [lia|].
    unfold unique_username. rewrite Hloop. cbn [default from_option id].
    destruct (UsernameFacts.username_loop_some _ db _ 0 result Hloop)
      as (k & _ & -> & Hk & _).
    intros E. change (split_head "@" email) with (candidate (split_head "@" email) 0) in E at 2.
    apply UsernameFacts.candidate_inj in E. subst k.
    unfold username_taken in Hk. cbn [candidate] in Hk. congruence.
Qed.

Lemma seeding_fails_on_taken_local_part_witness :
  create_test_user (W := Scenario.plain_hasher) [Scenario.pending_user]
    "jane@kcau.ac.ke" "password123" "Jane" "Doe" "lecturer" "salt" 0
  = Raise IntegrityError.
Proof.
  apply (seeding_fails_on_taken_local_part (W := Scenario.plain_hasher)
           [Scenario.pending_user] "jane@kcau.ac.ke"); reflexivity.
Defined.

End SeedingFacts.
